(** * High Score Tracker: the game store, its storage service and its forms

    A shallow embedding of [stores/GameStore.js], [services/StorageService.js],
    [components/AddGameForm.js] and [components/AddScoreForm.js].

    Modelling conventions.
    - A JavaScript number held in [Score.value] is a finite number; it is
      modelled exactly as a rational in lowest terms ([Qc]), so that [===]
      on numbers is Leibniz equality.  [NaN] appears only where the code can
      produce it (an invalid [Date], [parseFloat]): type [jsnum].
    - A [Date] is its time value in milliseconds, or the invalid date.
    - Strings are [string]; [toLowerCase] and [trim] act on the ASCII range.
    - Asynchronous methods are run to completion one after the other
      (single-threaded event loop), as functions on an explicit world made of
      the store and the state of its storage backend.
    - [uuidv4()] and [new Date()] are inputs of the operation that calls
      them.
    - An object used as a map is the list of its own properties in the
      order of their creation, read over [Object.prototype]; whether
      [localStorage.setItem] accepts a write is a property of the browser. *)

From Stdlib Require Import String Ascii Bool ZArith QArith Qcanon Lia.
From Stdlib Require Import DecimalString DecimalZ List Sorted Permutation.
Import ListNotations.

Close Scope Qc_scope.
Close Scope Q_scope.
Local Open Scope string_scope.
Local Open Scope list_scope.

(** ** JavaScript values *)

Definition number := Qc.

(** A number that may be [NaN]. *)
Inductive jsnum : Type :=
| NaN
| Num (q : number).

Definition num_ltb (a b : number) : bool :=
  match (a ?= b)%Qc with Lt => true | _ => false end.

Definition num_of_Z (z : Z) : number := Q2Qc (inject_Z z).

Definition zero : number := num_of_Z 0.

(** [a - b] on possibly-NaN numbers. *)
Definition jsnum_sub (a b : jsnum) : jsnum :=
  match a, b with
  | Num x, Num y => Num (x - y)%Qc
  | _, _ => NaN
  end.

(** [v > 0]; false on [NaN]. *)
Definition jsnum_pos (v : jsnum) : bool :=
  match v with
  | NaN => false
  | Num q => num_ltb zero q
  end.

(** [x || d] on an optional string: [undefined] and the empty string are
    falsy. *)
Definition str_or (x : option string) (d : string) : string :=
  match x with
  | Some s => if String.eqb s EmptyString then d else s
  | None => d
  end.

Definition truthy_str (x : option string) : bool :=
  match x with
  | Some s => negb (String.eqb s EmptyString)
  | None => false
  end.

(** *** Dates *)

Inductive Date : Type :=
| InvalidDate
| TimeValue (t : Z).

Definition getTime (d : Date) : jsnum :=
  match d with
  | InvalidDate => NaN
  | TimeValue t => Num (num_of_Z t)
  end.

(** [a >= b] and [a <= b] on dates compare the time values; a comparison
    with an invalid date is false. *)
Definition date_geb (a b : Date) : bool :=
  match a, b with
  | TimeValue x, TimeValue y => (y <=? x)%Z
  | _, _ => false
  end.

Definition date_leb (a b : Date) : bool :=
  match a, b with
  | TimeValue x, TimeValue y => (x <=? y)%Z
  | _, _ => false
  end.

(** *** Strings *)

Definition is_space (c : ascii) : bool :=
  let n := nat_of_ascii c in
  (Nat.eqb n 32 || (Nat.leb 9 n && Nat.leb n 13))%bool.

Fixpoint trimStart (s : string) : string :=
  match s with
  | EmptyString => EmptyString
  | String c r => if is_space c then trimStart r else s
  end.

Fixpoint all_space (s : string) : bool :=
  match s with
  | EmptyString => true
  | String c r => (is_space c && all_space r)%bool
  end.

Fixpoint trimEnd (s : string) : string :=
  match s with
  | EmptyString => EmptyString
  | String c r => if all_space s then EmptyString else String c (trimEnd r)
  end.

Definition trim (s : string) : string := trimEnd (trimStart s).

Definition lower_char (c : ascii) : ascii :=
  let n := nat_of_ascii c in
  if (Nat.leb 65 n && Nat.leb n 90)%bool then ascii_of_nat (n + 32) else c.

Fixpoint toLowerCase (s : string) : string :=
  match s with
  | EmptyString => EmptyString
  | String c r => String (lower_char c) (toLowerCase r)
  end.

(** *** Arrays *)

(** [Array.prototype.sort(compareFn)]: the sort is stable, and [a] is moved
    behind [b] only when [compareFn(a, b) > 0] (a [NaN] result counts as 0).
    For a consistent comparator the result is determined by these two facts;
    it is computed here by stable insertion. *)
Section Sort.
Context {A : Type} (compareFn : A -> A -> jsnum).

Fixpoint sort_insert (x : A) (l : list A) : list A :=
  match l with
  | [] => [x]
  | y :: r =>
      if jsnum_pos (compareFn x y) then y :: sort_insert x r
      else x :: l
  end.

Fixpoint sort (l : list A) : list A :=
  match l with
  | [] => []
  | x :: r => sort_insert x (sort r)
  end.
End Sort.

(** [arr.slice(0, n)] for an integer [n]: a negative [n] counts from the
    end. *)
Definition slice0 {A : Type} (n : Z) (l : list A) : list A :=
  if (0 <=? n)%Z then firstn (Z.to_nat n) l
  else firstn (length l - Z.to_nat (- n)) l.

(** [arr.findIndex(p)], with [None] for [-1]. *)
Fixpoint findIndex {A : Type} (p : A -> bool) (l : list A) : option nat :=
  match l with
  | [] => None
  | x :: r => if p x then Some 0 else option_map S (findIndex p r)
  end.

(** [arr[i] = x] for an index inside the array. *)
Fixpoint set_nth {A : Type} (i : nat) (x : A) (l : list A) : list A :=
  match l, i with
  | [], _ => []
  | _ :: r, 0 => x :: r
  | y :: r, S j => y :: set_nth j x r
  end.

(** ** Data model ([types/index.js]) *)

Module Player.
Record t : Type := mk {
  id : string;
  name : string;
  createdAt : Date
}.
End Player.

Module Score.
Record t : Type := mk {
  id : string;
  playerId : string;
  playerName : string;
  value : number;
  isTime : bool;
  achievedAt : Date;
  notes : option string
}.
End Score.

Module Game.
(** [createdAt] and [updatedAt] are absent from an object that was built
    without them. *)
Record t : Type := mk {
  id : string;
  name : string;
  description : option string;
  isTimeBased : bool;
  scores : list Score.t;
  createdAt : option Date;
  updatedAt : option Date
}.

(** [{...game, scores: s}] *)
Definition with_scores (g : t) (s : list Score.t) : t :=
  mk (id g) (name g) (description g) (isTimeBased g) s
     (createdAt g) (updatedAt g).
End Game.

Inductive SortOrder : Type :=
| BEST_FIRST
| WORST_FIRST
| NEWEST_FIRST
| OLDEST_FIRST.

Module ScoreFilter.
Record t : Type := mk {
  playerId : option string;
  dateFrom : option Date;
  dateTo : option Date;
  limit : option Z
}.
End ScoreFilter.

Module ApiResponse.
Record t (T : Type) : Type := mk {
  success : bool;
  data : option T;
  error : option string
}.
Arguments mk {T}.
Arguments success {T}.
Arguments data {T}.
Arguments error {T}.

Definition ok {T : Type} (x : T) : t T := mk true (Some x) None.
Definition fail {T : Type} (msg : string) : t T := mk false None (Some msg).
End ApiResponse.

Module GameSummary.
Record t : Type := mk {
  id : string;
  name : string;
  updatedAt : Date
}.
End GameSummary.

(** ** The storage interface

    What the store expects of [storageService]: four asynchronous methods
    whose promise is fulfilled with an [ApiResponse] or rejected with a
    thrown value.  [B] is the state of the backend. *)

Inductive Thrown : Type :=
| ErrorObject (message : string)
| OtherValue.

(** [error instanceof Error ? error.message : "Unknown error"] *)
Definition thrown_message (e : Thrown) : string :=
  match e with
  | ErrorObject m => m
  | OtherValue => "Unknown error"
  end.

Inductive Outcome (T : Type) : Type :=
| Fulfilled (response : ApiResponse.t T)
| Rejected (e : Thrown).
Arguments Fulfilled {T}.
Arguments Rejected {T}.

Module Storage.
Class Api (B : Type) : Type := {
  saveGame : Game.t -> B -> Outcome bool * B;
  loadGame : string -> B -> Outcome Game.t * B;
  listGames : B -> Outcome (list GameSummary.t) * B;
  deleteGame : string -> B -> Outcome bool * B
}.
End Storage.

(** ** [stores/GameStore.js] *)

Record LeaderboardEntry : Type := mkEntry {
  player : Player.t;
  bestScore : Score.t
}.

Module GameStore.

Record t : Type := mk {
  games : list Game.t;
  currentGame : option Game.t;
  players : list Player.t;
  isLoading : bool;
  error : option string
}.

Definition setLoading (loading : bool) (s : t) : t :=
  mk (games s) (currentGame s) (players s) loading (error s).

Definition setError (e : option string) (s : t) : t :=
  mk (games s) (currentGame s) (players s) (isLoading s) e.

Definition setGames (gs : list Game.t) (s : t) : t :=
  mk gs (currentGame s) (players s) (isLoading s) (error s).

(** The fresh identifiers and the clock readings consumed by
    [initializeSampleData], in the order of the calls. *)
Record SampleFresh : Type := mkSampleFresh {
  player1_id : string;
  player1_at : Date;
  player2_id : string;
  player2_at : Date;
  game_id : string;
  score1_id : string;
  score1_at : Date;
  score2_id : string;
  score2_at : Date
}.

Definition initializeSampleData (f : SampleFresh) (s : t) : t :=
  let player1 := Player.mk (player1_id f) "Alice" (player1_at f) in
  let player2 := Player.mk (player2_id f) "Bob" (player2_at f) in
  let sampleGame :=
    Game.mk (game_id f) "Racing Game" (Some "Best lap times") true
      [ Score.mk (score1_id f) (Player.id player1) (Player.name player1)
          (Q2Qc (191 # 2)) true (score1_at f) (Some "Perfect run!");
        Score.mk (score2_id f) (Player.id player2) (Player.name player2)
          (Q2Qc (491 # 5)) true (score2_at f) (Some "Good attempt") ]
      None None in
  mk [sampleGame] (currentGame s) [player1; player2] (isLoading s) (error s).

Definition constructor (f : SampleFresh) : t :=
  initializeSampleData f (mk [] None [] false None).

(** [this.games.find((g) => g.id === gameId)] *)
Definition findGame (gameId : string) (gs : list Game.t) : option Game.t :=
  find (fun g => String.eqb (Game.id g) gameId) gs.

(** *** Queries *)

Definition by_value (asc : bool) (a b : Score.t) : jsnum :=
  if asc then Num (Score.value a - Score.value b)%Qc
  else Num (Score.value b - Score.value a)%Qc.

Definition by_date (asc : bool) (a b : Score.t) : jsnum :=
  if asc then jsnum_sub (getTime (Score.achievedAt a)) (getTime (Score.achievedAt b))
  else jsnum_sub (getTime (Score.achievedAt b)) (getTime (Score.achievedAt a)).

Definition applyFilter (filter : option ScoreFilter.t) (scores : list Score.t)
  : list Score.t :=
  match filter with
  | None => scores
  | Some f =>
      let s1 :=
        if truthy_str (ScoreFilter.playerId f)
        then List.filter
               (fun s => String.eqb (Score.playerId s)
                           (str_or (ScoreFilter.playerId f) EmptyString)) scores
        else scores in
      let s2 :=
        match ScoreFilter.dateFrom f with
        | Some d => List.filter (fun s => date_geb (Score.achievedAt s) d) s1
        | None => s1
        end in
      match ScoreFilter.dateTo f with
      | Some d => List.filter (fun s => date_leb (Score.achievedAt s) d) s2
      | None => s2
      end
  end.

Definition applyLimit (filter : option ScoreFilter.t) (scores : list Score.t)
  : list Score.t :=
  match filter with
  | Some f =>
      match ScoreFilter.limit f with
      | Some n => if (n =? 0)%Z then scores else slice0 n scores
      | None => scores
      end
  | None => scores
  end.

(** [sortOrder] defaults to [BEST_FIRST]. *)
Definition getScores (s : t) (gameId : string) (sortOrder : option SortOrder)
  (filter : option ScoreFilter.t) : list Score.t :=
  match findGame gameId (games s) with
  | None => []
  | Some game =>
      let scores := applyFilter filter (Game.scores game) in
      let sorted :=
        match sortOrder with
        | None | Some BEST_FIRST =>
            sort (by_value (Game.isTimeBased game)) scores
        | Some WORST_FIRST =>
            sort (by_value (negb (Game.isTimeBased game))) scores
        | Some NEWEST_FIRST => sort (by_date false) scores
        | Some OLDEST_FIRST => sort (by_date true) scores
        end in
      applyLimit filter sorted
  end.

(** The callback of [playerScores.reduce]. *)
Definition better (isTimeBased : bool) (best current : Score.t) : Score.t :=
  if isTimeBased
  then if num_ltb (Score.value current) (Score.value best) then current else best
  else if num_ltb (Score.value best) (Score.value current) then current else best.

Definition getBestScore (s : t) (gameId playerId : string) : option Score.t :=
  match findGame gameId (games s) with
  | None => None
  | Some game =>
      let playerScores :=
        List.filter (fun sc => String.eqb (Score.playerId sc) playerId)
          (Game.scores game) in
      match playerScores with
      | [] => None
      | first :: rest =>
          Some (fold_left (better (Game.isTimeBased game)) rest first)
      end
  end.

Definition by_best (asc : bool) (a b : LeaderboardEntry) : jsnum :=
  by_value asc (bestScore a) (bestScore b).

(** The [forEach] over [this.players]. *)
Definition bestPerPlayer (s : t) (gameId : string) : list LeaderboardEntry :=
  flat_map
    (fun p =>
       match getBestScore s gameId (Player.id p) with
       | Some b => [mkEntry p b]
       | None => []
       end)
    (players s).

(** [limit] defaults to 10. *)
Definition getLeaderboard (s : t) (gameId : string) (limit : option Z)
  : list LeaderboardEntry :=
  let limit := match limit with Some n => n | None => 10%Z end in
  match findGame gameId (games s) with
  | None => []
  | Some game =>
      slice0 limit (sort (by_best (Game.isTimeBased game)) (bestPerPlayer s gameId))
  end.

Definition gameCount (s : t) : nat := length (games s).
Definition playerCount (s : t) : nat := length (players s).
Definition hasError (s : t) : bool :=
  match error s with Some _ => true | None => false end.

(** *** Synchronous actions *)

Definition setCurrentGame (gameId : option string) (s : t) : t :=
  let cur :=
    if truthy_str gameId then findGame (str_or gameId EmptyString) (games s) else None in
  mk (games s) cur (players s) (isLoading s) (error s).

Definition addPlayer (uuid : string) (now : Date) (name : string) (s : t)
  : string * t :=
  let newPlayer := Player.mk uuid name now in
  (Player.id newPlayer,
   mk (games s) (currentGame s) (players s ++ [newPlayer]) (isLoading s) (error s)).

(** *** Asynchronous actions

    A world is the store together with the state of its storage backend.
    Each action runs from its first statement to the settlement of its
    promise; the result is the value the promise is fulfilled with. *)

Record World (B : Type) : Type := mkWorld {
  store : t;
  backend : B
}.
Arguments mkWorld {B}.
Arguments store {B}.
Arguments backend {B}.

Section Actions.
Context {B : Type} `{Storage.Api B}.

(** The loop of [loadGames] over the summaries: a game whose load is not
    a success with data is skipped; a rejected load aborts the loop. *)
Fixpoint loadEach (summaries : list GameSummary.t) (loadedGames : list Game.t)
  (b : B) : (Thrown + list Game.t) * B :=
  match summaries with
  | [] => (inr loadedGames, b)
  | gameSummary :: rest =>
      let '(out, b1) := Storage.loadGame (GameSummary.id gameSummary) b in
      match out with
      | Rejected e => (inl e, b1)
      | Fulfilled gameResponse =>
          match ApiResponse.success gameResponse, ApiResponse.data gameResponse with
          | true, Some g => loadEach rest (loadedGames ++ [g]) b1
          | _, _ => loadEach rest loadedGames b1
          end
      end
  end.

Definition loadGames (w : World B) : World B :=
  let s := setError None (setLoading true (store w)) in
  let '(out, b1) := Storage.listGames (backend w) in
  match out with
  | Rejected e =>
      mkWorld (setLoading false (setError (Some (thrown_message e)) s)) b1
  | Fulfilled response =>
      if negb (ApiResponse.success response) then
        mkWorld
          (setLoading false
             (setError (Some (str_or (ApiResponse.error response)
                                "Failed to load games")) s)) b1
      else
        let summaries :=
          match ApiResponse.data response with Some l => l | None => [] end in
        match loadEach summaries [] b1 with
        | (inl e, b2) =>
            mkWorld (setLoading false (setError (Some (thrown_message e)) s)) b2
        | (inr loadedGames, b2) =>
            mkWorld (setLoading false (setGames loadedGames s)) b2
        end
  end.

Definition createGame (uuid : string) (name : string)
  (description : option string) (isTimeBased : bool) (w : World B)
  : option string * World B :=
  let s := setError None (setLoading true (store w)) in
  let newGame := Game.mk uuid name description isTimeBased [] None None in
  let '(out, b1) := Storage.saveGame newGame (backend w) in
  match out with
  | Rejected e =>
      (None, mkWorld (setLoading false (setError (Some (thrown_message e)) s)) b1)
  | Fulfilled response =>
      if negb (ApiResponse.success response) then
        (None,
         mkWorld
           (setLoading false
              (setError (Some (str_or (ApiResponse.error response)
                                 "Failed to save game")) s)) b1)
      else
        (Some (Game.id newGame),
         mkWorld (setLoading false (setGames (games s ++ [newGame]) s)) b1)
  end.

Definition addScore (uuid : string) (now : Date) (gameId playerId playerName : string)
  (value : number) (notes : option string) (w : World B) : bool * World B :=
  let s := setError None (setLoading true (store w)) in
  match findGame gameId (games s) with
  | None =>
      (false,
       mkWorld (setLoading false (setError (Some "Game not found") s)) (backend w))
  | Some game =>
      let newScore :=
        Score.mk uuid playerId playerName value (Game.isTimeBased game) now notes in
      let updatedGame := Game.with_scores game (Game.scores game ++ [newScore]) in
      let '(out, b1) := Storage.saveGame updatedGame (backend w) in
      match out with
      | Rejected e =>
          (false,
           mkWorld (setLoading false (setError (Some (thrown_message e)) s)) b1)
      | Fulfilled response =>
          if negb (ApiResponse.success response) then
            (false,
             mkWorld
               (setLoading false
                  (setError (Some (str_or (ApiResponse.error response)
                                     "Failed to save score")) s)) b1)
          else
            let gs :=
              match findIndex (fun g => String.eqb (Game.id g) gameId) (games s) with
              | Some gameIndex => set_nth gameIndex updatedGame (games s)
              | None => games s
              end in
            (true, mkWorld (setLoading false (setGames gs s)) b1)
      end
  end.

Definition deleteGame (gameId : string) (w : World B) : bool * World B :=
  let s := setError None (setLoading true (store w)) in
  let '(out, b1) := Storage.deleteGame gameId (backend w) in
  match out with
  | Rejected e =>
      (false,
       mkWorld (setLoading false (setError (Some (thrown_message e)) s)) b1)
  | Fulfilled response =>
      if negb (ApiResponse.success response) then
        (false,
         mkWorld
           (setLoading false
              (setError (Some (str_or (ApiResponse.error response)
                                 "Failed to delete game")) s)) b1)
      else
        let gs :=
          List.filter (fun g => negb (String.eqb (Game.id g) gameId)) (games s) in
        let cur :=
          match currentGame s with
          | Some c => if String.eqb (Game.id c) gameId then None else Some c
          | None => None
          end in
        (true,
         mkWorld (setLoading false (mk gs cur (players s) (isLoading s) (error s))) b1)
  end.

End Actions.

End GameStore.

(** ** [services/StorageService.js]

    The service keeps every game in one [localStorage] item, the JSON text
    of an object from game ID to game file.  The item is modelled by the
    value its text parses to; the types below are the JSON images of the
    application's objects: a [Date] is written by [JSON.stringify] as its
    ISO string ([null] for an invalid date) and an [undefined] property is
    left out. *)

(** The host's date format: [Date.prototype.toISOString] on a time value
    and the [Date] constructor on a string.  ECMAScript guarantees that
    parsing the ISO string of a time value gives that time value back. *)
Class DateFormat : Type := {
  toISOString : Z -> string;
  Date_parse : string -> Date;
  Date_parse_toISOString : forall t, Date_parse (toISOString t) = TimeValue t
}.

Inductive JsonDate : Type :=
| JsonNull
| JsonString (s : string).

Module ScoreJson.
Record t : Type := mk {
  id : string;
  playerId : string;
  playerName : string;
  value : number;
  isTime : bool;
  achievedAt : option JsonDate;
  notes : option string
}.
End ScoreJson.

Module GameJson.
Record t : Type := mk {
  id : string;
  name : string;
  description : option string;
  isTimeBased : bool;
  scores : list ScoreJson.t;
  createdAt : option JsonDate;
  updatedAt : option JsonDate
}.
End GameJson.

Module GameFile.
Record t : Type := mk {
  game : GameJson.t;
  version : string
}.
End GameFile.

(** JavaScript objects with string keys, as made by an object literal or
    by [JSON.parse]: the list holds the object's own properties in the order
    of their creation; the prototype is [Object.prototype]. *)

(** The property names of [Object.prototype]; each holds a function, and
    ["__proto__"] reads as the prototype itself: all truthy. *)
Definition prototypeNames : list string :=
  [ "constructor"; "__defineGetter__"; "__defineSetter__"; "hasOwnProperty";
    "__lookupGetter__"; "__lookupSetter__"; "isPrototypeOf";
    "propertyIsEnumerable"; "toString"; "valueOf"; "__proto__";
    "toLocaleString" ].

Definition isPrototypeName (k : string) : bool :=
  existsb (String.eqb k) prototypeNames.

(** An array index: the canonical decimal numeral of an integer from 0 to
    2^32 - 2. *)
Definition arrayIndex (k : string) : option N :=
  match NilEmpty.uint_of_string k with
  | Some d =>
      let n := N.of_uint d in
      if (String.eqb (NilZero.string_of_uint (N.to_uint n)) k
          && (n <=? 4294967294)%N)%bool
      then Some n else None
  | None => None
  end.

Section Obj.
Context {V : Type}.

(** What reading [o[k]] gives: the value of an own property, a value
    inherited from [Object.prototype], or [undefined]. *)
Inductive Read : Type :=
| Own (v : V)
| Inherited
| Undefined.

(** The own property [k] of [o], if there is one. *)
Fixpoint obj_get (k : string) (o : list (string * V)) : option V :=
  match o with
  | [] => None
  | (k', v) :: r => if String.eqb k' k then Some v else obj_get k r
  end.

(** [o[k]] *)
Definition obj_read (k : string) (o : list (string * V)) : Read :=
  match obj_get k o with
  | Some v => Own v
  | None => if isPrototypeName k then Inherited else Undefined
  end.

(** Writing the own property [k]: in place when [o] has it, as the last
    created property otherwise. *)
Fixpoint obj_put (k : string) (v : V) (o : list (string * V))
  : list (string * V) :=
  match o with
  | [] => [(k, v)]
  | (k', v') :: r =>
      if String.eqb k' k then (k, v) :: r else (k', v') :: obj_put k v r
  end.

(** [o[k] = v].  On an object without an own ["__proto__"] property the
    assignment to that name goes to the setter of [Object.prototype], which
    creates no property. *)
Definition obj_set (k : string) (v : V) (o : list (string * V))
  : list (string * V) :=
  if String.eqb k "__proto__" then
    match obj_get k o with
    | Some _ => obj_put k v o
    | None => o
    end
  else obj_put k v o.

(** [delete o[k]] *)
Fixpoint obj_delete (k : string) (o : list (string * V)) : list (string * V) :=
  match o with
  | [] => []
  | (k', v') :: r =>
      if String.eqb k' k then r else (k', v') :: obj_delete k r
  end.

Definition isIndexed (e : string * V) : bool :=
  match arrayIndex (fst e) with Some _ => true | None => false end.

Definition indexOf (e : string * V) : Z :=
  match arrayIndex (fst e) with Some n => Z.of_N n | None => 0%Z end.

(** [Object.entries(o)], also the order in which [JSON.stringify] writes the
    properties: the array indices in ascending order, then the other keys in
    the order of their creation. *)
Definition obj_entries (o : list (string * V)) : list (string * V) :=
  sort (fun a b => Num (num_of_Z (indexOf a) - num_of_Z (indexOf b))%Qc)
    (List.filter isIndexed o)
  ++ List.filter (fun e => negb (isIndexed e)) o.
End Obj.
Arguments Read : clear implicits.

(** What the service needs of the browser besides the date format: whether
    [localStorage.setItem] accepts a value for the games item (it throws when
    the quota is exceeded or the storage is disabled), and the message of
    the [TypeError] thrown on reading a property of [undefined]. *)
Class Browser : Type := {
  setItemAccepts : list (string * GameFile.t) -> bool;
  undefinedReadMessage : string
}.

Module StorageService.

(** The item under ["highscore-tracker-games"]; [None] when it was never
    written. *)
Definition localStorage : Type := option (list (string * GameFile.t)).

Section WithDateFormat.
Context `{DateFormat} `{Browser}.

(** [Date.prototype.toJSON] *)
Definition dateToJSON (d : Date) : JsonDate :=
  match d with
  | InvalidDate => JsonNull
  | TimeValue t => JsonString (toISOString t)
  end.

(** [new Date(x)] for a property [x] read from parsed JSON. *)
Definition newDate (x : option JsonDate) : Date :=
  match x with
  | None => InvalidDate
  | Some JsonNull => TimeValue 0
  | Some (JsonString s) => Date_parse s
  end.

(** What [JSON.parse(JSON.stringify(x))] gives for a score and a game. *)
Definition scoreToJSON (s : Score.t) : ScoreJson.t :=
  ScoreJson.mk (Score.id s) (Score.playerId s) (Score.playerName s)
    (Score.value s) (Score.isTime s) (Some (dateToJSON (Score.achievedAt s)))
    (Score.notes s).

Definition gameToJSON (g : Game.t) : GameJson.t :=
  GameJson.mk (Game.id g) (Game.name g) (Game.description g)
    (Game.isTimeBased g) (map scoreToJSON (Game.scores g))
    (option_map dateToJSON (Game.createdAt g))
    (option_map dateToJSON (Game.updatedAt g)).

Definition getGamesFromStorage (ls : localStorage) : list (string * GameFile.t) :=
  match ls with
  | Some games => games
  | None => []
  end.

(** A [setItem] that throws is caught and logged here: the item then stays
    as it was. *)
Definition saveGamesToStorage (games : list (string * GameFile.t))
  (ls : localStorage) : localStorage :=
  if setItemAccepts games then Some games else ls.

Definition deserializeScore (score : ScoreJson.t) : Score.t :=
  Score.mk (ScoreJson.id score) (ScoreJson.playerId score)
    (ScoreJson.playerName score) (ScoreJson.value score)
    (ScoreJson.isTime score) (newDate (ScoreJson.achievedAt score))
    (ScoreJson.notes score).

Definition deserializeGame (gameData : GameJson.t) : Game.t :=
  Game.mk (GameJson.id gameData) (GameJson.name gameData)
    (GameJson.description gameData) (GameJson.isTimeBased gameData)
    (map deserializeScore (GameJson.scores gameData))
    (Some (newDate (GameJson.createdAt gameData)))
    (Some (newDate (GameJson.updatedAt gameData))).

Definition saveGame (game : Game.t) (ls : localStorage)
  : Outcome bool * localStorage :=
  let games := getGamesFromStorage ls in
  let gameFile := GameFile.mk (gameToJSON game) "1.0" in
  let games := obj_set (Game.id game) gameFile games in
  (Fulfilled (ApiResponse.ok true), saveGamesToStorage games ls).

Definition loadGame (gameId : string) (ls : localStorage)
  : Outcome Game.t * localStorage :=
  let games := getGamesFromStorage ls in
  match obj_read gameId games with
  | Undefined => (Fulfilled (ApiResponse.fail "Game not found"), ls)
  | Own gameFile =>
      (Fulfilled (ApiResponse.ok (deserializeGame (GameFile.game gameFile))), ls)
  | Inherited =>
      (* [gameFile.game] is [undefined] and [deserializeGame] throws on
         reading its [createdAt]; [loadGame] catches the error *)
      (Fulfilled (ApiResponse.fail undefinedReadMessage), ls)
  end.

Definition by_updatedAt_desc (a b : GameSummary.t) : jsnum :=
  jsnum_sub (getTime (GameSummary.updatedAt b)) (getTime (GameSummary.updatedAt a)).

Definition listGames (ls : localStorage)
  : Outcome (list GameSummary.t) * localStorage :=
  let games := getGamesFromStorage ls in
  let gameList :=
    map (fun '(gameId, gameFile) =>
           GameSummary.mk gameId (GameJson.name (GameFile.game gameFile))
             (newDate (GameJson.updatedAt (GameFile.game gameFile))))
      (obj_entries games) in
  (Fulfilled (ApiResponse.ok (sort by_updatedAt_desc gameList)), ls).

Definition deleteGame (gameId : string) (ls : localStorage)
  : Outcome bool * localStorage :=
  let games := getGamesFromStorage ls in
  match obj_read gameId games with
  | Undefined => (Fulfilled (ApiResponse.fail "Game not found"), ls)
  | Own _ | Inherited =>
      (Fulfilled (ApiResponse.ok true),
       saveGamesToStorage (obj_delete gameId games) ls)
  end.

#[global] Instance api : Storage.Api localStorage := {
  Storage.saveGame := saveGame;
  Storage.loadGame := loadGame;
  Storage.listGames := listGames;
  Storage.deleteGame := deleteGame
}.

End WithDateFormat.

End StorageService.

(** ** [components/AddGameForm.js] *)

Definition dquote : string := String (ascii_of_nat 34) EmptyString.

Module AddGameForm.

Record FormData : Type := mkFormData {
  name : string;
  description : string;
  isTimeBased : bool
}.

(** The component's state hooks. *)
Record State : Type := mkState {
  formData : FormData;
  errors : list (string * string);
  isSubmitting : bool;
  showSuccessToast : bool;
  createdGameName : string
}.

Definition emptyForm : FormData := mkFormData EmptyString EmptyString false.

(** [games] is [store.games]. *)
Definition validateForm (games : list Game.t) (fd : FormData)
  : list (string * string) :=
  let newErrors : list (string * string) := [] in
  let newErrors :=
    if String.eqb (trim (name fd)) EmptyString then
      obj_set "name" "Game name is required" newErrors
    else if Nat.ltb (String.length (trim (name fd))) 2 then
      obj_set "name" "Game name must be at least 2 characters long" newErrors
    else if Nat.ltb 50 (String.length (trim (name fd))) then
      obj_set "name" "Game name must be less than 50 characters" newErrors
    else newErrors in
  let existingGame :=
    find (fun game =>
            String.eqb (toLowerCase (Game.name game))
              (toLowerCase (trim (name fd)))) games in
  let newErrors :=
    match existingGame with
    | Some _ => obj_set "name" "A game with this name already exists" newErrors
    | None => newErrors
    end in
  if Nat.ltb 200 (String.length (trim (description fd))) then
    obj_set "description" "Description must be less than 200 characters" newErrors
  else newErrors.

Section Submit.
Context {B : Type} `{Storage.Api B}.

(** [uuid] is the identifier [store.createGame] draws if it is reached. *)
Definition handleSubmit (uuid : string) (st : State) (w : GameStore.World B)
  : State * GameStore.World B :=
  let fd := formData st in
  let validationErrors := validateForm (GameStore.games (GameStore.store w)) fd in
  match validationErrors with
  | _ :: _ =>
      (mkState fd validationErrors (isSubmitting st) (showSuccessToast st)
         (createdGameName st), w)
  | [] =>
      let '(gameId, w1) :=
        GameStore.createGame uuid (trim (name fd)) (Some (trim (description fd)))
          (isTimeBased fd) w in
      if truthy_str gameId then
        (mkState emptyForm [] false true (trim (name fd)), w1)
      else
        (mkState fd [] false (showSuccessToast st) (createdGameName st), w1)
  end.
End Submit.

End AddGameForm.

(** ** [components/AddScoreForm.js] *)

Module AddScoreForm.

Record FormData : Type := mkFormData {
  gameId : string;
  playerId : string;
  playerName : string;
  isNewPlayer : bool;
  scoreValue : string;
  notes : string
}.

Record State : Type := mkState {
  formData : FormData;
  errors : list (string * string);
  isSubmitting : bool;
  showSuccessToast : bool;
  successMessage : string
}.

Definition emptyForm : FormData :=
  mkFormData EmptyString EmptyString EmptyString false EmptyString EmptyString.

Section WithParseFloat.
(** The host's [parseFloat]. *)
Variable parseFloat : string -> jsnum.

Definition validateForm (fd : FormData) : list (string * string) :=
  let newErrors : list (string * string) := [] in
  let newErrors :=
    if String.eqb (gameId fd) EmptyString then
      obj_set "gameId" "Please select a game" newErrors
    else newErrors in
  let newErrors :=
    if isNewPlayer fd then
      if String.eqb (trim (playerName fd)) EmptyString then
        obj_set "playerName" "Player name is required" newErrors
      else if Nat.ltb (String.length (trim (playerName fd))) 2 then
        obj_set "playerName" "Player name must be at least 2 characters long"
          newErrors
      else if Nat.ltb 30 (String.length (trim (playerName fd))) then
        obj_set "playerName" "Player name must be less than 30 characters"
          newErrors
      else newErrors
    else if String.eqb (playerId fd) EmptyString then
      obj_set "playerId" "Please select a player or create a new one" newErrors
    else newErrors in
  let newErrors :=
    if String.eqb (trim (scoreValue fd)) EmptyString then
      obj_set "scoreValue" "Score value is required" newErrors
    else
      match parseFloat (scoreValue fd) with
      | NaN => obj_set "scoreValue" "Score must be a valid number" newErrors
      | Num scoreNum =>
          if num_ltb scoreNum zero then
            obj_set "scoreValue" "Score cannot be negative" newErrors
          else if num_ltb (num_of_Z 999999999) scoreNum then
            obj_set "scoreValue" "Score is too large" newErrors
          else newErrors
      end in
  if Nat.ltb 100 (String.length (trim (notes fd))) then
    obj_set "notes" "Notes must be less than 100 characters" newErrors
  else newErrors.

Section Submit.
Context {B : Type} `{Storage.Api B}.

(** [games] is the component's [games] property; [playerUuid] and
    [playerNow] are consumed by [store.addPlayer], [scoreUuid] and
    [scoreNow] by [store.addScore], when these are reached.  The callback
    [onScoreAdded] belongs to the parent and does not touch the store. *)
Definition handleSubmit (games : list Game.t)
  (playerUuid : string) (playerNow : Date) (scoreUuid : string) (scoreNow : Date)
  (st : State) (w : GameStore.World B) : State * GameStore.World B :=
  let fd := formData st in
  let selectedGame := GameStore.findGame (gameId fd) games in
  let validationErrors := validateForm fd in
  match validationErrors with
  | _ :: _ =>
      (mkState fd validationErrors (isSubmitting st) (showSuccessToast st)
         (successMessage st), w)
  | [] =>
      let '(pId, pName, s1) :=
        if isNewPlayer fd then
          let '(newId, s1) :=
            GameStore.addPlayer playerUuid playerNow (trim (playerName fd))
              (GameStore.store w) in
          (newId, trim (playerName fd), s1)
        else (playerId fd, playerName fd, GameStore.store w) in
      let w1 := GameStore.mkWorld s1 (GameStore.backend w) in
      match parseFloat (scoreValue fd) with
      | NaN =>
          (* not reached: [validateForm] has rejected a [NaN] score *)
          (mkState fd [] false (showSuccessToast st) (successMessage st), w1)
      | Num v =>
          let notes' :=
            if String.eqb (trim (notes fd)) EmptyString then None
            else Some (trim (notes fd)) in
          let '(success, w2) :=
            GameStore.addScore scoreUuid scoreNow (gameId fd) pId pName v notes' w1 in
          if success then
            let gameName :=
              str_or (option_map Game.name selectedGame) "Unknown Game" in
            let displayValue :=
              match selectedGame with
              | Some g =>
                  if Game.isTimeBased g then String.append (scoreValue fd) "s"
                  else scoreValue fd
              | None => scoreValue fd
              end in
            let msg :=
              String.concat EmptyString
                [ "Score of "; displayValue; " added to "; dquote; gameName;
                  dquote; " for "; pName; "!" ] in
            (mkState emptyForm [] false true msg, w2)
          else
            (mkState fd [] false (showSuccessToast st) (successMessage st), w2)
      end
  end.
End Submit.
End WithParseFloat.

End AddScoreForm.

(** ** Vocabulary of the properties *)

(** *** Ranking *)

(** [outranks tb a b]: [a] is strictly better than [b], lower when the game
    is time-based and higher otherwise. *)
Definition outranks (isTimeBased : bool) (a b : Score.t) : Prop :=
  if isTimeBased then (Score.value a < Score.value b)%Qc
  else (Score.value b < Score.value a)%Qc.

(** [ranks_before tb a b]: [b] is not strictly better than [a]. *)
Definition ranks_before (isTimeBased : bool) (a b : Score.t) : Prop :=
  if isTimeBased then (Score.value a <= Score.value b)%Qc
  else (Score.value b <= Score.value a)%Qc.

Definition scoresOf (playerId : string) (game : Game.t) : list Score.t :=
  List.filter (fun sc => String.eqb (Score.playerId sc) playerId) (Game.scores game).


Definition entry_before (isTimeBased : bool) (a b : LeaderboardEntry) : Prop :=
  ranks_before isTimeBased (bestScore a) (bestScore b).

Definition value_before (isTimeBased : bool) (x y : number) : Prop :=
  if isTimeBased then (x <= y)%Qc else (y <= x)%Qc.

(** *** Valid games *)

Definition validDate (d : Date) : bool :=
  match d with
  | TimeValue _ => true
  | InvalidDate => false
  end.

Definition validStamp (d : option Date) : bool :=
  match d with
  | Some d => validDate d
  | None => false
  end.

(** A valid game carries both timestamps, and all its dates are valid. *)
Definition validGame (g : Game.t) : bool :=
  (validStamp (Game.createdAt g) && validStamp (Game.updatedAt g)
   && forallb (fun sc => validDate (Score.achievedAt sc)) (Game.scores g))%bool.

(** *** Consistency of [isTime] *)

Definition consistentGame (g : Game.t) : Prop :=
  Forall (fun sc => Score.isTime sc = Game.isTimeBased g) (Game.scores g).

(** Every game the store holds, the selected one included. *)
Definition consistentStore (s : GameStore.t) : Prop :=
  Forall consistentGame (GameStore.games s)
  /\ (forall g, GameStore.currentGame s = Some g -> consistentGame g).

Definition consistentFile (gf : GameFile.t) : Prop :=
  Forall (fun sc => ScoreJson.isTime sc = GameJson.isTimeBased (GameFile.game gf))
    (GameJson.scores (GameFile.game gf)).

Definition consistentStorage (ls : StorageService.localStorage) : Prop :=
  Forall (fun kv => consistentFile (snd kv)) (StorageService.getGamesFromStorage ls).

(** *** Writes that take effect *)

Section WritesAccepted.
Context `{DateFormat} `{Browser}.

(** [localStorage.setItem] accepts the item that [saveGame game] writes
    over the storage [ls]. *)
Definition saveAccepted (game : Game.t) (ls : StorageService.localStorage) : bool :=
  setItemAccepts
    (obj_set (Game.id game) (GameFile.mk (StorageService.gameToJSON game) "1.0")
       (StorageService.getGamesFromStorage ls)).

(** [localStorage.setItem] accepts the item that [deleteGame gameId]
    writes over the storage [ls]. *)
Definition deleteAccepted (gameId : string) (ls : StorageService.localStorage) : bool :=
  setItemAccepts (obj_delete gameId (StorageService.getGamesFromStorage ls)).

End WritesAccepted.

Section Reachability.
Context `{DateFormat} `{Browser}.

(** The worlds the application can be in: the constructed store over a
    storage whose documents respect the invariant (an empty one, or one
    written by the store in earlier sessions), followed by any sequence of
    store operations with any arguments. *)
Inductive reachable : GameStore.World StorageService.localStorage -> Prop :=
| reach_constructor (f : GameStore.SampleFresh) (ls : StorageService.localStorage) :
    consistentStorage ls ->
    reachable (GameStore.mkWorld (GameStore.constructor f) ls)
| reach_loadGames w :
    reachable w -> reachable (GameStore.loadGames w)
| reach_createGame w uuid name description isTimeBased :
    reachable w ->
    reachable (snd (GameStore.createGame uuid name description isTimeBased w))
| reach_addScore w uuid now gameId playerId playerName value notes :
    reachable w ->
    reachable
      (snd (GameStore.addScore uuid now gameId playerId playerName value notes w))
| reach_deleteGame w gameId :
    reachable w -> reachable (snd (GameStore.deleteGame gameId w))
| reach_setCurrentGame w gameId :
    reachable w ->
    reachable
      (GameStore.mkWorld (GameStore.setCurrentGame gameId (GameStore.store w))
         (GameStore.backend w))
| reach_addPlayer w uuid now name :
    reachable w ->
    reachable
      (GameStore.mkWorld (snd (GameStore.addPlayer uuid now name (GameStore.store w)))
         (GameStore.backend w)).

Definition consistentWorld (w : GameStore.World StorageService.localStorage) : Prop :=
  consistentStore (GameStore.store w) /\ consistentStorage (GameStore.backend w).

End Reachability.

(** ** Concrete instances

    A date format, a [parseFloat] and some worlds on which the model is
    run. *)

(** A date format that writes a time value as its decimal numeral. *)
Definition decimalDates : DateFormat.
Proof.
  refine {|
    toISOString := fun t => NilEmpty.string_of_int (Z.to_int t);
    Date_parse := fun s =>
      match NilEmpty.int_of_string s with
      | Some d => TimeValue (Z.of_int d)
      | None => InvalidDate
      end
  |}.
  intro t. rewrite NilEmpty.isi. now rewrite DecimalZ.of_to.
Defined.

(** A browser whose storage has room for every write, and one whose
    storage is full; both word the [TypeError] as V8 does. *)
Definition roomyBrowser : Browser := {|
  setItemAccepts := fun _ => true;
  undefinedReadMessage := "Cannot read properties of undefined (reading 'createdAt')"
|}.

Definition fullBrowser : Browser := {|
  setItemAccepts := fun _ => false;
  undefinedReadMessage := "Cannot read properties of undefined (reading 'createdAt')"
|}.

(** The local storage service under that date format, with room and
    without. *)
Definition decimalStorage : Storage.Api StorageService.localStorage :=
  @StorageService.api decimalDates roomyBrowser.

Definition fullStorage : Storage.Api StorageService.localStorage :=
  @StorageService.api decimalDates fullBrowser.

(** A [parseFloat] restricted to decimal integers; anything else is
    [NaN]. *)
Definition parseInteger (s : string) : jsnum :=
  match NilEmpty.int_of_string s with
  | Some d => Num (num_of_Z (Z.of_int d))
  | None => NaN
  end.

Definition sampleFresh : GameStore.SampleFresh :=
  GameStore.mkSampleFresh "p1" (TimeValue 1) "p2" (TimeValue 2) "g1"
    "s1" (TimeValue 3) "s2" (TimeValue 4).

(** The store as constructed, over an empty [localStorage]. *)
Definition world0 : GameStore.World StorageService.localStorage :=
  GameStore.mkWorld (GameStore.constructor sampleFresh) None.

Definition sampleGame : Game.t :=
  Game.mk "g1" "Racing Game" (Some "Best lap times") true
    [ Score.mk "s1" "p1" "Alice" (Q2Qc (191 # 2)) true (TimeValue 3)
        (Some "Perfect run!");
      Score.mk "s2" "p2" "Bob" (Q2Qc (491 # 5)) true (TimeValue 4)
        (Some "Good attempt") ]
    None None.

(** Alice scores 90 twice in the sample game. *)
Definition worldTie : GameStore.World StorageService.localStorage :=
  let w1 :=
    snd (@GameStore.addScore _ decimalStorage "s3" (TimeValue 5) "g1" "p1"
           "Alice" (num_of_Z 90) None world0) in
  snd (@GameStore.addScore _ decimalStorage "s4" (TimeValue 6) "g1" "p1"
         "Alice" (num_of_Z 90) None w1).

Definition tieGame : Game.t :=
  Game.with_scores sampleGame
    (Game.scores sampleGame
     ++ [ Score.mk "s3" "p1" "Alice" (num_of_Z 90) true (TimeValue 5) None;
          Score.mk "s4" "p1" "Alice" (num_of_Z 90) true (TimeValue 6) None ]).

(** A game as [loadGame] returns it, with both timestamps. *)
Definition stampedGame : Game.t :=
  Game.mk "g9" "Sprint" (Some "100 m") true
    [ Score.mk "s1" "p1" "Alice" (Q2Qc (191 # 2)) true (TimeValue 3) None ]
    (Some (TimeValue 1000)) (Some (TimeValue 1000)).

(** A game whose ID names the prototype accessor of every object. *)
Definition protoGame : Game.t :=
  Game.mk "__proto__" "Sprint" (Some "100 m") true []
    (Some (TimeValue 1000)) (Some (TimeValue 1000)).

Definition worldStamped : GameStore.World StorageService.localStorage :=
  GameStore.mkWorld
    (GameStore.mk [stampedGame] None [Player.mk "p1" "Alice" (TimeValue 1)]
       false None)
    None.

(** Two forms as filled in by a user. *)
Definition duplicateForm : AddGameForm.State :=
  AddGameForm.mkState (AddGameForm.mkFormData "  racing GAME " EmptyString false)
    [] false false EmptyString.

Definition negativeForm : AddScoreForm.State :=
  AddScoreForm.mkState (AddScoreForm.mkFormData "g1" "p1" "Alice" false "-5" EmptyString)
    [] false false EmptyString.

(** ** [components/GameList.js] *)

Module GameList.

(** The best score of a game over all its players, shown on the game's
    card. *)
Definition getBestScore (game : Game.t) : option Score.t :=
  match Game.scores game with
  | [] => None
  | first :: rest =>
      Some (fold_left (GameStore.better (Game.isTimeBased game)) rest first)
  end.

End GameList.

(** ** A backend out of reach

    The answers of [GoogleStorageService] when every call on the bucket
    throws an [Error] with the given message: each method catches it and
    resolves to a failure carrying the message. *)
Definition unreachableBucket (message : string) : Storage.Api unit := {|
  Storage.saveGame := fun _ b => (Fulfilled (ApiResponse.fail message), b);
  Storage.loadGame := fun _ b => (Fulfilled (ApiResponse.fail message), b);
  Storage.listGames := fun b => (Fulfilled (ApiResponse.fail message), b);
  Storage.deleteGame := fun _ b => (Fulfilled (ApiResponse.fail message), b)
|}.

Definition worldOffline : GameStore.World unit :=
  GameStore.mkWorld (GameStore.constructor sampleFresh) tt.

(** ** Vocabulary of the further properties *)

(** What the filter of [getScores] asks of a score: the player, when a
    non-empty [playerId] is given, and the two inclusive date bounds. *)
Definition passesb (filter : option ScoreFilter.t) (sc : Score.t) : bool :=
  match filter with
  | None => true
  | Some f =>
      (match ScoreFilter.playerId f with
       | Some p =>
           if String.eqb p EmptyString then true
           else String.eqb (Score.playerId sc) p
       | None => true
       end
       && match ScoreFilter.dateFrom f with
          | Some d => date_geb (Score.achievedAt sc) d
          | None => true
          end
       && match ScoreFilter.dateTo f with
          | Some d => date_leb (Score.achievedAt sc) d
          | None => true
          end)%bool
  end.

(** The limit of a filter when it is in force: a missing limit and the
    limit 0 are both falsy. *)
Definition limitOf (filter : option ScoreFilter.t) : option Z :=
  match filter with
  | Some f =>
      match ScoreFilter.limit f with
      | Some n => if (n =? 0)%Z then None else Some n
      | None => None
      end
  | None => None
  end.

(** [newer_or_same a b]: both dates are valid and [a] is not before [b]. *)
Definition newer_or_same (a b : Date) : Prop :=
  match a, b with
  | TimeValue x, TimeValue y => (y <= x)%Z
  | _, _ => False
  end.

(** The fields of a game other than its scores. *)
Definition gameHeader (g : Game.t)
  : string * string * option string * bool * option Date * option Date :=
  (Game.id g, Game.name g, Game.description g, Game.isTimeBased g,
   Game.createdAt g, Game.updatedAt g).

(** The summary [listGames] makes of a stored document. *)
Definition summaryOf `{DateFormat} (kv : string * GameFile.t) : GameSummary.t :=
  GameSummary.mk (fst kv) (GameJson.name (GameFile.game (snd kv)))
    (StorageService.newDate (GameJson.updatedAt (GameFile.game (snd kv)))).

(** ** Worlds and forms for the further properties *)

(** A storage holding the stamped game, and the constructed store over
    it. *)
Definition savedStorage : StorageService.localStorage :=
  snd (@StorageService.saveGame decimalDates roomyBrowser stampedGame None).

Definition worldSaved : GameStore.World StorageService.localStorage :=
  GameStore.mkWorld (GameStore.constructor sampleFresh) savedStorage.

(** A game updated after the stamped game, and the storage once it is
    saved after the stamped game. *)
Definition recentGame : Game.t :=
  Game.mk "g7" "Marathon" None true [] (Some (TimeValue 500)) (Some (TimeValue 2000)).

Definition twoSaved : StorageService.localStorage :=
  snd (@StorageService.saveGame decimalDates roomyBrowser recentGame savedStorage).

Definition alice : Player.t := Player.mk "p1" "Alice" (TimeValue 1).
Definition bob : Player.t := Player.mk "p2" "Bob" (TimeValue 2).

Definition aliceScore : Score.t :=
  Score.mk "s1" "p1" "Alice" (Q2Qc (191 # 2)) true (TimeValue 3)
    (Some "Perfect run!").

Definition bobScore : Score.t :=
  Score.mk "s2" "p2" "Bob" (Q2Qc (491 # 5)) true (TimeValue 4)
    (Some "Good attempt").

Definition sprintForm : AddGameForm.State :=
  AddGameForm.mkState (AddGameForm.mkFormData " Sprint " "100 m" true)
    [] false false EmptyString.

Definition sprintAgainForm : AddGameForm.State :=
  AddGameForm.mkState (AddGameForm.mkFormData "SPRINT" EmptyString false)
    [] false false EmptyString.

Definition sprintGame : Game.t :=
  Game.mk "g2" "Sprint" (Some "100 m") true [] None None.

(** * Properties *)

(** ** Numbers *)

Lemma num_ltb_lt (a b : number) : num_ltb a b = true <-> (a < b)%Qc.
Proof.
  unfold num_ltb. rewrite Qclt_alt.
  destruct (a ?= b)%Qc; split; intro E; congruence.
Qed.

Lemma num_ltb_ge (a b : number) : num_ltb a b = false <-> (b <= a)%Qc.
Proof.
  split; intro E.
  - apply Qcnot_lt_le. intro L. apply num_ltb_lt in L. congruence.
  - destruct (num_ltb a b) eqn:L; [|reflexivity].
    apply num_ltb_lt in L. exfalso. exact (Qcle_not_lt _ _ E L).
Qed.

Lemma pos_sub_lt (a b : number) :
  jsnum_pos (Num (a - b)%Qc) = true <-> (b < a)%Qc.
Proof.
  simpl. rewrite num_ltb_lt. symmetry. apply Qclt_minus_iff.
Qed.

Lemma pos_sub_ge (a b : number) :
  jsnum_pos (Num (a - b)%Qc) = false <-> (a <= b)%Qc.
Proof.
  split; intro E.
  - apply Qcnot_lt_le. intro L. apply pos_sub_lt in L. congruence.
  - destruct (jsnum_pos (Num (a - b)%Qc)) eqn:L; [|reflexivity].
    apply pos_sub_lt in L. exfalso. exact (Qcle_not_lt _ _ E L).
Qed.

(** ** Sorting *)

Section SortFacts.
Context {A : Type} (compareFn : A -> A -> jsnum).

Lemma sort_insert_perm (x : A) (l : list A) :
  Permutation (sort_insert compareFn x l) (x :: l).
Proof.
  induction l as [|y r IH]; simpl.
  - reflexivity.
  - destruct (jsnum_pos (compareFn x y)).
    + rewrite IH. apply perm_swap.
    + reflexivity.
Qed.

Lemma sort_perm (l : list A) : Permutation (sort compareFn l) l.
Proof.
  induction l as [|x r IH]; simpl.
  - constructor.
  - rewrite sort_insert_perm. now constructor.
Qed.


(** [ord x y]: the comparator lets [x] stand before [y]. *)
Variable ord : A -> A -> Prop.
Hypothesis compare_ord :
  forall x y, jsnum_pos (compareFn x y) = false <-> ord x y.
Hypothesis ord_total : forall x y, ord x y \/ ord y x.
Hypothesis ord_trans : forall x y z, ord x y -> ord y z -> ord x z.

Lemma sort_insert_sorted (x : A) (l : list A) :
  StronglySorted ord l -> StronglySorted ord (sort_insert compareFn x l).
Proof.
  induction 1 as [|y r Hr IH Hy]; simpl.
  - repeat constructor.
  - destruct (jsnum_pos (compareFn x y)) eqn:E.
    + constructor; [exact IH|].
      assert (Hyx : ord y x).
      { destruct (ord_total x y) as [O|O]; [|exact O].
        apply compare_ord in O. congruence. }
      eapply Permutation_Forall.
      * symmetry. apply sort_insert_perm.
      * constructor; assumption.
    + apply compare_ord in E.
      constructor; [constructor; assumption|].
      constructor; [exact E|].
      eapply Forall_impl; [|exact Hy].
      intros z Hz. exact (ord_trans _ _ _ E Hz).
Qed.

Lemma sort_sorted (l : list A) : StronglySorted ord (sort compareFn l).
Proof.
  induction l as [|x r IH]; simpl.
  - constructor.
  - now apply sort_insert_sorted.
Qed.
End SortFacts.

Section SortedLists.
Context {A : Type}.

Lemma StronglySorted_snoc (R : A -> A -> Prop) (l : list A) (a : A) :
  StronglySorted R l -> Forall (fun x => R x a) l ->
  StronglySorted R (l ++ [a]).
Proof.
  induction 1 as [|x r Hr IH Hx]; intro Ha; simpl.
  - repeat constructor.
  - inversion Ha; subst. constructor.
    + now apply IH.
    + apply Forall_app. split; [exact Hx|]. now repeat constructor.
Qed.

Lemma StronglySorted_rev (R : A -> A -> Prop) (l : list A) :
  StronglySorted R l -> StronglySorted (fun x y => R y x) (rev l).
Proof.
  induction 1 as [|x r Hr IH Hx]; simpl.
  - constructor.
  - apply StronglySorted_snoc; [exact IH|].
    apply Forall_rev. exact Hx.
Qed.

Lemma StronglySorted_map {K : Type} (f : A -> K) (R : K -> K -> Prop)
  (l : list A) :
  StronglySorted (fun x y => R (f x) (f y)) l -> StronglySorted R (map f l).
Proof.
  induction 1 as [|x r Hr IH Hx]; simpl; constructor.
  - exact IH.
  - apply Forall_map. exact Hx.
Qed.

Lemma StronglySorted_app_l (R : A -> A -> Prop) (l1 l2 : list A) :
  StronglySorted R (l1 ++ l2) -> StronglySorted R l1.
Proof.
  induction l1 as [|x r IH]; simpl; intro S.
  - constructor.
  - inversion S; subst. constructor.
    + now apply IH.
    + match goal with F : Forall _ (_ ++ _) |- _ => apply Forall_app in F; apply F end.
Qed.

(** Two sorted arrangements of the same elements coincide when the order
    is antisymmetric on them. *)
Lemma sorted_perm_unique (R : A -> A -> Prop) (l1 : list A) :
  forall l2,
    StronglySorted R l1 -> StronglySorted R l2 -> Permutation l1 l2 ->
    (forall x y, In x l1 -> In y l1 -> R x y -> R y x -> x = y) ->
    l1 = l2.
Proof.
  induction l1 as [|a r1 IH]; intros l2 S1 S2 P Anti.
  - apply Permutation_nil in P. now subst.
  - destruct l2 as [|b r2].
    { symmetry in P. apply Permutation_nil in P. discriminate. }
    inversion S1 as [|? ? Sr1 Fa]; subst.
    inversion S2 as [|? ? Sr2 Fb]; subst.
    assert (Eab : a = b).
    { assert (Ia : In a (b :: r2)) by (eapply Permutation_in; [exact P|now left]).
      assert (Ib : In b (a :: r1))
        by (eapply Permutation_in; [symmetry; exact P|now left]).
      destruct Ia as [E|Ia]; [now subst|].
      destruct Ib as [E|Ib]; [now subst|].
      rewrite Forall_forall in Fa, Fb.
      apply Anti; [now left|now right|now apply Fa|now apply Fb]. }
    subst b. f_equal.
    apply IH; try assumption.
    + eapply Permutation_cons_inv. exact P.
    + intros x y Hx Hy. apply Anti; now right.
Qed.

Lemma NoDup_map_inj {K : Type} (f : A -> K) (l : list A) :
  NoDup (map f l) ->
  forall x y, In x l -> In y l -> f x = f y -> x = y.
Proof.
  induction l as [|a r IH]; simpl; intros N x y Hx Hy E.
  - contradiction.
  - inversion N as [|? ? Na Nr]; subst.
    destruct Hx as [Hx|Hx], Hy as [Hy|Hy]; subst.
    + reflexivity.
    + exfalso. apply Na. rewrite E. now apply in_map.
    + exfalso. apply Na. rewrite <- E. now apply in_map.
    + now apply IH.
Qed.
End SortedLists.

(** ** Ranking *)

Lemma outranks_trans tb a b c : outranks tb a b -> outranks tb b c -> outranks tb a c.
Proof.
  unfold outranks. destruct tb; intros H1 H2.
  - exact (Qclt_trans _ _ _ H1 H2).
  - exact (Qclt_trans _ _ _ H2 H1).
Qed.

Lemma outranks_before_trans tb a b c :
  outranks tb a b -> ranks_before tb b c -> outranks tb a c.
Proof.
  unfold outranks, ranks_before. destruct tb; intros H1 H2.
  - exact (Qclt_le_trans _ _ _ H1 H2).
  - exact (Qcle_lt_trans _ _ _ H2 H1).
Qed.

Lemma ranks_before_not_outranks tb a b :
  ranks_before tb a b <-> ~ outranks tb b a.
Proof.
  unfold outranks, ranks_before. destruct tb; split; intro H.
  - now apply Qcle_not_lt.
  - now apply Qcnot_lt_le.
  - now apply Qcle_not_lt.
  - now apply Qcnot_lt_le.
Qed.

Lemma ranks_before_total tb a b : ranks_before tb a b \/ ranks_before tb b a.
Proof.
  unfold ranks_before.
  destruct tb;
    [destruct (Qclt_le_dec (Score.value b) (Score.value a)) as [L|L]
    |destruct (Qclt_le_dec (Score.value a) (Score.value b)) as [L|L]];
    auto using Qclt_le_weak.
Qed.

Lemma ranks_before_trans tb a b c :
  ranks_before tb a b -> ranks_before tb b c -> ranks_before tb a c.
Proof.
  unfold ranks_before. destruct tb; intros H1 H2.
  - exact (Qcle_trans _ _ _ H1 H2).
  - exact (Qcle_trans _ _ _ H2 H1).
Qed.

Lemma ranks_before_antisym tb a b :
  ranks_before tb a b -> ranks_before tb b a -> Score.value a = Score.value b.
Proof.
  unfold ranks_before. destruct tb; intros H1 H2.
  - now apply Qcle_antisym.
  - now apply Qcle_antisym.
Qed.

Lemma better_spec tb best current :
  (outranks tb current best /\ GameStore.better tb best current = current)
  \/ (ranks_before tb best current /\ GameStore.better tb best current = best).
Proof.
  unfold GameStore.better, outranks, ranks_before.
  destruct tb.
  - destruct (num_ltb (Score.value current) (Score.value best)) eqn:E.
    + left. split; [now apply num_ltb_lt|reflexivity].
    + right. split; [now apply num_ltb_ge|reflexivity].
  - destruct (num_ltb (Score.value best) (Score.value current)) eqn:E.
    + left. split; [now apply num_ltb_lt|reflexivity].
    + right. split; [now apply num_ltb_ge|reflexivity].
Qed.

(** The reduction keeps the first of the best scores seen so far. *)
Lemma reduce_better tb (rest : list Score.t) :
  forall (pre : list Score.t) (best : Score.t) (mid : list Score.t),
    Forall (outranks tb best) pre ->
    Forall (ranks_before tb best) mid ->
    exists before after,
      pre ++ best :: mid ++ rest
      = before ++ fold_left (GameStore.better tb) rest best :: after
      /\ Forall (outranks tb (fold_left (GameStore.better tb) rest best)) before
      /\ Forall (ranks_before tb (fold_left (GameStore.better tb) rest best)) after.
Proof.
  induction rest as [|c rest IH]; intros pre best mid Hpre Hmid; simpl.
  - exists pre, mid. rewrite app_nil_r. auto.
  - destruct (better_spec tb best c) as [[Hc E]|[Hc E]]; rewrite E.
    + destruct (IH (pre ++ best :: mid) c []) as (before & after & Eq & Hb & Ha).
      * apply Forall_app. split.
        -- eapply Forall_impl; [|exact Hpre].
           intros x Hx. exact (outranks_trans _ _ _ _ Hc Hx).
        -- constructor; [exact Hc|].
           eapply Forall_impl; [|exact Hmid].
           intros x Hx. exact (outranks_before_trans _ _ _ _ Hc Hx).
      * constructor.
      * exists before, after. split; [|auto].
        rewrite <- Eq. simpl. rewrite <- app_assoc. reflexivity.
    + destruct (IH pre best (mid ++ [c])) as (before & after & Eq & Hb & Ha).
      * exact Hpre.
      * apply Forall_app. split; [exact Hmid|]. now repeat constructor.
      * exists before, after. split; [|auto].
        rewrite <- Eq. rewrite <- app_assoc. reflexivity.
Qed.

(** C2. [getBestScore(gameId, playerId)] on a game of the store returns
    [null] exactly when the player has no score in the game; otherwise it
    returns one of the player's scores such that every score of the player
    added before it is strictly worse (higher when the game is time-based,
    lower otherwise) and no score of the player added after it is strictly
    better: the best value, and among equal values the one added first. *)
Theorem getBestScore_first_best (s : GameStore.t) (gameId playerId : string)
  (game : Game.t) :
  GameStore.findGame gameId (GameStore.games s) = Some game ->
  match GameStore.getBestScore s gameId playerId with
  | None => scoresOf playerId game = []
  | Some best =>
      exists before after,
        scoresOf playerId game = before ++ best :: after
        /\ Forall (outranks (Game.isTimeBased game) best) before
        /\ Forall (ranks_before (Game.isTimeBased game) best) after
  end.
Proof.
  intro Hfind. unfold GameStore.getBestScore. rewrite Hfind.
  fold (scoresOf playerId game).
  destruct (scoresOf playerId game) as [|first rest]; [reflexivity|].
  destruct (reduce_better (Game.isTimeBased game) rest [] first [])
    as (before & after & Eq & Hb & Ha); try constructor.
  exists before, after. auto.
Qed.

(** ** Leaderboard *)

Lemma by_value_ord asc a b :
  jsnum_pos (GameStore.by_value asc a b) = false <-> ranks_before asc a b.
Proof.
  unfold GameStore.by_value, ranks_before. destruct asc; apply pos_sub_ge.
Qed.


Lemma getBestScore_none (s : GameStore.t) (gameId playerId : string) (game : Game.t) :
  GameStore.findGame gameId (GameStore.games s) = Some game ->
  (GameStore.getBestScore s gameId playerId = None <-> scoresOf playerId game = []).
Proof.
  intro Hfind. unfold GameStore.getBestScore. rewrite Hfind.
  fold (scoresOf playerId game).
  destruct (scoresOf playerId game); split; intro E; congruence.
Qed.



Lemma slice0_nonneg {A : Type} (n : Z) (l : list A) :
  (0 <= n)%Z -> slice0 n l = firstn (Z.to_nat n) l.
Proof.
  intro Hn. unfold slice0.
  destruct (0 <=? n)%Z eqn:E; [reflexivity|].
  apply Z.leb_gt in E. lia.
Qed.


(** The sort is stable: the elements of a class [p] that the comparator
    never orders among themselves keep their relative order. *)
Section Stability.
Context {A : Type} (compareFn : A -> A -> jsnum) (p : A -> bool).
Hypothesis same_class :
  forall x y, p x = true -> p y = true -> jsnum_pos (compareFn x y) = false.

Lemma sort_insert_filter (x : A) (l : list A) :
  List.filter p (sort_insert compareFn x l) = List.filter p (x :: l).
Proof.
  induction l as [|y r IH]; [reflexivity|].
  cbn [sort_insert].
  destruct (jsnum_pos (compareFn x y)) eqn:E; [|reflexivity].
  cbn [List.filter] in *. rewrite IH.
  destruct (p x) eqn:Px, (p y) eqn:Py; try reflexivity.
  rewrite (same_class x y Px Py) in E. discriminate.
Qed.

Lemma sort_filter (l : list A) :
  List.filter p (sort compareFn l) = List.filter p l.
Proof.
  induction l as [|x r IH]; [reflexivity|].
  cbn [sort]. rewrite sort_insert_filter.
  cbn [List.filter]. now rewrite IH.
Qed.
End Stability.

(** Scores of one value stay in insertion order under both value orders. *)
Lemma sort_by_value_stable asc (v : number) (l : list Score.t) :
  List.filter (fun sc => if Qc_eq_dec (Score.value sc) v then true else false)
    (sort (GameStore.by_value asc) l)
  = List.filter (fun sc => if Qc_eq_dec (Score.value sc) v then true else false) l.
Proof.
  apply sort_filter. intros x y Px Py.
  destruct (Qc_eq_dec (Score.value x) v) as [Ex|]; [|discriminate].
  destruct (Qc_eq_dec (Score.value y) v) as [Ey|]; [|discriminate].
  apply by_value_ord. unfold ranks_before. rewrite Ex, Ey.
  destruct asc; apply Qcle_refl.
Qed.

(** ** Best-first and worst-first orders *)

Lemma StronglySorted_weaken {A : Type} (R R' : A -> A -> Prop) (l : list A) :
  (forall x y, R x y -> R' x y) -> StronglySorted R l -> StronglySorted R' l.
Proof.
  intros HR. induction 1 as [|x r Hr IH Hx]; constructor.
  - exact IH.
  - eapply Forall_impl; [|exact Hx]. intros y. apply HR.
Qed.

Lemma ranks_before_negb tb a b :
  ranks_before (negb tb) b a <-> ranks_before tb a b.
Proof. destruct tb; reflexivity. Qed.

Lemma sort_by_value_sorted asc (l : list Score.t) :
  StronglySorted (ranks_before asc) (sort (GameStore.by_value asc) l).
Proof.
  apply sort_sorted.
  - intros x y. apply by_value_ord.
  - intros x y. apply ranks_before_total.
  - intros x y z. apply ranks_before_trans.
Qed.

Lemma rev_worst_sorted tb (l : list Score.t) :
  StronglySorted (ranks_before tb)
    (rev (sort (GameStore.by_value (negb tb)) l)).
Proof.
  eapply StronglySorted_weaken;
    [|apply StronglySorted_rev, sort_by_value_sorted].
  intros x y. apply ranks_before_negb.
Qed.

Lemma rev_worst_perm tb (l : list Score.t) :
  Permutation (sort (GameStore.by_value tb) l)
    (rev (sort (GameStore.by_value (negb tb)) l)).
Proof.
  rewrite <- Permutation_rev. rewrite !sort_perm. reflexivity.
Qed.

(** C3 (amended). On a game of the store, the values of
    [getScores(gameId, BEST_FIRST)] are the reverse of the values of
    [getScores(gameId, WORST_FIRST)]; the two sequences of scores are exact
    reverses of each other when no two scores of the game have the same
    value. *)
Theorem getScores_best_rev_worst (s : GameStore.t) (gameId : string)
  (game : Game.t) :
  GameStore.findGame gameId (GameStore.games s) = Some game ->
  map Score.value (GameStore.getScores s gameId (Some BEST_FIRST) None)
  = rev (map Score.value (GameStore.getScores s gameId (Some WORST_FIRST) None))
  /\ (NoDup (map Score.value (Game.scores game)) ->
      GameStore.getScores s gameId (Some BEST_FIRST) None
      = rev (GameStore.getScores s gameId (Some WORST_FIRST) None)).
Proof.
  intro Hfind. unfold GameStore.getScores. rewrite Hfind. simpl.
  set (tb := Game.isTimeBased game). set (l := Game.scores game).
  split.
  - rewrite <- map_rev.
    apply (sorted_perm_unique (value_before tb)).
    + apply StronglySorted_map.
      eapply StronglySorted_weaken; [|apply (sort_by_value_sorted tb)].
      intros x y. unfold ranks_before, value_before. tauto.
    + apply StronglySorted_map.
      eapply StronglySorted_weaken; [|apply (rev_worst_sorted tb)].
      intros x y. unfold ranks_before, value_before. tauto.
    + apply Permutation_map, rev_worst_perm.
    + intros x y _ _. unfold value_before.
      destruct tb; intros H1 H2; now apply Qcle_antisym.
  - intro Hnodup.
    apply (sorted_perm_unique (ranks_before tb)).
    + apply sort_by_value_sorted.
    + apply rev_worst_sorted.
    + apply rev_worst_perm.
    + intros x y Hx Hy H1 H2.
      apply (NoDup_map_inj Score.value l Hnodup).
      * eapply Permutation_in; [apply sort_perm|exact Hx].
      * eapply Permutation_in; [apply sort_perm|exact Hy].
      * exact (ranks_before_antisym _ _ _ H1 H2).
Qed.

(** ** Storage round trip *)

Lemma obj_get_put_same {V : Type} (k : string) (v : V) (o : list (string * V)) :
  obj_get k (obj_put k v o) = Some v.
Proof.
  induction o as [|[k' v'] r IH]; simpl.
  - now rewrite String.eqb_refl.
  - destruct (String.eqb k' k) eqn:E; simpl.
    + now rewrite String.eqb_refl.
    + now rewrite E.
Qed.

Lemma obj_get_put_other {V : Type} (k k0 : string) (v : V) (o : list (string * V)) :
  k0 <> k -> obj_get k (obj_put k0 v o) = obj_get k o.
Proof.
  intro N. apply String.eqb_neq in N.
  induction o as [|[k' v'] r IH]; simpl.
  - now rewrite N.
  - destruct (String.eqb k' k0) eqn:E; simpl.
    + apply String.eqb_eq in E. subst k'. now rewrite N.
    + now rewrite IH.
Qed.

Lemma obj_set_put {V : Type} (k : string) (v : V) (o : list (string * V)) :
  k <> "__proto__" -> obj_set k v o = obj_put k v o.
Proof.
  intro N. apply String.eqb_neq in N. unfold obj_set. now rewrite N.
Qed.

Lemma obj_set_cases {V : Type} (k : string) (v : V) (o : list (string * V)) :
  obj_set k v o = obj_put k v o \/ obj_set k v o = o.
Proof.
  unfold obj_set. destruct (String.eqb k "__proto__"); [|now left].
  destruct (obj_get k o); [now left|now right].
Qed.

Lemma obj_get_set_same {V : Type} (k : string) (v : V) (o : list (string * V)) :
  k <> "__proto__" -> obj_get k (obj_set k v o) = Some v.
Proof. intro N. rewrite obj_set_put by exact N. apply obj_get_put_same. Qed.

Lemma obj_get_set_other {V : Type} (k k0 : string) (v : V) (o : list (string * V)) :
  k0 <> k -> obj_get k (obj_set k0 v o) = obj_get k o.
Proof.
  intro N. destruct (obj_set_cases k0 v o) as [-> | ->]; [|reflexivity].
  now apply obj_get_put_other.
Qed.

Section RoundTrip.
Context `{DateFormat} `{Browser}.

Lemma newDate_toJSON (d : Date) :
  validDate d = true ->
  StorageService.newDate (Some (StorageService.dateToJSON d)) = d.
Proof.
  destruct d as [|t]; simpl; [discriminate|].
  intros _. apply Date_parse_toISOString.
Qed.

Lemma newDate_stamp (d : option Date) :
  validStamp d = true ->
  Some (StorageService.newDate (option_map StorageService.dateToJSON d)) = d.
Proof.
  destruct d as [d|]; cbn [option_map validStamp]; [|discriminate].
  intro V. now rewrite newDate_toJSON.
Qed.

Lemma deserializeScore_toJSON (sc : Score.t) :
  validDate (Score.achievedAt sc) = true ->
  StorageService.deserializeScore (StorageService.scoreToJSON sc) = sc.
Proof.
  intro V. destruct sc as [i p n v t a o].
  unfold StorageService.deserializeScore, StorageService.scoreToJSON.
  cbn [ScoreJson.id ScoreJson.playerId ScoreJson.playerName ScoreJson.value
       ScoreJson.isTime ScoreJson.achievedAt ScoreJson.notes
       Score.id Score.playerId Score.playerName Score.value Score.isTime
       Score.achievedAt Score.notes] in *.
  now rewrite newDate_toJSON.
Qed.

Lemma deserializeGame_toJSON (g : Game.t) :
  validGame g = true ->
  StorageService.deserializeGame (StorageService.gameToJSON g) = g.
Proof.
  unfold validGame. rewrite !andb_true_iff. intros [[Vc Vu] Vs].
  destruct g as [i n d tb scs c u].
  unfold StorageService.deserializeGame, StorageService.gameToJSON.
  cbn [GameJson.id GameJson.name GameJson.description GameJson.isTimeBased
       GameJson.scores GameJson.createdAt GameJson.updatedAt
       Game.id Game.name Game.description Game.isTimeBased Game.scores
       Game.createdAt Game.updatedAt] in *.
  rewrite (newDate_stamp c Vc), (newDate_stamp u Vu).
  f_equal.
  rewrite map_map.
  rewrite forallb_forall in Vs.
  induction scs as [|sc r IH]; simpl; [reflexivity|].
  rewrite deserializeScore_toJSON by (apply Vs; now left).
  f_equal. apply IH. intros x Hx. apply Vs. now right.
Qed.

(** C4 (amended). For every valid game [g] whose ID is not ["__proto__"]
    and every state of the storage on which [localStorage.setItem] accepts
    the write, [saveGame(g)] succeeds, and [loadGame(g.id)] on the resulting
    storage succeeds with a game equal to [g] in every field, nested scores
    and timestamps included. *)
Theorem saveGame_loadGame_roundtrip (g : Game.t) (ls : StorageService.localStorage) :
  validGame g = true ->
  Game.id g <> "__proto__" ->
  saveAccepted g ls = true ->
  fst (StorageService.saveGame g ls) = Fulfilled (ApiResponse.ok true)
  /\ fst (StorageService.loadGame (Game.id g) (snd (StorageService.saveGame g ls)))
     = Fulfilled (ApiResponse.ok g).
Proof.
  intros V Hid Hw. split; [reflexivity|].
  unfold saveAccepted in Hw.
  unfold StorageService.saveGame, StorageService.loadGame,
    StorageService.saveGamesToStorage, obj_read.
  cbn [fst snd]. rewrite Hw. cbn [StorageService.getGamesFromStorage].
  rewrite obj_get_set_same by exact Hid. cbn [fst GameFile.game].
  now rewrite deserializeGame_toJSON.
Qed.
End RoundTrip.

(** ** Adding a score *)

Lemma findGame_none (gameId : string) (gs : list Game.t) :
  ~ In gameId (map Game.id gs) <-> GameStore.findGame gameId gs = None.
Proof.
  unfold GameStore.findGame.
  induction gs as [|g r IH]; simpl.
  - tauto.
  - destruct (String.eqb (Game.id g) gameId) eqn:E.
    + apply String.eqb_eq in E. split; [intro N; exfalso; auto|discriminate].
    + apply String.eqb_neq in E. rewrite <- IH. tauto.
Qed.

Section AddScore.
Context {B : Type} `{Storage.Api B}.

(** C5. When no game of the store has the given ID, [addScore] returns
    [false], leaves [games] as it was, does not call the storage backend
    and reports "Game not found". *)
Theorem addScore_unknown_game (uuid : string) (now : Date)
  (gameId playerId playerName : string) (value : number)
  (notes : option string) (w : GameStore.World B) :
  ~ In gameId (map Game.id (GameStore.games (GameStore.store w))) ->
  let r := GameStore.addScore uuid now gameId playerId playerName value notes w in
  fst r = false
  /\ GameStore.games (GameStore.store (snd r)) = GameStore.games (GameStore.store w)
  /\ length (GameStore.games (GameStore.store (snd r)))
     = length (GameStore.games (GameStore.store w))
  /\ GameStore.backend (snd r) = GameStore.backend w
  /\ GameStore.error (GameStore.store (snd r)) = Some "Game not found".
Proof.
  intro Habsent. apply findGame_none in Habsent.
  unfold GameStore.addScore.
  cbn [GameStore.games GameStore.setError GameStore.setLoading].
  rewrite Habsent. cbn. auto.
Qed.
End AddScore.

(** ** Validation in the forms *)

Lemma find_of_In {A : Type} (p : A -> bool) (l : list A) (x : A) :
  In x l -> p x = true -> exists y, find p l = Some y.
Proof.
  induction l as [|a r IH]; simpl; intros Hin Hp.
  - contradiction.
  - destruct (p a) eqn:E; [eauto|].
    destruct Hin as [->|Hin]; [congruence|auto].
Qed.

Lemma obj_get_some_nonempty {V : Type} (k : string) (v : V) (o : list (string * V)) :
  obj_get k o = Some v -> o <> [].
Proof. destruct o; simpl; [discriminate|intros _; discriminate]. Qed.

Section FormGuards.
Context {B : Type} `{Storage.Api B}.

(** C6 (amended). When the store holds a game whose lower-cased name
    equals the trimmed, lower-cased name in the Add Game form,
    [validateForm] reports "A game with this name already exists" and
    [handleSubmit] returns without calling [createGame]: the store and the
    storage are left as they were. *)
Theorem addGameForm_rejects_duplicate (uuid : string) (st : AddGameForm.State)
  (w : GameStore.World B) (g : Game.t) :
  In g (GameStore.games (GameStore.store w)) ->
  toLowerCase (Game.name g)
  = toLowerCase (trim (AddGameForm.name (AddGameForm.formData st))) ->
  obj_get "name"
    (AddGameForm.validateForm (GameStore.games (GameStore.store w))
       (AddGameForm.formData st))
  = Some "A game with this name already exists"
  /\ snd (AddGameForm.handleSubmit uuid st w) = w.
Proof.
  intros Hin Hname.
  assert (Herr :
    obj_get "name"
      (AddGameForm.validateForm (GameStore.games (GameStore.store w))
         (AddGameForm.formData st))
    = Some "A game with this name already exists").
  { unfold AddGameForm.validateForm.
    destruct (find_of_In
                (fun game =>
                   String.eqb (toLowerCase (Game.name game))
                     (toLowerCase (trim (AddGameForm.name (AddGameForm.formData st)))))
                _ g Hin) as [y Hy].
    { rewrite Hname. apply String.eqb_refl. }
    rewrite Hy.
    destruct (Nat.ltb 200 _).
    - rewrite obj_get_set_other by discriminate. apply obj_get_set_same; discriminate.
    - apply obj_get_set_same; discriminate. }
  split; [exact Herr|].
  unfold AddGameForm.handleSubmit.
  apply obj_get_some_nonempty in Herr.
  destruct (AddGameForm.validateForm _ _); [congruence|reflexivity].
Qed.

(** C7 (amended). When [parseFloat] reads a number below zero from the
    score field of the Add Score form, [validateForm] reports an error on
    that field ("Score cannot be negative", or "Score value is required"
    when the field is blank) and [handleSubmit] returns without calling
    [addPlayer] or [addScore]: the store and the storage are left as they
    were. *)
Theorem addScoreForm_rejects_negative (parseFloat : string -> jsnum)
  (games : list Game.t) (playerUuid : string) (playerNow : Date)
  (scoreUuid : string) (scoreNow : Date) (st : AddScoreForm.State)
  (w : GameStore.World B) (v : number) :
  parseFloat (AddScoreForm.scoreValue (AddScoreForm.formData st)) = Num v ->
  (v < zero)%Qc ->
  obj_get "scoreValue"
    (AddScoreForm.validateForm parseFloat (AddScoreForm.formData st))
  = Some (if String.eqb (trim (AddScoreForm.scoreValue (AddScoreForm.formData st))) EmptyString
          then "Score value is required" else "Score cannot be negative")
  /\ snd (AddScoreForm.handleSubmit parseFloat games playerUuid playerNow
            scoreUuid scoreNow st w) = w.
Proof.
  intros Hparse Hneg.
  apply num_ltb_lt in Hneg.
  assert (Herr :
    obj_get "scoreValue"
      (AddScoreForm.validateForm parseFloat (AddScoreForm.formData st))
    = Some (if String.eqb (trim (AddScoreForm.scoreValue (AddScoreForm.formData st))) EmptyString
            then "Score value is required" else "Score cannot be negative")).
  { unfold AddScoreForm.validateForm. rewrite Hparse, Hneg.
    destruct (Nat.ltb 100 _);
      [rewrite obj_get_set_other by discriminate|];
      destruct (String.eqb (trim _) EmptyString); apply obj_get_set_same; discriminate. }
  split; [exact Herr|].
  unfold AddScoreForm.handleSubmit.
  apply obj_get_some_nonempty in Herr.
  destruct (AddScoreForm.validateForm _ _); [congruence|reflexivity].
Qed.
End FormGuards.

(** ** The [isTime] invariant *)

Section ObjFacts.
Context {V : Type} (P : V -> Prop).

Lemma obj_put_Forall (k : string) (v : V) (o : list (string * V)) :
  Forall (fun kv => P (snd kv)) o -> P v ->
  Forall (fun kv => P (snd kv)) (obj_put k v o).
Proof.
  intros Ho Hv. induction Ho as [|[k' v'] r Hx Hr IH]; simpl.
  - repeat constructor. exact Hv.
  - destruct (String.eqb k' k); constructor; auto.
Qed.

Lemma obj_set_Forall (k : string) (v : V) (o : list (string * V)) :
  Forall (fun kv => P (snd kv)) o -> P v ->
  Forall (fun kv => P (snd kv)) (obj_set k v o).
Proof.
  intros Ho Hv. destruct (obj_set_cases k v o) as [-> | ->]; [|exact Ho].
  now apply obj_put_Forall.
Qed.

Lemma obj_delete_Forall (k : string) (o : list (string * V)) :
  Forall (fun kv => P (snd kv)) o ->
  Forall (fun kv => P (snd kv)) (obj_delete k o).
Proof.
  intros Ho. induction Ho as [|[k' v'] r Hx Hr IH]; simpl.
  - constructor.
  - destruct (String.eqb k' k); [exact Hr|constructor; auto].
Qed.

Lemma obj_get_Forall (k : string) (v : V) (o : list (string * V)) :
  Forall (fun kv => P (snd kv)) o -> obj_get k o = Some v -> P v.
Proof.
  intros Ho. induction Ho as [|[k' v'] r Hx Hr IH]; simpl.
  - discriminate.
  - destruct (String.eqb k' k); [|exact IH].
    intro E. injection E as <-. exact Hx.
Qed.
End ObjFacts.

Lemma set_nth_Forall {A : Type} (P : A -> Prop) (x : A) (l : list A) :
  P x -> Forall P l -> forall i, Forall P (set_nth i x l).
Proof.
  intros Hx Hl. induction Hl as [|y r Hy Hr IH]; intros [|i]; simpl;
    try constructor; auto.
Qed.

Lemma findGame_In (gameId : string) (gs : list Game.t) (g : Game.t) :
  GameStore.findGame gameId gs = Some g -> In g gs /\ Game.id g = gameId.
Proof.
  unfold GameStore.findGame. intro E. apply find_some in E.
  destruct E as [Hin Heq]. apply String.eqb_eq in Heq. auto.
Qed.

Lemma consistent_appended (g : Game.t) (sc : Score.t) :
  consistentGame g -> Score.isTime sc = Game.isTimeBased g ->
  consistentGame (Game.with_scores g (Game.scores g ++ [sc])).
Proof.
  unfold consistentGame. intros Hg Hsc. cbn.
  apply Forall_app. split; [exact Hg|]. now repeat constructor.
Qed.

Section Preservation.
Context `{DateFormat} `{Browser}.

Lemma gameToJSON_consistent (g : Game.t) :
  consistentGame g ->
  consistentFile (GameFile.mk (StorageService.gameToJSON g) "1.0").
Proof.
  unfold consistentGame, consistentFile. cbn. intro Hg.
  apply Forall_map. eapply Forall_impl; [|exact Hg]. now intros sc.
Qed.

Lemma deserializeGame_consistent (gf : GameFile.t) :
  consistentFile gf ->
  consistentGame (StorageService.deserializeGame (GameFile.game gf)).
Proof.
  unfold consistentGame, consistentFile. cbn. intro Hg.
  apply Forall_map. eapply Forall_impl; [|exact Hg]. now intros sc.
Qed.

Lemma saveGamesToStorage_consistent (games : list (string * GameFile.t))
  (ls : StorageService.localStorage) :
  Forall (fun kv => consistentFile (snd kv)) games -> consistentStorage ls ->
  consistentStorage (StorageService.saveGamesToStorage games ls).
Proof.
  intros Hgames Hls. unfold StorageService.saveGamesToStorage.
  destruct (setItemAccepts games); [exact Hgames|exact Hls].
Qed.

Lemma saveGame_consistent (g : Game.t) (ls : StorageService.localStorage) :
  consistentGame g -> consistentStorage ls ->
  fst (StorageService.saveGame g ls) = Fulfilled (ApiResponse.ok true)
  /\ consistentStorage (snd (StorageService.saveGame g ls)).
Proof.
  intros Hg Hls. split; [reflexivity|].
  unfold StorageService.saveGame. cbn [snd].
  apply saveGamesToStorage_consistent; [|exact Hls].
  apply obj_set_Forall; [exact Hls|]. now apply gameToJSON_consistent.
Qed.

Lemma loadEach_consistent (summaries : list GameSummary.t) :
  forall (acc : list Game.t) (ls : StorageService.localStorage),
    consistentStorage ls -> Forall consistentGame acc ->
    exists loaded,
      GameStore.loadEach summaries acc ls = (inr loaded, ls)
      /\ Forall consistentGame loaded.
Proof.
  induction summaries as [|sm rest IH]; intros acc ls Hls Hacc; simpl.
  - eauto.
  - unfold StorageService.loadGame, obj_read.
    destruct (obj_get (GameSummary.id sm) (StorageService.getGamesFromStorage ls))
      as [gf|] eqn:E; [|destruct (isPrototypeName (GameSummary.id sm))]; cbn.
    + apply IH; [exact Hls|].
      apply Forall_app. split; [exact Hacc|].
      repeat constructor. apply deserializeGame_consistent.
      exact (obj_get_Forall consistentFile _ _ _ Hls E).
    + now apply IH.
    + now apply IH.
Qed.

Lemma constructor_consistent (f : GameStore.SampleFresh) :
  consistentStore (GameStore.constructor f).
Proof.
  split; cbn.
  - repeat constructor.
  - discriminate.
Qed.

Lemma loadGames_consistent w :
  consistentWorld w -> consistentWorld (GameStore.loadGames w).
Proof.
  intros [[Hg Hc] Hls]. unfold GameStore.loadGames. cbn.
  destruct (loadEach_consistent
              (sort StorageService.by_updatedAt_desc
                 (map (fun '(gameId, gameFile) =>
                         GameSummary.mk gameId (GameJson.name (GameFile.game gameFile))
                           (StorageService.newDate
                              (GameJson.updatedAt (GameFile.game gameFile))))
                    (obj_entries
                       (StorageService.getGamesFromStorage (GameStore.backend w)))))
              [] (GameStore.backend w) Hls (Forall_nil _))
    as (loaded & E & Hl).
  rewrite E. repeat split; cbn; assumption.
Qed.

Lemma createGame_consistent w uuid name description isTimeBased :
  consistentWorld w ->
  consistentWorld (snd (GameStore.createGame uuid name description isTimeBased w)).
Proof.
  intros [[Hg Hc] Hls]. unfold GameStore.createGame. cbn.
  repeat split; cbn.
  - apply Forall_app. split; [exact Hg|]. repeat constructor.
  - exact Hc.
  - apply saveGamesToStorage_consistent; [|exact Hls].
    apply obj_set_Forall; [exact Hls|]. constructor.
Qed.

Lemma addScore_consistent w uuid now gameId playerId playerName value notes :
  consistentWorld w ->
  consistentWorld
    (snd (GameStore.addScore uuid now gameId playerId playerName value notes w)).
Proof.
  intros [[Hg Hc] Hls]. unfold GameStore.addScore.
  cbn [GameStore.games GameStore.setError GameStore.setLoading].
  destruct (GameStore.findGame gameId (GameStore.games (GameStore.store w)))
    as [game|] eqn:E; cbn.
  - apply findGame_In in E. destruct E as [Hin _].
    rewrite Forall_forall in Hg. pose proof (Hg game Hin) as Hgame.
    assert (Hup : consistentGame
                    (Game.with_scores game
                       (Game.scores game
                        ++ [Score.mk uuid playerId playerName value
                              (Game.isTimeBased game) now notes])))
      by (now apply consistent_appended).
    repeat split; cbn.
    + destruct (findIndex _ _).
      * apply set_nth_Forall; [exact Hup|]. now apply Forall_forall.
      * now apply Forall_forall.
    + exact Hc.
    + apply saveGamesToStorage_consistent; [|exact Hls].
      apply obj_set_Forall; [exact Hls|].
      now apply gameToJSON_consistent in Hup.
  - repeat split; assumption.
Qed.

Lemma deleteGame_consistent w gameId :
  consistentWorld w -> consistentWorld (snd (GameStore.deleteGame gameId w)).
Proof.
  intros [[Hg Hc] Hls]. unfold GameStore.deleteGame. cbn.
  unfold StorageService.deleteGame.
  assert (Hdel : consistentWorld
            (GameStore.mkWorld
               (GameStore.setLoading false
                  (GameStore.mk
                     (List.filter (fun g => negb (String.eqb (Game.id g) gameId))
                        (GameStore.games (GameStore.store w)))
                     (match GameStore.currentGame (GameStore.store w) with
                      | Some c => if String.eqb (Game.id c) gameId then None
                                  else Some c
                      | None => None
                      end)
                     (GameStore.players (GameStore.store w))
                     true None))
               (StorageService.saveGamesToStorage
                  (obj_delete gameId
                     (StorageService.getGamesFromStorage (GameStore.backend w)))
                  (GameStore.backend w)))).
  { repeat split; cbn.
    + rewrite Forall_forall in *. intros g Hin.
      apply filter_In in Hin. now apply Hg.
    + intros g. destruct (GameStore.currentGame (GameStore.store w)) as [c|];
        [|discriminate].
      destruct (String.eqb (Game.id c) gameId); [discriminate|].
      intro E. now apply Hc.
    + apply saveGamesToStorage_consistent; [|exact Hls].
      now apply obj_delete_Forall. }
  unfold obj_read.
  destruct (obj_get gameId (StorageService.getGamesFromStorage (GameStore.backend w)));
    [|destruct (isPrototypeName gameId)]; cbn; try exact Hdel.
  repeat split; assumption.
Qed.

Lemma setCurrentGame_consistent (s : GameStore.t) (gameId : option string) :
  consistentStore s -> consistentStore (GameStore.setCurrentGame gameId s).
Proof.
  intros [Hg Hc]. split; cbn; [exact Hg|].
  intros g. destruct (truthy_str gameId); [|discriminate].
  intro E. apply findGame_In in E. destruct E as [Hin _].
  rewrite Forall_forall in Hg. now apply Hg.
Qed.

(** C10. In every world reachable from the constructed store by
    [loadGames], [createGame], [addScore], [deleteGame], [setCurrentGame]
    and [addPlayer], every score of every game of the store has [isTime]
    equal to the game's [isTimeBased]. *)
Theorem isTime_matches_isTimeBased (w : GameStore.World StorageService.localStorage) :
  reachable w ->
  forall g sc,
    In g (GameStore.games (GameStore.store w)) ->
    In sc (Game.scores g) ->
    Score.isTime sc = Game.isTimeBased g.
Proof.
  intro R.
  assert (Hw : consistentWorld w).
  { induction R.
    - split; [apply constructor_consistent|assumption].
    - now apply loadGames_consistent.
    - now apply createGame_consistent.
    - now apply addScore_consistent.
    - now apply deleteGame_consistent.
    - destruct IHR as [Hs Hls]. split; [|exact Hls].
      now apply setCurrentGame_consistent.
    - destruct IHR as [[Hg Hc] Hls]. repeat split; assumption. }
  destruct Hw as [[Hg _] _].
  intros g sc Hin Hsc.
  rewrite Forall_forall in Hg. specialize (Hg g Hin).
  unfold consistentGame in Hg. rewrite Forall_forall in Hg. now apply Hg.
Qed.
End Preservation.

(** ** What [createGame] and [addScore] write *)

Section Writes.
Context {B : Type} `{Storage.Api B}.

(** X27. When the backend accepts the save, [createGame] returns the
    fresh ID and appends to [games], after the games already there, a game
    with that ID, the given name, description and ranking direction and no
    score; the backend is left as the save left it. *)
Lemma createGame_success uuid name description isTimeBased (w : GameStore.World B)
  (response : ApiResponse.t bool) (b1 : B) :
  Storage.saveGame (Game.mk uuid name description isTimeBased [] None None)
    (GameStore.backend w) = (Fulfilled response, b1) ->
  ApiResponse.success response = true ->
  let r := GameStore.createGame uuid name description isTimeBased w in
  fst r = Some uuid
  /\ GameStore.games (GameStore.store (snd r))
     = GameStore.games (GameStore.store w)
       ++ [Game.mk uuid name description isTimeBased [] None None]
  /\ GameStore.backend (snd r) = b1.
Proof.
  intros Hsave Hok. unfold GameStore.createGame.
  cbn [GameStore.games GameStore.setError GameStore.setLoading].
  rewrite Hsave, Hok. cbn. auto.
Qed.

(** X28. When the backend refuses the save or the call is rejected,
    [createGame] returns [null] and [games] is as it was. *)
Lemma createGame_failure uuid name description isTimeBased (w : GameStore.World B) :
  match fst (Storage.saveGame (Game.mk uuid name description isTimeBased [] None None)
               (GameStore.backend w)) with
  | Fulfilled response => ApiResponse.success response = false
  | Rejected _ => True
  end ->
  let r := GameStore.createGame uuid name description isTimeBased w in
  fst r = None
  /\ GameStore.games (GameStore.store (snd r)) = GameStore.games (GameStore.store w).
Proof.
  unfold GameStore.createGame.
  cbn [GameStore.games GameStore.setError GameStore.setLoading].
  destruct (Storage.saveGame _ _) as [[response|e] b1]; cbn [fst].
  - intros ->. cbn. auto.
  - intros _. cbn. auto.
Qed.

(** X29. When the game is found and the backend accepts the save,
    [addScore] returns [true] and replaces the first game with that ID, in
    place, by a copy whose scores are the old ones followed by the new
    score, with [isTime] taken from the game; the copy's [updatedAt] is the
    old one. *)
Lemma addScore_success uuid now gameId playerId playerName value notes
  (w : GameStore.World B) (game : Game.t) (response : ApiResponse.t bool) (b1 : B) :
  let updatedGame :=
    Game.with_scores game
      (Game.scores game
       ++ [Score.mk uuid playerId playerName value (Game.isTimeBased game) now notes]) in
  GameStore.findGame gameId (GameStore.games (GameStore.store w)) = Some game ->
  Storage.saveGame updatedGame (GameStore.backend w) = (Fulfilled response, b1) ->
  ApiResponse.success response = true ->
  let r := GameStore.addScore uuid now gameId playerId playerName value notes w in
  fst r = true
  /\ (exists i,
        findIndex (fun g => String.eqb (Game.id g) gameId)
          (GameStore.games (GameStore.store w)) = Some i
        /\ nth_error (GameStore.games (GameStore.store w)) i = Some game
        /\ GameStore.games (GameStore.store (snd r))
           = set_nth i updatedGame (GameStore.games (GameStore.store w)))
  /\ Game.updatedAt updatedGame = Game.updatedAt game.
Proof.
  intros updatedGame Hfind Hsave Hok. unfold GameStore.addScore.
  cbn [GameStore.games GameStore.setError GameStore.setLoading].
  rewrite Hfind. fold updatedGame. rewrite Hsave, Hok. cbn.
  split; [reflexivity|]. split; [|reflexivity].
  unfold GameStore.findGame in Hfind.
  induction (GameStore.games (GameStore.store w)) as [|g r IH]; simpl in *.
  - discriminate.
  - destruct (String.eqb (Game.id g) gameId).
    + injection Hfind as ->. exists 0. auto.
    + destruct (IH Hfind) as (i & Ei & En & Es).
      exists (S i). rewrite Ei. simpl.
      split; [reflexivity|]. split; [exact En|]. now f_equal.
Qed.

(** X30. When the game is found but the backend refuses the save or the
    call is rejected, [addScore] returns [false] and [games] is as it
    was. *)
Lemma addScore_failure uuid now gameId playerId playerName value notes
  (w : GameStore.World B) (game : Game.t) :
  GameStore.findGame gameId (GameStore.games (GameStore.store w)) = Some game ->
  match fst (Storage.saveGame
               (Game.with_scores game
                  (Game.scores game
                   ++ [Score.mk uuid playerId playerName value
                         (Game.isTimeBased game) now notes]))
               (GameStore.backend w)) with
  | Fulfilled response => ApiResponse.success response = false
  | Rejected _ => True
  end ->
  let r := GameStore.addScore uuid now gameId playerId playerName value notes w in
  fst r = false
  /\ GameStore.games (GameStore.store (snd r)) = GameStore.games (GameStore.store w).
Proof.
  intros Hfind. unfold GameStore.addScore.
  cbn [GameStore.games GameStore.setError GameStore.setLoading].
  rewrite Hfind.
  destruct (Storage.saveGame _ _) as [[response|e] b1]; cbn [fst].
  - intros ->. cbn. auto.
  - intros _. cbn. auto.
Qed.
End Writes.

(** ** Further facts on the forms and the storage *)

Lemma obj_set_nonempty {V : Type} (k : string) (v : V) (o : list (string * V)) :
  k <> "__proto__" -> obj_set k v o <> [].
Proof.
  intro N. rewrite obj_set_put by exact N.
  destruct o as [|[k' v'] r]; simpl; [discriminate|].
  destruct (String.eqb k' k); discriminate.
Qed.

(** An error object with a message under one of the form's field names is
    not empty. *)
Ltac error_set E :=
  exfalso; apply obj_set_nonempty in E; [exact E|discriminate].

(** A form that passes [validateForm] has a score that [parseFloat] reads
    as a number between 0 and 999999999: the [NaN] branch of
    [handleSubmit] is never taken. *)
Lemma validateForm_passes_number (parseFloat : string -> jsnum)
  (fd : AddScoreForm.FormData) :
  AddScoreForm.validateForm parseFloat fd = [] ->
  exists v,
    parseFloat (AddScoreForm.scoreValue fd) = Num v
    /\ (zero <= v)%Qc /\ (v <= num_of_Z 999999999)%Qc.
Proof.
  unfold AddScoreForm.validateForm.
  destruct (Nat.ltb 100 _);
    [intro E; error_set E|].
  destruct (String.eqb (trim (AddScoreForm.scoreValue fd)) EmptyString);
    [intro E; error_set E|].
  destruct (parseFloat (AddScoreForm.scoreValue fd)) as [|v];
    [intro E; error_set E|].
  destruct (num_ltb v zero) eqn:Eneg;
    [intro E; error_set E|].
  destruct (num_ltb (num_of_Z 999999999) v) eqn:Ebig;
    [intro E; error_set E|].
  intros _. exists v. apply num_ltb_ge in Eneg, Ebig. auto.
Qed.

Lemma obj_put_idem {V : Type} (k : string) (v : V) (o : list (string * V)) :
  obj_put k v (obj_put k v o) = obj_put k v o.
Proof.
  induction o as [|[k' v'] r IH]; simpl.
  - now rewrite String.eqb_refl.
  - destruct (String.eqb k' k) eqn:E; simpl.
    + now rewrite String.eqb_refl.
    + now rewrite E, IH.
Qed.

Lemma obj_set_idem {V : Type} (k : string) (v : V) (o : list (string * V)) :
  obj_set k v (obj_set k v o) = obj_set k v o.
Proof.
  unfold obj_set. destruct (String.eqb k "__proto__").
  - destruct (obj_get k o) eqn:E.
    + now rewrite obj_get_put_same, obj_put_idem.
    + now rewrite E.
  - apply obj_put_idem.
Qed.

(** Saving the same game twice leaves the storage as after the first
    save. *)
Lemma saveGame_idempotent `{DateFormat} `{Browser} (g : Game.t)
  (ls : StorageService.localStorage) :
  snd (StorageService.saveGame g (snd (StorageService.saveGame g ls)))
  = snd (StorageService.saveGame g ls).
Proof.
  unfold StorageService.saveGame, StorageService.saveGamesToStorage.
  cbn [snd].
  destruct (setItemAccepts
              (obj_set (Game.id g) (GameFile.mk (StorageService.gameToJSON g) "1.0")
                 (StorageService.getGamesFromStorage ls))) eqn:E.
  - cbn [StorageService.getGamesFromStorage]. now rewrite obj_set_idem, E.
  - now rewrite E.
Qed.

(** An ID that names a property of [Object.prototype] reads as stored
    although no document is: on an empty storage [deleteGame] of it reports
    success and [loadGame] of it fails on the [TypeError]. *)
Example inherited_name_reads_as_stored :
  fst (@StorageService.deleteGame roomyBrowser "constructor" None)
  = Fulfilled (ApiResponse.ok true)
  /\ fst (@StorageService.loadGame decimalDates roomyBrowser "toString" None)
     = Fulfilled
         (ApiResponse.fail "Cannot read properties of undefined (reading 'createdAt')")
  /\ fst (@GameStore.deleteGame _ decimalStorage "constructor" world0) = true.
Proof. vm_compute. repeat split. Qed.

(** [Object.entries] lists the array indices first, in ascending order,
    and the other names in the order of their creation. *)
Example entries_indices_first :
  map fst (obj_entries [("b", 1); ("10", 2); ("a", 3); ("9", 4); ("07", 5)])
  = ["9"; "10"; "b"; "a"; "07"].
Proof. vm_compute. reflexivity. Qed.

(** On a full storage [deleteGame] of a stored game reports success and
    the document stays. *)
Example deleteGame_on_full_storage :
  fst (@StorageService.deleteGame fullBrowser "g9" savedStorage)
  = Fulfilled (ApiResponse.ok true)
  /\ snd (@StorageService.deleteGame fullBrowser "g9" savedStorage) = savedStorage.
Proof. vm_compute. repeat split. Qed.

(** On a full storage [createGame] still returns the new ID, and the
    game is not stored. *)
Example createGame_on_full_storage :
  let r :=
    @GameStore.createGame _ fullStorage "g2" "Sprint" (Some "100 m") true world0 in
  fst r = Some "g2"
  /\ fst (@StorageService.loadGame decimalDates fullBrowser "g2"
            (GameStore.backend (snd r)))
     = Fulfilled (ApiResponse.fail "Game not found").
Proof. vm_compute. repeat split. Qed.

(** A game as [createGame] builds it, without timestamps, comes back from
    the storage with two invalid dates. *)
Example roundtrip_without_timestamps :
  let g := Game.mk "g2" "Sprint" None true [] None None in
  fst (@StorageService.loadGame decimalDates roomyBrowser "g2"
         (snd (@StorageService.saveGame decimalDates roomyBrowser g None)))
  = Fulfilled
      (ApiResponse.ok
         (Game.mk "g2" "Sprint" None true [] (Some InvalidDate) (Some InvalidDate))).
Proof. reflexivity. Qed.

(** On the constructed store the leaderboard is Alice with 95.5, then Bob
    with 98.2. *)
Example sample_leaderboard :
  map (fun e => (Player.name (player e), Score.value (bestScore e)))
    (GameStore.getLeaderboard (GameStore.store world0) "g1" None)
  = [("Alice", Q2Qc (191 # 2)); ("Bob", Q2Qc (491 # 5))].
Proof. reflexivity. Qed.

(** ** The store on concrete worlds *)

(** C9. On the constructed store over an empty storage, [createGame] of a
    time-based game named Sprint with an empty description succeeds and
    returns the new ID, and the game it appends has an empty score list but
    neither [createdAt] nor [updatedAt]. *)
Example createGame_without_timestamps :
  let r :=
    @GameStore.createGame _ decimalStorage "g2" "Sprint" (Some EmptyString) true
      world0 in
  fst r = Some "g2"
  /\ GameStore.games (GameStore.store (snd r))
     = [sampleGame; Game.mk "g2" "Sprint" (Some EmptyString) true [] None None]
  /\ map Game.createdAt (GameStore.games (GameStore.store (snd r))) = [None; None]
  /\ map Game.updatedAt (GameStore.games (GameStore.store (snd r))) = [None; None].
Proof. vm_compute. repeat split. Qed.

(** C8. On a store holding a game last updated at time 1000, an
    [addScore] at time 2000 succeeds and appends the new score at the end of
    the game's list, and the game's [updatedAt] is still 1000. *)
Example addScore_keeps_updatedAt :
  let r :=
    @GameStore.addScore _ decimalStorage "s2" (TimeValue 2000) "g9" "p2" "Bob"
      (num_of_Z 90) None worldStamped in
  fst r = true
  /\ map Game.scores (GameStore.games (GameStore.store (snd r)))
     = [Game.scores stampedGame
        ++ [Score.mk "s2" "p2" "Bob" (num_of_Z 90) true (TimeValue 2000) None]]
  /\ map Game.updatedAt (GameStore.games (GameStore.store (snd r)))
     = [Some (TimeValue 1000)].
Proof. vm_compute. repeat split. Qed.

(** C4, on a storage that is full, and at the ID ["__proto__"]: each time
    [saveGame] of a valid game reports success, yet the [loadGame] that
    follows fails, with "Game not found" on the full storage and with the
    message of a [TypeError] at ["__proto__"]. *)
Lemma saveGame_then_loadGame_fails :
  (validGame stampedGame = true
   /\ fst (@StorageService.saveGame decimalDates fullBrowser stampedGame None)
      = Fulfilled (ApiResponse.ok true)
   /\ fst (@StorageService.loadGame decimalDates fullBrowser (Game.id stampedGame)
             (snd (@StorageService.saveGame decimalDates fullBrowser stampedGame None)))
      = Fulfilled (ApiResponse.fail "Game not found"))
  /\ (validGame protoGame = true
      /\ fst (@StorageService.saveGame decimalDates roomyBrowser protoGame None)
         = Fulfilled (ApiResponse.ok true)
      /\ fst (@StorageService.loadGame decimalDates roomyBrowser (Game.id protoGame)
                (snd (@StorageService.saveGame decimalDates roomyBrowser protoGame None)))
         = Fulfilled
             (ApiResponse.fail
                "Cannot read properties of undefined (reading 'createdAt')")).
Proof. vm_compute. repeat split. Qed.

(** C3, with two scores of equal value: best-first and worst-first both
    list them in insertion order, so neither sequence is the reverse of the
    other. *)
Lemma getScores_ties_not_reversed :
  GameStore.getScores (GameStore.store worldTie) "g1" (Some BEST_FIRST) None
  <> rev (GameStore.getScores (GameStore.store worldTie) "g1" (Some WORST_FIRST) None).
Proof. vm_compute. intro E. discriminate E. Qed.

(** C6, at the store: after [createGame("Racing")], [createGame("racing")]
    returns an ID and a second game is added. *)
Lemma createGame_accepts_duplicate_name :
  let w1 :=
    snd (@GameStore.createGame _ decimalStorage "g2" "Racing" None false world0) in
  let r := @GameStore.createGame _ decimalStorage "g3" "racing" None false w1 in
  toLowerCase (trim "Racing") = toLowerCase (trim "racing")
  /\ fst r = Some "g3"
  /\ map Game.name (GameStore.games (GameStore.store (snd r)))
     = ["Racing Game"; "Racing"; "racing"].
Proof. vm_compute. repeat split. Qed.

(** C7, at the store: [addScore] with value -1 on the sample game returns
    [true] and the negative score is appended. *)
Lemma addScore_accepts_negative :
  let r :=
    @GameStore.addScore _ decimalStorage "s3" (TimeValue 5) "g1" "p1" "Alice"
      (num_of_Z (-1)) None world0 in
  (num_of_Z (-1) < zero)%Qc
  /\ fst r = true
  /\ map (fun g => map Score.value (Game.scores g))
       (GameStore.games (GameStore.store (snd r)))
     = [[Q2Qc (191 # 2); Q2Qc (491 # 5); num_of_Z (-1)]].
Proof. vm_compute. repeat split. Qed.

(** ** Instances of the theorems *)

Lemma getBestScore_first_best_witness :
  GameStore.findGame "g1" (GameStore.games (GameStore.store worldTie)) = Some tieGame
  /\ match GameStore.getBestScore (GameStore.store worldTie) "g1" "p1" with
     | None => scoresOf "p1" tieGame = []
     | Some best =>
         exists before after,
           scoresOf "p1" tieGame = before ++ best :: after
           /\ Forall (outranks (Game.isTimeBased tieGame) best) before
           /\ Forall (ranks_before (Game.isTimeBased tieGame) best) after
     end.
Proof.
  split; [reflexivity|].
  apply (getBestScore_first_best (GameStore.store worldTie) "g1" "p1" tieGame).
  reflexivity.
Defined.

(** Of Alice's two scores of 90 the one added first is her best. *)
Example getBestScore_tie :
  GameStore.getBestScore (GameStore.store worldTie) "g1" "p1"
  = Some (Score.mk "s3" "p1" "Alice" (num_of_Z 90) true (TimeValue 5) None).
Proof. reflexivity. Qed.


Lemma getScores_best_rev_worst_witness :
  GameStore.findGame "g1" (GameStore.games (GameStore.store world0)) = Some sampleGame
  /\ NoDup (map Score.value (Game.scores sampleGame))
  /\ map Score.value (GameStore.getScores (GameStore.store world0) "g1" (Some BEST_FIRST) None)
     = rev (map Score.value
              (GameStore.getScores (GameStore.store world0) "g1" (Some WORST_FIRST) None))
  /\ GameStore.getScores (GameStore.store world0) "g1" (Some BEST_FIRST) None
     = rev (GameStore.getScores (GameStore.store world0) "g1" (Some WORST_FIRST) None).
Proof.
  assert (Hnodup : NoDup (map Score.value (Game.scores sampleGame))).
  { constructor; [|constructor; [|constructor]]; simpl.
    - intros [E|[]]. apply (f_equal this) in E. vm_compute in E. discriminate E.
    - intros []. }
  destruct (getScores_best_rev_worst (GameStore.store world0) "g1" sampleGame eq_refl)
    as [Hvalues Hscores].
  split; [reflexivity|]. split; [exact Hnodup|]. split; [exact Hvalues|].
  exact (Hscores Hnodup).
Defined.

Lemma saveGame_loadGame_roundtrip_witness :
  validGame stampedGame = true
  /\ Game.id stampedGame <> "__proto__"
  /\ @saveAccepted decimalDates roomyBrowser stampedGame None = true
  /\ fst (@StorageService.saveGame decimalDates roomyBrowser stampedGame None)
     = Fulfilled (ApiResponse.ok true)
  /\ fst (@StorageService.loadGame decimalDates roomyBrowser (Game.id stampedGame)
            (snd (@StorageService.saveGame decimalDates roomyBrowser stampedGame None)))
     = Fulfilled (ApiResponse.ok stampedGame).
Proof.
  split; [reflexivity|]. split; [discriminate|]. split; [reflexivity|].
  apply (@saveGame_loadGame_roundtrip decimalDates roomyBrowser stampedGame None);
    [reflexivity|discriminate|reflexivity].
Defined.

Lemma addScore_unknown_game_witness :
  ~ In "g7" (map Game.id (GameStore.games (GameStore.store world0)))
  /\ let r :=
       @GameStore.addScore _ decimalStorage "s3" (TimeValue 5) "g7" "p1" "Alice"
         (num_of_Z 90) None world0 in
     fst r = false
     /\ GameStore.games (GameStore.store (snd r)) = GameStore.games (GameStore.store world0)
     /\ length (GameStore.games (GameStore.store (snd r)))
        = length (GameStore.games (GameStore.store world0))
     /\ GameStore.backend (snd r) = GameStore.backend world0
     /\ GameStore.error (GameStore.store (snd r)) = Some "Game not found".
Proof.
  assert (Habsent : ~ In "g7" (map Game.id (GameStore.games (GameStore.store world0)))).
  { simpl. intros [E|[]]. discriminate E. }
  split; [exact Habsent|].
  exact (@addScore_unknown_game _ decimalStorage "s3" (TimeValue 5) "g7" "p1" "Alice"
           (num_of_Z 90) None world0 Habsent).
Defined.

Lemma addGameForm_rejects_duplicate_witness :
  In sampleGame (GameStore.games (GameStore.store world0))
  /\ toLowerCase (Game.name sampleGame)
     = toLowerCase (trim (AddGameForm.name (AddGameForm.formData duplicateForm)))
  /\ obj_get "name"
       (AddGameForm.validateForm (GameStore.games (GameStore.store world0))
          (AddGameForm.formData duplicateForm))
     = Some "A game with this name already exists"
  /\ snd (@AddGameForm.handleSubmit _ decimalStorage "g2" duplicateForm world0) = world0.
Proof.
  assert (Hin : In sampleGame (GameStore.games (GameStore.store world0)))
    by (left; reflexivity).
  split; [exact Hin|]. split; [reflexivity|].
  exact (@addGameForm_rejects_duplicate _ decimalStorage "g2" duplicateForm world0
           sampleGame Hin eq_refl).
Defined.

Lemma addScoreForm_rejects_negative_witness :
  parseInteger (AddScoreForm.scoreValue (AddScoreForm.formData negativeForm))
  = Num (num_of_Z (-5))
  /\ (num_of_Z (-5) < zero)%Qc
  /\ obj_get "scoreValue"
       (AddScoreForm.validateForm parseInteger (AddScoreForm.formData negativeForm))
     = Some "Score cannot be negative"
  /\ snd (@AddScoreForm.handleSubmit parseInteger _ decimalStorage
            (GameStore.games (GameStore.store world0)) "p3" (TimeValue 5)
            "s3" (TimeValue 6) negativeForm world0) = world0.
Proof.
  split; [reflexivity|]. split; [reflexivity|].
  exact (@addScoreForm_rejects_negative _ decimalStorage parseInteger
           (GameStore.games (GameStore.store world0)) "p3" (TimeValue 5)
           "s3" (TimeValue 6) negativeForm world0 (num_of_Z (-5)) eq_refl eq_refl).
Defined.

Lemma isTime_matches_isTimeBased_witness :
  let w :=
    snd (@GameStore.addScore _ (@StorageService.api decimalDates roomyBrowser) "s3" (TimeValue 5)
           "g1" "p1" "Alice" (num_of_Z 90) None world0) in
  @reachable decimalDates roomyBrowser w
  /\ forall g sc,
       In g (GameStore.games (GameStore.store w)) ->
       In sc (Game.scores g) ->
       Score.isTime sc = Game.isTimeBased g.
Proof.
  intro w.
  assert (R : @reachable decimalDates roomyBrowser w).
  { apply (@reach_addScore decimalDates roomyBrowser world0).
    apply (@reach_constructor decimalDates roomyBrowser sampleFresh None). constructor. }
  split; [exact R|].
  exact (@isTime_matches_isTimeBased decimalDates roomyBrowser w R).
Defined.

(** * Further properties *)

(** ** The store over any backend *)

Section StoreActions.
Context {B : Type} `{Storage.Api B}.

Ltac run_action :=
  cbn [GameStore.games GameStore.setError GameStore.setLoading
       GameStore.currentGame GameStore.players];
  repeat match goal with
    | |- context [GameStore.findGame ?i ?l] =>
        let E := fresh "Efind" in destruct (GameStore.findGame i l) eqn:E
    | |- context [Storage.saveGame ?g ?b] =>
        let r := fresh "response" in
        destruct (Storage.saveGame g b) as [[r|?] ?];
        [destruct (ApiResponse.success r)|]
    | |- context [Storage.deleteGame ?g ?b] =>
        let r := fresh "response" in
        destruct (Storage.deleteGame g b) as [[r|?] ?];
        [destruct (ApiResponse.success r)|]
    end;
  cbn.

(** X1. Whatever the backend answers, [createGame], [addScore],
    [deleteGame] and [loadGames] end with [isLoading] false. *)
Theorem actions_end_loading (w : GameStore.World B) :
  (forall uuid name description isTimeBased,
      GameStore.isLoading
        (GameStore.store (snd (GameStore.createGame uuid name description isTimeBased w)))
      = false)
  /\ (forall uuid now gameId playerId playerName value notes,
         GameStore.isLoading
           (GameStore.store
              (snd (GameStore.addScore uuid now gameId playerId playerName value notes w)))
         = false)
  /\ (forall gameId,
         GameStore.isLoading (GameStore.store (snd (GameStore.deleteGame gameId w)))
         = false)
  /\ GameStore.isLoading (GameStore.store (GameStore.loadGames w)) = false.
Proof.
  repeat split; intros.
  - unfold GameStore.createGame. run_action; reflexivity.
  - unfold GameStore.addScore. run_action; reflexivity.
  - unfold GameStore.deleteGame. run_action; reflexivity.
  - unfold GameStore.loadGames.
    destruct (Storage.listGames _) as [[response|e] b1]; [|reflexivity].
    destruct (ApiResponse.success response); [|reflexivity].
    cbn [negb]. destruct (GameStore.loadEach _ _ _) as [[e|l] b2]; reflexivity.
Qed.

(** X2. [createGame], [addScore] and [deleteGame] report a failure to
    their caller (a [null] ID, [false]) exactly when they leave an error
    message in the store; a success leaves none. *)
Theorem failure_iff_error (w : GameStore.World B) :
  (forall uuid name description isTimeBased,
      let r := GameStore.createGame uuid name description isTimeBased w in
      (fst r = None <-> GameStore.hasError (GameStore.store (snd r)) = true)
      /\ (fst r = None \/ fst r = Some uuid))
  /\ (forall uuid now gameId playerId playerName value notes,
         let r := GameStore.addScore uuid now gameId playerId playerName value notes w in
         fst r = false <-> GameStore.hasError (GameStore.store (snd r)) = true)
  /\ (forall gameId,
         let r := GameStore.deleteGame gameId w in
         fst r = false <-> GameStore.hasError (GameStore.store (snd r)) = true).
Proof.
  repeat split; intros.
  - revert H0. unfold GameStore.createGame. run_action; congruence.
  - revert H0. unfold GameStore.createGame. run_action; congruence.
  - unfold GameStore.createGame. run_action; auto.
  - revert H0. unfold GameStore.addScore. run_action; congruence.
  - revert H0. unfold GameStore.addScore. run_action; congruence.
  - revert H0. unfold GameStore.deleteGame. run_action; congruence.
  - revert H0. unfold GameStore.deleteGame. run_action; congruence.
Qed.

Lemma Forall2_refl {A : Type} (R : A -> A -> Prop) (l : list A) :
  (forall y, R y y) -> Forall2 R l l.
Proof. intro Hrefl. induction l; constructor; auto. Qed.

Lemma set_nth_Forall2 {A : Type} (R : A -> A -> Prop) (x : A) (l : list A) :
  (forall y, R y y) ->
  forall i, (forall y, nth_error l i = Some y -> R y x) ->
            Forall2 R l (set_nth i x l).
Proof.
  intros Hrefl. induction l as [|y r IH]; intros [|i] Hi; simpl.
  - constructor.
  - constructor.
  - constructor; [apply Hi; reflexivity|now apply Forall2_refl].
  - constructor; [apply Hrefl|].
    apply IH. intros z Hz. apply Hi. exact Hz.
Qed.

Lemma findIndex_nth (gameId : string) (gs : list Game.t) (i : nat) :
  findIndex (fun g => String.eqb (Game.id g) gameId) gs = Some i ->
  nth_error gs i = GameStore.findGame gameId gs.
Proof.
  unfold GameStore.findGame. revert i.
  induction gs as [|g r IH]; simpl; intros i.
  - discriminate.
  - destruct (String.eqb (Game.id g) gameId).
    + intros [= <-]. reflexivity.
    + destruct (findIndex _ r) as [j|]; [|discriminate].
      intros [= <-]. simpl. now apply IH.
Qed.

Lemma addScore_games_step uuid now gameId playerId playerName value notes
  (w : GameStore.World B) :
  Forall2
    (fun g g' =>
       g' = g
       \/ (Game.id g = gameId
           /\ g' = Game.with_scores g
                     (Game.scores g
                      ++ [Score.mk uuid playerId playerName value
                            (Game.isTimeBased g) now notes])))
    (GameStore.games (GameStore.store w))
    (GameStore.games
       (GameStore.store
          (snd (GameStore.addScore uuid now gameId playerId playerName value notes w)))).
Proof.
  unfold GameStore.addScore.
  cbn [GameStore.games GameStore.setError GameStore.setLoading].
  destruct (GameStore.findGame gameId (GameStore.games (GameStore.store w)))
    as [game|] eqn:Efind;
    [|cbn; apply Forall2_refl; auto].
  destruct (Storage.saveGame _ _) as [[response|e] b1];
    [destruct (ApiResponse.success response)|];
    cbn; try (apply Forall2_refl; auto).
  destruct (findIndex _ _) as [i|] eqn:Ei; [|apply Forall2_refl; auto].
  apply set_nth_Forall2; [auto|].
  intros y Hy. rewrite (findIndex_nth _ _ _ Ei), Efind in Hy.
  injection Hy as <-. right. split; [|reflexivity].
  apply findGame_In in Efind. tauto.
Qed.

(** X3. Whatever its arguments and whatever the backend answers,
    [addScore] keeps the games in place and leaves each either as it was
    or, for a game with the given ID, with the one new score (whose
    [isTime] is the game's [isTimeBased]) appended to its scores: no game is
    added, removed or reordered, and no other field changes. *)
Theorem addScore_touches_scores_only uuid now gameId playerId playerName value notes
  (w : GameStore.World B) :
  Forall2
    (fun g g' =>
       g' = g
       \/ (Game.id g = gameId
           /\ g' = Game.with_scores g
                     (Game.scores g
                      ++ [Score.mk uuid playerId playerName value
                            (Game.isTimeBased g) now notes])))
    (GameStore.games (GameStore.store w))
    (GameStore.games
       (GameStore.store
          (snd (GameStore.addScore uuid now gameId playerId playerName value notes w)))).
Proof. apply addScore_games_step. Qed.

(** X4. [createGame], [addScore], [deleteGame] and [loadGames] never
    change the list of players. *)
Theorem actions_keep_players (w : GameStore.World B) :
  (forall uuid name description isTimeBased,
      GameStore.players
        (GameStore.store (snd (GameStore.createGame uuid name description isTimeBased w)))
      = GameStore.players (GameStore.store w))
  /\ (forall uuid now gameId playerId playerName value notes,
         GameStore.players
           (GameStore.store
              (snd (GameStore.addScore uuid now gameId playerId playerName value notes w)))
         = GameStore.players (GameStore.store w))
  /\ (forall gameId,
         GameStore.players (GameStore.store (snd (GameStore.deleteGame gameId w)))
         = GameStore.players (GameStore.store w))
  /\ GameStore.players (GameStore.store (GameStore.loadGames w))
     = GameStore.players (GameStore.store w).
Proof.
  repeat split; intros.
  - unfold GameStore.createGame. run_action; reflexivity.
  - unfold GameStore.addScore. run_action; reflexivity.
  - unfold GameStore.deleteGame. run_action; reflexivity.
  - unfold GameStore.loadGames.
    destruct (Storage.listGames _) as [[response|e] b1]; [|reflexivity].
    destruct (ApiResponse.success response); [|reflexivity].
    cbn [negb]. destruct (GameStore.loadEach _ _ _) as [[e|l] b2]; reflexivity.
Qed.

(** X5. [deleteGame] asks the backend first.  When the backend reports
    success, every game with the given ID leaves [games] and a selected
    game with that ID is deselected; otherwise [false] is returned and
    [games] and [currentGame] are as they were. *)
Theorem deleteGame_persist_first (gameId : string) (w : GameStore.World B) :
  let r := GameStore.deleteGame gameId w in
  match fst (Storage.deleteGame gameId (GameStore.backend w)) with
  | Fulfilled {| ApiResponse.success := true |} =>
      fst r = true
      /\ GameStore.findGame gameId (GameStore.games (GameStore.store (snd r))) = None
      /\ (forall g, Game.id g <> gameId ->
                    (In g (GameStore.games (GameStore.store (snd r)))
                     <-> In g (GameStore.games (GameStore.store w))))
      /\ (forall c, GameStore.currentGame (GameStore.store (snd r)) = Some c <->
                    GameStore.currentGame (GameStore.store w) = Some c
                    /\ Game.id c <> gameId)
  | _ =>
      fst r = false
      /\ GameStore.games (GameStore.store (snd r)) = GameStore.games (GameStore.store w)
      /\ GameStore.currentGame (GameStore.store (snd r))
         = GameStore.currentGame (GameStore.store w)
  end.
Proof.
  unfold GameStore.deleteGame.
  cbn [GameStore.games GameStore.setError GameStore.setLoading
       GameStore.currentGame GameStore.players].
  destruct (Storage.deleteGame _ _) as [[[[|] d e]|e] b1]; cbn; auto.
  split; [reflexivity|]. split; [|split].
  - apply findGame_none. rewrite in_map_iff. intros (g & Eg & Hg).
    apply filter_In in Hg. destruct Hg as [_ Hg].
    apply negb_true_iff, String.eqb_neq in Hg. contradiction.
  - intros g Hg. rewrite filter_In.
    apply String.eqb_neq in Hg. rewrite Hg. cbn. tauto.
  - intros c. destruct (GameStore.currentGame (GameStore.store w)) as [c0|].
    + destruct (String.eqb (Game.id c0) gameId) eqn:E.
      * apply String.eqb_eq in E. split; [discriminate|].
        intros [[= ->] N]. contradiction.
      * apply String.eqb_neq in E. split.
        -- intros [= ->]. auto.
        -- intros [[= ->] _]. reflexivity.
    + split; [discriminate|intros [? _]; discriminate].
Qed.
End StoreActions.

(** ** Queries of the store *)

Lemma filter_filter {A : Type} (p q : A -> bool) (l : list A) :
  List.filter q (List.filter p l) = List.filter (fun x => (p x && q x)%bool) l.
Proof.
  induction l as [|x r IH]; simpl; [reflexivity|].
  destruct (p x); simpl; [destruct (q x)|]; now rewrite IH.
Qed.

Lemma filter_true {A : Type} (l : list A) : List.filter (fun _ => true) l = l.
Proof. induction l as [|x r IH]; simpl; now rewrite ?IH. Qed.

Lemma applyFilter_filter (filter : option ScoreFilter.t) (l : list Score.t) :
  GameStore.applyFilter filter l = List.filter (passesb filter) l.
Proof.
  destruct filter as [[p from to lim]|]; cbn; [|now rewrite filter_true].
  assert (E1 :
    (if truthy_str p
     then List.filter (fun s => String.eqb (Score.playerId s) (str_or p EmptyString)) l
     else l)
    = List.filter
        (fun sc => match p with
                   | Some p => if String.eqb p EmptyString then true
                               else String.eqb (Score.playerId sc) p
                   | None => true
                   end) l).
  { destruct p as [p|]; cbn; [|now rewrite filter_true].
    destruct (String.eqb p EmptyString); cbn; [now rewrite filter_true|reflexivity]. }
  rewrite E1.
  destruct from as [d1|], to as [d2|]; rewrite ?filter_filter;
    apply filter_ext; intro sc; cbn;
    now rewrite ?andb_assoc, ?andb_true_r.
Qed.

Lemma applyLimit_limitOf (filter : option ScoreFilter.t) (l : list Score.t) :
  GameStore.applyLimit filter l
  = match limitOf filter with Some n => slice0 n l | None => l end.
Proof.
  destruct filter as [[p from to [n|]]|]; cbn; try reflexivity.
  destruct (n =? 0)%Z; reflexivity.
Qed.

Lemma In_firstn {A : Type} (n : nat) (l : list A) (x : A) :
  In x (firstn n l) -> In x l.
Proof.
  intro Hin. rewrite <- (firstn_skipn n l). apply in_or_app. now left.
Qed.

Lemma slice0_prefix {A : Type} (n : Z) (l : list A) :
  exists k, slice0 n l = firstn k l.
Proof. unfold slice0. destruct (0 <=? n)%Z; eauto. Qed.

Lemma StronglySorted_firstn {A : Type} (R : A -> A -> Prop) (k : nat) (l : list A) :
  StronglySorted R l -> StronglySorted R (firstn k l).
Proof.
  intro S. rewrite <- (firstn_skipn k l) in S.
  now apply StronglySorted_app_l in S.
Qed.

(** X6. [getScores] of an unknown game is empty.  Otherwise its result is
    made of the game's scores that pass the filter (player and inclusive
    date bounds), each exactly once, in the requested order; it is cut by
    [slice(0, limit)] only when the filter has a limit other than 0: a
    limit of 0 returns every passing score. *)
Theorem getScores_filters_then_limits (s : GameStore.t) (gameId : string)
  (sortOrder : option SortOrder) (filter : option ScoreFilter.t) :
  match GameStore.findGame gameId (GameStore.games s) with
  | None => GameStore.getScores s gameId sortOrder filter = []
  | Some game =>
      exists full,
        Permutation full (List.filter (passesb filter) (Game.scores game))
        /\ GameStore.getScores s gameId sortOrder filter
           = match limitOf filter with
             | Some n => slice0 n full
             | None => full
             end
  end.
Proof.
  unfold GameStore.getScores.
  destruct (GameStore.findGame gameId (GameStore.games s)) as [game|];
    [|reflexivity].
  cbv zeta. rewrite applyLimit_limitOf, applyFilter_filter.
  eexists. split; [|reflexivity].
  destruct sortOrder as [[| | |]|]; apply sort_perm.
Qed.

(** X7. On a game of the store, best-first (the default order) lists the
    scores so that none is strictly better than an earlier one, and
    worst-first so that none is strictly worse than an earlier one, with
    any filter and limit. *)
Theorem getScores_value_orders (s : GameStore.t) (gameId : string)
  (filter : option ScoreFilter.t) :
  match GameStore.findGame gameId (GameStore.games s) with
  | None => True
  | Some game =>
      StronglySorted (ranks_before (Game.isTimeBased game))
        (GameStore.getScores s gameId (Some BEST_FIRST) filter)
      /\ StronglySorted (fun a b => ranks_before (Game.isTimeBased game) b a)
           (GameStore.getScores s gameId (Some WORST_FIRST) filter)
      /\ GameStore.getScores s gameId None filter
         = GameStore.getScores s gameId (Some BEST_FIRST) filter
  end.
Proof.
  unfold GameStore.getScores.
  destruct (GameStore.findGame gameId (GameStore.games s)) as [game|];
    [|exact I].
  cbv zeta. rewrite !applyLimit_limitOf.
  assert (Hb := sort_by_value_sorted (Game.isTimeBased game)
                  (GameStore.applyFilter filter (Game.scores game))).
  assert (Hw : StronglySorted (fun a b => ranks_before (Game.isTimeBased game) b a)
                 (sort (GameStore.by_value (negb (Game.isTimeBased game)))
                    (GameStore.applyFilter filter (Game.scores game)))).
  { eapply StronglySorted_weaken; [|apply sort_by_value_sorted].
    intros x y. apply ranks_before_negb. }
  split; [|split; [|reflexivity]].
  - destruct (limitOf filter) as [n|]; [|exact Hb].
    destruct (slice0_prefix n (sort (GameStore.by_value (Game.isTimeBased game))
                                 (GameStore.applyFilter filter (Game.scores game))))
      as [k ->].
    now apply StronglySorted_firstn.
  - destruct (limitOf filter) as [n|]; [|exact Hw].
    destruct (slice0_prefix n (sort (GameStore.by_value (negb (Game.isTimeBased game)))
                                 (GameStore.applyFilter filter (Game.scores game))))
      as [k ->].
    now apply StronglySorted_firstn.
Qed.

(** X8. Under best-first and worst-first, scores of equal value stay in
    the order in which they were added to the game. *)
Theorem getScores_ties_in_insertion_order (s : GameStore.t) (gameId : string)
  (v : number) :
  match GameStore.findGame gameId (GameStore.games s) with
  | None => True
  | Some game =>
      let same sc := if Qc_eq_dec (Score.value sc) v then true else false in
      List.filter same (GameStore.getScores s gameId (Some BEST_FIRST) None)
      = List.filter same (Game.scores game)
      /\ List.filter same (GameStore.getScores s gameId (Some WORST_FIRST) None)
         = List.filter same (Game.scores game)
  end.
Proof.
  unfold GameStore.getScores.
  destruct (GameStore.findGame gameId (GameStore.games s)) as [game|];
    [|exact I].
  cbn. split; apply sort_by_value_stable.
Qed.

Lemma num_of_Z_lt (a b : Z) : (num_of_Z a < num_of_Z b)%Qc <-> (a < b)%Z.
Proof.
  unfold Qclt, num_of_Z. cbn [this Q2Qc].
  rewrite !Qred_correct. rewrite <- Zlt_Qlt. tauto.
Qed.

Lemma pos_time_sub (a b : Z) :
  jsnum_pos (jsnum_sub (getTime (TimeValue a)) (getTime (TimeValue b))) = false
  <-> (a <= b)%Z.
Proof.
  cbn [getTime jsnum_sub]. rewrite pos_sub_ge. split; intro L.
  - destruct (Z.le_gt_cases a b) as [|G]; [assumption|].
    apply (proj2 (num_of_Z_lt b a)) in G. exfalso. exact (Qcle_not_lt _ _ L G).
  - apply Qcnot_lt_le. intro G. apply (proj1 (num_of_Z_lt b a)) in G. lia.
Qed.

(** Sorting elements on which the comparator is a total preorder. *)
Section SortOn.
Context {A : Type} (compareFn : A -> A -> jsnum) (P : A -> Prop)
  (ord : A -> A -> Prop).
Hypothesis compare_ord :
  forall x y, P x -> P y -> (jsnum_pos (compareFn x y) = false <-> ord x y).
Hypothesis ord_total : forall x y, P x -> P y -> ord x y \/ ord y x.
Hypothesis ord_trans :
  forall x y z, P x -> P y -> P z -> ord x y -> ord y z -> ord x z.

Lemma sort_insert_sorted_on (x : A) (l : list A) :
  P x -> Forall P l -> StronglySorted ord l ->
  StronglySorted ord (sort_insert compareFn x l).
Proof.
  intros Px Pl S. induction S as [|y r Hr IH Hy]; simpl.
  - repeat constructor.
  - inversion Pl as [|? ? Py Pr]; subst.
    destruct (jsnum_pos (compareFn x y)) eqn:E.
    + constructor; [now apply IH|].
      assert (Hyx : ord y x).
      { destruct (ord_total x y Px Py) as [O|O]; [|exact O].
        apply (compare_ord x y Px Py) in O. congruence. }
      eapply Permutation_Forall.
      * symmetry. apply sort_insert_perm.
      * constructor; assumption.
    + apply (compare_ord x y Px Py) in E.
      constructor; [constructor; assumption|].
      constructor; [exact E|].
      rewrite Forall_forall in *. intros z Hz.
      apply (ord_trans x y z); auto.
Qed.

Lemma sort_sorted_on (l : list A) :
  Forall P l -> StronglySorted ord (sort compareFn l).
Proof.
  induction 1 as [|x r Px Pr IH]; simpl.
  - constructor.
  - apply sort_insert_sorted_on; [exact Px| |exact IH].
    eapply Permutation_Forall; [symmetry; apply sort_perm|exact Pr].
Qed.
End SortOn.

Lemma sort_by_date_sorted (asc : bool) (l : list Score.t) :
  Forall (fun sc => validDate (Score.achievedAt sc) = true) l ->
  StronglySorted
    (fun a b =>
       if asc then newer_or_same (Score.achievedAt b) (Score.achievedAt a)
       else newer_or_same (Score.achievedAt a) (Score.achievedAt b))
    (sort (GameStore.by_date asc) l).
Proof.
  apply sort_sorted_on.
  - intros x y Px Py. unfold GameStore.by_date.
    destruct (Score.achievedAt x) as [|tx]; [discriminate|].
    destruct (Score.achievedAt y) as [|ty]; [discriminate|].
    destruct asc; apply pos_time_sub.
  - intros x y Px Py.
    destruct (Score.achievedAt x) as [|tx]; [discriminate|].
    destruct (Score.achievedAt y) as [|ty]; [discriminate|].
    destruct asc; cbn; lia.
  - intros x y z Px Py Pz.
    destruct (Score.achievedAt x) as [|tx]; [discriminate|].
    destruct (Score.achievedAt y) as [|ty]; [discriminate|].
    destruct (Score.achievedAt z) as [|tz]; [discriminate|].
    destruct asc; cbn; lia.
Qed.

(** X9. On a game of the store whose scores all carry a valid date,
    newest-first lists the scores so that none is later than an earlier
    one, and oldest-first so that none is earlier than an earlier one, with
    any filter and limit. *)
Theorem getScores_date_orders (s : GameStore.t) (gameId : string)
  (filter : option ScoreFilter.t) (game : Game.t) :
  GameStore.findGame gameId (GameStore.games s) = Some game ->
  forallb (fun sc => validDate (Score.achievedAt sc)) (Game.scores game) = true ->
  StronglySorted
    (fun a b => newer_or_same (Score.achievedAt a) (Score.achievedAt b))
    (GameStore.getScores s gameId (Some NEWEST_FIRST) filter)
  /\ StronglySorted
       (fun a b => newer_or_same (Score.achievedAt b) (Score.achievedAt a))
       (GameStore.getScores s gameId (Some OLDEST_FIRST) filter).
Proof.
  intros Hfind Hvalid. unfold GameStore.getScores. rewrite Hfind.
  cbv zeta. rewrite !applyLimit_limitOf, applyFilter_filter.
  assert (Hall : Forall (fun sc => validDate (Score.achievedAt sc) = true)
                   (List.filter (passesb filter) (Game.scores game))).
  { rewrite forallb_forall in Hvalid. apply Forall_forall.
    intros sc Hsc. apply filter_In in Hsc. now apply Hvalid. }
  split.
  - pose proof (sort_by_date_sorted false _ Hall) as S.
    destruct (limitOf filter) as [n|]; [|exact S].
    destruct (slice0_prefix n (sort (GameStore.by_date false)
                                 (List.filter (passesb filter) (Game.scores game))))
      as [k ->].
    now apply StronglySorted_firstn.
  - pose proof (sort_by_date_sorted true _ Hall) as S.
    destruct (limitOf filter) as [n|]; [|exact S].
    destruct (slice0_prefix n (sort (GameStore.by_date true)
                                 (List.filter (passesb filter) (Game.scores game))))
      as [k ->].
    now apply StronglySorted_firstn.
Qed.

(** ** The leader of the leaderboard and the best score of a card *)

Lemma ranks_before_refl tb a : ranks_before tb a a.
Proof. unfold ranks_before. destruct tb; apply Qcle_refl. Qed.

Lemma outranks_ranks_before tb a b : outranks tb a b -> ranks_before tb a b.
Proof. unfold outranks, ranks_before. destruct tb; apply Qclt_le_weak. Qed.

(** The result of the reduction is one of the scores and none is strictly
    better. *)
Lemma reduce_better_best tb (first : Score.t) (rest : list Score.t) :
  In (fold_left (GameStore.better tb) rest first) (first :: rest)
  /\ Forall (ranks_before tb (fold_left (GameStore.better tb) rest first))
       (first :: rest).
Proof.
  destruct (reduce_better tb rest [] first [] (Forall_nil _) (Forall_nil _))
    as (before & after & Eq & Hb & Ha).
  cbn [app] in Eq. rewrite Eq. split.
  - apply in_or_app. right. now left.
  - apply Forall_app. split.
    + eapply Forall_impl; [|exact Hb]. intros x. apply outranks_ranks_before.
    + constructor; [apply ranks_before_refl|exact Ha].
Qed.

Lemma getBestScore_best (s : GameStore.t) (gameId playerId : string)
  (game : Game.t) (b : Score.t) :
  GameStore.findGame gameId (GameStore.games s) = Some game ->
  GameStore.getBestScore s gameId playerId = Some b ->
  In b (scoresOf playerId game)
  /\ Forall (ranks_before (Game.isTimeBased game) b) (scoresOf playerId game).
Proof.
  intros Hfind. unfold GameStore.getBestScore. rewrite Hfind.
  fold (scoresOf playerId game).
  destruct (scoresOf playerId game) as [|first rest]; [discriminate|].
  intros [= <-]. apply reduce_better_best.
Qed.

Lemma scoresOf_In (playerId : string) (game : Game.t) (sc : Score.t) :
  In sc (scoresOf playerId game)
  <-> In sc (Game.scores game) /\ Score.playerId sc = playerId.
Proof.
  unfold scoresOf. rewrite filter_In, String.eqb_eq. tauto.
Qed.

Lemma bestPerPlayer_In (s : GameStore.t) (gameId : string) (e : LeaderboardEntry) :
  In e (GameStore.bestPerPlayer s gameId)
  <-> In (player e) (GameStore.players s)
      /\ GameStore.getBestScore s gameId (Player.id (player e)) = Some (bestScore e).
Proof.
  unfold GameStore.bestPerPlayer. rewrite in_flat_map. split.
  - intros (p & Hp & He).
    destruct (GameStore.getBestScore s gameId (Player.id p)) as [b|] eqn:E;
      [|contradiction].
    destruct He as [<-|[]]. cbn. auto.
  - intros [Hp Hb]. exists (player e). split; [exact Hp|].
    rewrite Hb. left. now destruct e.
Qed.

Lemma firstn_cons_inv {A : Type} (k : nat) (l : list A) (x : A) (r : list A) :
  firstn k l = x :: r -> exists r', l = x :: r'.
Proof.
  destruct k, l; simpl; try discriminate. intros [= -> _]. eauto.
Qed.

(** The first entry of the sorted board stands before the best score of
    every known player. *)
Lemma leader_before_all (s : GameStore.t) (gameId : string) (game : Game.t)
  (e : LeaderboardEntry) (r : list LeaderboardEntry) :
  GameStore.findGame gameId (GameStore.games s) = Some game ->
  sort (GameStore.by_best (Game.isTimeBased game)) (GameStore.bestPerPlayer s gameId)
  = e :: r ->
  (In (player e) (GameStore.players s)
   /\ In (bestScore e) (Game.scores game)
   /\ Score.playerId (bestScore e) = Player.id (player e))
  /\ forall p sc,
       In p (GameStore.players s) -> In sc (Game.scores game) ->
       Score.playerId sc = Player.id p ->
       ranks_before (Game.isTimeBased game) (bestScore e) sc.
Proof.
  intros Hfind Hsorted.
  set (tb := Game.isTimeBased game) in *.
  assert (Hperm := sort_perm (GameStore.by_best tb) (GameStore.bestPerPlayer s gameId)).
  assert (Hs : StronglySorted (entry_before tb)
                 (sort (GameStore.by_best tb) (GameStore.bestPerPlayer s gameId))).
  { apply sort_sorted.
    - intros x y. apply by_value_ord.
    - intros x y. apply ranks_before_total.
    - intros x y z. apply ranks_before_trans. }
  rewrite Hsorted in Hperm, Hs.
  assert (He : In e (GameStore.bestPerPlayer s gameId))
    by (eapply Permutation_in; [exact Hperm|now left]).
  apply bestPerPlayer_In in He. destruct He as [Hp Hb].
  destruct (getBestScore_best s gameId _ game _ Hfind Hb) as [Hin _].
  apply scoresOf_In in Hin.
  split; [tauto|].
  intros p sc Hpin Hsc Hpid.
  assert (Hsc' : In sc (scoresOf (Player.id p) game)) by (apply scoresOf_In; auto).
  destruct (GameStore.getBestScore s gameId (Player.id p)) as [b'|] eqn:Eb'.
  - destruct (getBestScore_best s gameId _ game _ Hfind Eb') as [_ Hall].
    rewrite Forall_forall in Hall. specialize (Hall sc Hsc').
    assert (He' : In (mkEntry p b') (e :: r)).
    { eapply Permutation_in; [symmetry; exact Hperm|].
      apply bestPerPlayer_In. cbn. auto. }
    inversion Hs as [|? ? _ Hhead]; subst.
    destruct He' as [->|He'].
    + exact Hall.
    + rewrite Forall_forall in Hhead.
      exact (ranks_before_trans _ _ _ _ (Hhead _ He') Hall).
  - apply (getBestScore_none s gameId (Player.id p) game Hfind) in Eb'.
    rewrite Eb' in Hsc'. contradiction.
Qed.

(** X10. When [getLeaderboard] of a game of the store is not empty, its
    first entry pairs a known player with one of that player's scores in
    the game, and no score of any known player in the game is strictly
    better than it. *)
Theorem leaderboard_leader_is_best (s : GameStore.t) (gameId : string)
  (limit : option Z) (game : Game.t) (e : LeaderboardEntry)
  (rest : list LeaderboardEntry) :
  GameStore.findGame gameId (GameStore.games s) = Some game ->
  GameStore.getLeaderboard s gameId limit = e :: rest ->
  (In (player e) (GameStore.players s)
   /\ In (bestScore e) (Game.scores game)
   /\ Score.playerId (bestScore e) = Player.id (player e))
  /\ forall p sc,
       In p (GameStore.players s) -> In sc (Game.scores game) ->
       Score.playerId sc = Player.id p ->
       ranks_before (Game.isTimeBased game) (bestScore e) sc.
Proof.
  intros Hfind Hlb. unfold GameStore.getLeaderboard in Hlb. rewrite Hfind in Hlb.
  destruct (slice0_prefix (match limit with Some n => n | None => 10%Z end)
              (sort (GameStore.by_best (Game.isTimeBased game))
                 (GameStore.bestPerPlayer s gameId))) as [k Hk].
  rewrite Hk in Hlb. apply firstn_cons_inv in Hlb. destruct Hlb as [r Hr].
  exact (leader_before_all s gameId game e r Hfind Hr).
Qed.

(** X11. The best score shown on a game's card is [null] exactly when the
    game has no score; otherwise it is one of the game's scores, every score
    added before it is strictly worse and no score added after it is
    strictly better. *)
Theorem card_best_is_first_best (game : Game.t) :
  match GameList.getBestScore game with
  | None => Game.scores game = []
  | Some best =>
      exists before after,
        Game.scores game = before ++ best :: after
        /\ Forall (outranks (Game.isTimeBased game) best) before
        /\ Forall (ranks_before (Game.isTimeBased game) best) after
  end.
Proof.
  unfold GameList.getBestScore.
  destruct (Game.scores game) as [|first rest]; [reflexivity|].
  destruct (reduce_better (Game.isTimeBased game) rest [] first []
              (Forall_nil _) (Forall_nil _))
    as (before & after & Eq & Hb & Ha).
  exists before, after. auto.
Qed.

(** X12. When the player of a card's best score is a known player, the
    leaderboard of that game with a limit of at least 1 is not empty and its
    first entry has the same value as the card's best score. *)
Theorem card_best_matches_leader (s : GameStore.t) (gameId : string)
  (game : Game.t) (best : Score.t) (p : Player.t) (limit : Z) :
  GameStore.findGame gameId (GameStore.games s) = Some game ->
  GameList.getBestScore game = Some best ->
  In p (GameStore.players s) ->
  Player.id p = Score.playerId best ->
  (1 <= limit)%Z ->
  exists e rest,
    GameStore.getLeaderboard s gameId (Some limit) = e :: rest
    /\ Score.value (bestScore e) = Score.value best.
Proof.
  intros Hfind Hbest Hp Hid Hlimit.
  assert (Hcard : In best (Game.scores game)
                  /\ Forall (ranks_before (Game.isTimeBased game) best)
                       (Game.scores game)).
  { unfold GameList.getBestScore in Hbest.
    destruct (Game.scores game) as [|first rest]; [discriminate|].
    injection Hbest as <-. apply reduce_better_best. }
  destruct Hcard as [Hin Hall].
  destruct (sort (GameStore.by_best (Game.isTimeBased game))
              (GameStore.bestPerPlayer s gameId)) as [|e r] eqn:Hsorted.
  - exfalso.
    assert (Hnil : GameStore.bestPerPlayer s gameId = []).
    { apply Permutation_nil. rewrite <- Hsorted. apply sort_perm. }
    destruct (GameStore.getBestScore s gameId (Player.id p)) as [b|] eqn:Eb.
    + assert (In (mkEntry p b) (GameStore.bestPerPlayer s gameId))
        by (apply bestPerPlayer_In; cbn; auto).
      rewrite Hnil in *. contradiction.
    + apply (getBestScore_none s gameId (Player.id p) game Hfind) in Eb.
      assert (Hsc : In best (scoresOf (Player.id p) game))
        by (apply scoresOf_In; auto).
      rewrite Eb in Hsc. contradiction.
  - destruct (leader_before_all s gameId game e r Hfind Hsorted)
      as [(_ & He & _) Hlead].
    exists e, (firstn (Z.to_nat limit - 1) r). split.
    + unfold GameStore.getLeaderboard. rewrite Hfind, Hsorted.
      rewrite slice0_nonneg by lia.
      destruct (Z.to_nat limit) as [|k] eqn:Ek; [lia|].
      cbn. now rewrite Nat.sub_0_r.
    + apply (ranks_before_antisym (Game.isTimeBased game)).
      * apply (Hlead p best Hp Hin). now symmetry.
      * rewrite Forall_forall in Hall. now apply Hall.
Qed.

(** ** The local storage service *)

Section ObjKeys.
Context {V : Type}.

Lemma obj_get_none (k : string) (o : list (string * V)) :
  obj_get k o = None <-> ~ In k (map fst o).
Proof.
  induction o as [|[k' v'] r IH]; simpl.
  - tauto.
  - destruct (String.eqb k' k) eqn:E.
    + apply String.eqb_eq in E. split; [discriminate|]. intro N. exfalso. auto.
    + apply String.eqb_neq in E. rewrite IH. tauto.
Qed.

Lemma obj_get_In (k : string) (v : V) (o : list (string * V)) :
  NoDup (map fst o) -> In (k, v) o -> obj_get k o = Some v.
Proof.
  induction o as [|[k' v'] r IH]; simpl; intros N Hin.
  - contradiction.
  - inversion N as [|? ? Nk Nr]; subst.
    destruct Hin as [[= -> ->]|Hin].
    + now rewrite String.eqb_refl.
    + destruct (String.eqb k' k) eqn:E.
      * apply String.eqb_eq in E. subst k'. exfalso. apply Nk.
        apply in_map_iff. exists (k, v). auto.
      * now apply IH.
Qed.

Lemma obj_put_absent (k : string) (v : V) (o : list (string * V)) :
  obj_get k o = None -> obj_put k v o = o ++ [(k, v)].
Proof.
  induction o as [|[k' v'] r IH]; simpl; [reflexivity|].
  destruct (String.eqb k' k); [discriminate|].
  intro E. now rewrite IH.
Qed.

Lemma obj_put_length (k : string) (v : V) (o : list (string * V)) :
  length (obj_put k v o)
  = match obj_get k o with
    | Some _ => length o
    | None => S (length o)
    end.
Proof.
  induction o as [|[k' v'] r IH]; simpl; [reflexivity|].
  destruct (String.eqb k' k); simpl; [reflexivity|].
  rewrite IH. now destruct (obj_get k r).
Qed.

Lemma filter_partition_perm {A : Type} (f : A -> bool) (l : list A) :
  Permutation (List.filter f l ++ List.filter (fun x => negb (f x)) l) l.
Proof.
  induction l as [|a r IH]; simpl; [constructor|].
  destruct (f a); simpl.
  - now constructor.
  - rewrite <- Permutation_middle. now constructor.
Qed.

(** [Object.entries] lists every own property once. *)
Lemma obj_entries_perm (o : list (string * V)) :
  Permutation (obj_entries o) o.
Proof.
  unfold obj_entries. rewrite sort_perm. apply filter_partition_perm.
Qed.

(** A new property whose name is not an array index is listed last. *)
Lemma obj_entries_app_named (o : list (string * V)) (e : string * V) :
  isIndexed e = false -> obj_entries (o ++ [e]) = obj_entries o ++ [e].
Proof.
  intro E. unfold obj_entries. rewrite !filter_app. simpl. rewrite E. simpl.
  now rewrite app_nil_r, app_assoc.
Qed.

Lemma obj_delete_keys_In (k k0 : string) (o : list (string * V)) :
  In k (map fst (obj_delete k0 o)) -> In k (map fst o).
Proof.
  induction o as [|[k' v'] r IH]; simpl.
  - tauto.
  - destruct (String.eqb k' k0); simpl; intuition.
Qed.

Lemma obj_delete_NoDup (k0 : string) (o : list (string * V)) :
  NoDup (map fst o) -> NoDup (map fst (obj_delete k0 o)).
Proof.
  induction o as [|[k' v'] r IH]; simpl; intro N.
  - constructor.
  - inversion N as [|? ? Nk Nr]; subst.
    destruct (String.eqb k' k0); [exact Nr|].
    simpl. constructor; [|now apply IH].
    intro Hin. apply Nk. eapply obj_delete_keys_In. exact Hin.
Qed.

Lemma obj_get_delete_same (k : string) (o : list (string * V)) :
  NoDup (map fst o) -> obj_get k (obj_delete k o) = None.
Proof.
  induction o as [|[k' v'] r IH]; simpl; intro N.
  - reflexivity.
  - inversion N as [|? ? Nk Nr]; subst.
    destruct (String.eqb k' k) eqn:E.
    + apply String.eqb_eq in E. subst k'. now apply obj_get_none.
    + simpl. rewrite E. now apply IH.
Qed.

Lemma obj_get_delete_other (k k0 : string) (o : list (string * V)) :
  k0 <> k -> obj_get k (obj_delete k0 o) = obj_get k o.
Proof.
  intro N. induction o as [|[k' v'] r IH]; simpl.
  - reflexivity.
  - destruct (String.eqb k' k0) eqn:E0.
    + apply String.eqb_eq in E0. subst k'.
      apply String.eqb_neq in N. now rewrite N.
    + simpl. destruct (String.eqb k' k); [reflexivity|exact IH].
Qed.
End ObjKeys.

Section LocalStorage.
Context `{DateFormat} `{Browser}.

(** X13. When the game's ID is not ["__proto__"] and [setItem] accepts
    the write, [saveGame] upserts: afterwards the storage holds the game's
    document, with version "1.0", under the game's ID; the documents under
    every other ID are as they were; the number of documents grows by one
    exactly when the ID was not stored before; and a new ID that is not an
    array index is the last entry that [Object.entries] lists. *)
Theorem saveGame_upserts (g : Game.t) (ls : StorageService.localStorage) :
  Game.id g <> "__proto__" ->
  saveAccepted g ls = true ->
  let before := StorageService.getGamesFromStorage ls in
  let after :=
    StorageService.getGamesFromStorage (snd (StorageService.saveGame g ls)) in
  let gameFile := GameFile.mk (StorageService.gameToJSON g) "1.0" in
  obj_get (Game.id g) after = Some gameFile
  /\ (forall gameId, gameId <> Game.id g ->
        obj_get gameId after = obj_get gameId before)
  /\ length after
     = match obj_get (Game.id g) before with
       | Some _ => length before
       | None => S (length before)
       end
  /\ (obj_get (Game.id g) before = None -> arrayIndex (Game.id g) = None ->
      obj_entries after = obj_entries before ++ [(Game.id g, gameFile)]).
Proof.
  intros Hid Hw before after gameFile.
  assert (Hafter : after = obj_put (Game.id g) gameFile before).
  { unfold after, StorageService.saveGame, StorageService.saveGamesToStorage.
    cbn [snd]. unfold saveAccepted in Hw. rewrite Hw.
    cbn [StorageService.getGamesFromStorage]. now apply obj_set_put. }
  rewrite Hafter. split; [apply obj_get_put_same|].
  split; [intros gameId N; apply obj_get_put_other; congruence|].
  split; [apply obj_put_length|].
  intros Habsent Hname. rewrite obj_put_absent by exact Habsent.
  apply obj_entries_app_named. unfold isIndexed. cbn [fst]. now rewrite Hname.
Qed.

(** X14. On a storage with one document per ID, for an ID that is no
    property name of [Object.prototype] and when [setItem] accepts the
    write: once [deleteGame(id)] has run, [loadGame(id)] and a second
    [deleteGame(id)] both fail with "Game not found", and loading any other
    ID gives what it gave before. *)
Theorem deleteGame_then_missing (gameId : string) (ls : StorageService.localStorage) :
  NoDup (map fst (StorageService.getGamesFromStorage ls)) ->
  isPrototypeName gameId = false ->
  deleteAccepted gameId ls = true ->
  let ls' := snd (StorageService.deleteGame gameId ls) in
  fst (StorageService.loadGame gameId ls')
  = Fulfilled (ApiResponse.fail "Game not found")
  /\ fst (StorageService.deleteGame gameId ls')
     = Fulfilled (ApiResponse.fail "Game not found")
  /\ forall other, other <> gameId ->
       fst (StorageService.loadGame other ls') = fst (StorageService.loadGame other ls).
Proof.
  intros N Hname Hw ls'. unfold deleteAccepted in Hw.
  assert (Hls' : StorageService.getGamesFromStorage ls'
                 = obj_delete gameId (StorageService.getGamesFromStorage ls)).
  { unfold ls', StorageService.deleteGame, obj_read. rewrite Hname.
    destruct (obj_get gameId (StorageService.getGamesFromStorage ls)) eqn:E;
      cbn [snd].
    - unfold StorageService.saveGamesToStorage. now rewrite Hw.
    - clear Hw. induction (StorageService.getGamesFromStorage ls)
        as [|[k v] r IH]; simpl in *; [reflexivity|].
      destruct (String.eqb k gameId); [discriminate|].
      inversion N; subst. f_equal. now apply IH. }
  assert (Hgone : obj_get gameId (StorageService.getGamesFromStorage ls') = None).
  { rewrite Hls'. now apply obj_get_delete_same. }
  assert (Hother : forall other, other <> gameId ->
            obj_get other (StorageService.getGamesFromStorage ls')
            = obj_get other (StorageService.getGamesFromStorage ls)).
  { intros other No. rewrite Hls'. apply obj_get_delete_other. congruence. }
  unfold StorageService.loadGame, StorageService.deleteGame, obj_read.
  rewrite Hgone, Hname. repeat split.
  intros other No. rewrite (Hother other No).
  destruct (obj_get other _); [reflexivity|].
  destruct (isPrototypeName other); reflexivity.
Qed.

(** X15. [listGames] succeeds, leaves the storage as it is, and returns
    one summary per stored document, made of the document's key, its name
    and the date read from its [updatedAt]. *)
Theorem listGames_one_per_document (ls : StorageService.localStorage) :
  snd (StorageService.listGames ls) = ls
  /\ exists gameList,
       fst (StorageService.listGames ls) = Fulfilled (ApiResponse.ok gameList)
       /\ Permutation gameList
            (map summaryOf (StorageService.getGamesFromStorage ls)).
Proof.
  split; [reflexivity|]. eexists. split; [reflexivity|].
  rewrite sort_perm. rewrite obj_entries_perm.
  apply Permutation_refl'. apply map_ext.
  now intros [k gf].
Qed.

Lemma sort_by_updatedAt_sorted (l : list GameSummary.t) :
  Forall (fun sm => validDate (GameSummary.updatedAt sm) = true) l ->
  StronglySorted
    (fun a b => newer_or_same (GameSummary.updatedAt a) (GameSummary.updatedAt b))
    (sort StorageService.by_updatedAt_desc l).
Proof.
  apply sort_sorted_on.
  - intros x y Px Py. unfold StorageService.by_updatedAt_desc.
    destruct (GameSummary.updatedAt x) as [|tx]; [discriminate|].
    destruct (GameSummary.updatedAt y) as [|ty]; [discriminate|].
    apply pos_time_sub.
  - intros x y Px Py.
    destruct (GameSummary.updatedAt x) as [|tx]; [discriminate|].
    destruct (GameSummary.updatedAt y) as [|ty]; [discriminate|].
    cbn; lia.
  - intros x y z Px Py Pz.
    destruct (GameSummary.updatedAt x) as [|tx]; [discriminate|].
    destruct (GameSummary.updatedAt y) as [|ty]; [discriminate|].
    destruct (GameSummary.updatedAt z) as [|tz]; [discriminate|].
    cbn; lia.
Qed.

(** X16. When the [updatedAt] of every stored document reads as a valid
    date, [listGames] returns the summaries most recently updated first. *)
Theorem listGames_most_recent_first (ls : StorageService.localStorage)
  (gameList : list GameSummary.t) :
  forallb (fun kv => validDate (GameSummary.updatedAt (summaryOf kv)))
    (StorageService.getGamesFromStorage ls) = true ->
  fst (StorageService.listGames ls) = Fulfilled (ApiResponse.ok gameList) ->
  StronglySorted
    (fun a b => newer_or_same (GameSummary.updatedAt a) (GameSummary.updatedAt b))
    gameList.
Proof.
  intros Hvalid. cbn. intros [= <-].
  apply sort_by_updatedAt_sorted.
  rewrite forallb_forall in Hvalid. apply Forall_forall.
  intros sm Hsm. apply in_map_iff in Hsm. destruct Hsm as ([k gf] & <- & Hin).
  apply (Permutation_in _ (obj_entries_perm _)) in Hin.
  exact (Hvalid _ Hin).
Qed.
End LocalStorage.

(** ** The store over the local storage service *)

Lemma findGame_set_nth (gameId : string) (g' : Game.t) (gs : list Game.t) (i : nat) :
  findIndex (fun g => String.eqb (Game.id g) gameId) gs = Some i ->
  Game.id g' = gameId ->
  GameStore.findGame gameId (set_nth i g' gs) = Some g'.
Proof.
  unfold GameStore.findGame. intros Hi Hid. revert i Hi.
  induction gs as [|g r IH]; simpl; intros i Hi.
  - discriminate.
  - destruct (String.eqb (Game.id g) gameId) eqn:E.
    + injection Hi as <-. simpl.
      apply String.eqb_eq in Hid. now rewrite Hid.
    + destruct (findIndex _ r) as [j|]; [|discriminate].
      injection Hi as <-. simpl. rewrite E. now apply IH.
Qed.

Lemma findIndex_of_find (gameId : string) (gs : list Game.t) (g : Game.t) :
  GameStore.findGame gameId gs = Some g ->
  exists i, findIndex (fun g => String.eqb (Game.id g) gameId) gs = Some i.
Proof.
  unfold GameStore.findGame.
  induction gs as [|g0 r IH]; simpl; [discriminate|].
  destruct (String.eqb (Game.id g0) gameId); [eauto|].
  intro E. destruct (IH E) as [i ->]. simpl. eauto.
Qed.

Section LocalStore.
Context `{DateFormat} `{Browser}.

Lemma deserializeScores_toJSON (l : list Score.t) :
  forallb (fun sc => validDate (Score.achievedAt sc)) l = true ->
  map StorageService.deserializeScore (map StorageService.scoreToJSON l) = l.
Proof.
  rewrite forallb_forall.
  induction l as [|sc r IH]; simpl; intro V; [reflexivity|].
  rewrite deserializeScore_toJSON by (apply V; now left).
  f_equal. apply IH. intros x Hx. apply V. now right.
Qed.

Lemma loadEach_local (games : list (string * GameFile.t))
  (summaries : list GameSummary.t) :
  forall acc,
    GameStore.loadEach summaries acc (Some games)
    = (inr (acc
            ++ flat_map
                 (fun sm =>
                    match obj_get (GameSummary.id sm) games with
                    | Some gf => [StorageService.deserializeGame (GameFile.game gf)]
                    | None => []
                    end) summaries),
       Some games).
Proof.
  induction summaries as [|sm rest IH]; intro acc; simpl.
  - now rewrite app_nil_r.
  - unfold StorageService.loadGame, obj_read.
    cbn [StorageService.getGamesFromStorage].
    destruct (obj_get (GameSummary.id sm) games) as [gf|];
      [|destruct (isPrototypeName (GameSummary.id sm))]; cbn.
    + rewrite IH, <- app_assoc. reflexivity.
    + apply IH.
    + apply IH.
Qed.

(** X17. Over a storage with one document per ID, [loadGames] replaces
    [games] by the stored documents, deserialized, one game each; games that
    were only in memory are gone.  It leaves no error and does not write to
    the storage. *)
Theorem loadGames_replaces_games (w : GameStore.World StorageService.localStorage) :
  NoDup (map fst (StorageService.getGamesFromStorage (GameStore.backend w))) ->
  let w' := GameStore.loadGames w in
  Permutation (GameStore.games (GameStore.store w'))
    (map (fun kv => StorageService.deserializeGame (GameFile.game (snd kv)))
       (StorageService.getGamesFromStorage (GameStore.backend w)))
  /\ GameStore.error (GameStore.store w') = None
  /\ GameStore.backend w' = GameStore.backend w.
Proof.
  intros N. unfold GameStore.loadGames. cbn.
  destruct w as [s [games|]]; cbn in *.
  - rewrite loadEach_local. cbn. repeat split.
    rewrite (Permutation_flat_map _ (sort_perm _ _)).
    assert (Hsub : forall l, incl l games ->
              flat_map
                (fun sm =>
                   match obj_get (GameSummary.id sm) games with
                   | Some gf => [StorageService.deserializeGame (GameFile.game gf)]
                   | None => []
                   end)
                (map (fun '(gameId, gameFile) =>
                        GameSummary.mk gameId (GameJson.name (GameFile.game gameFile))
                          (StorageService.newDate
                             (GameJson.updatedAt (GameFile.game gameFile)))) l)
              = map (fun kv => StorageService.deserializeGame (GameFile.game (snd kv))) l).
    { induction l as [|[k gf] r IH]; intro Hincl; simpl; [reflexivity|].
      rewrite (obj_get_In k gf games N) by (apply Hincl; now left).
      simpl. f_equal. apply IH. intros x Hx. apply Hincl. now right. }
    rewrite Hsub.
    + apply Permutation_map, obj_entries_perm.
    + intros kv Hin. exact (Permutation_in _ (obj_entries_perm _) Hin).
  - repeat split. constructor.
Qed.

(** X18. Over the local storage, when the fresh ID is not ["__proto__"]
    and [setItem] accepts the write, [createGame] returns the fresh ID, the
    game it appends to [games] has no timestamps, and the same game loaded
    back from the storage has the two timestamps set to the invalid
    date. *)
Theorem createGame_persisted (uuid name : string) (description : option string)
  (isTimeBased : bool) (w : GameStore.World StorageService.localStorage) :
  uuid <> "__proto__" ->
  saveAccepted (Game.mk uuid name description isTimeBased [] None None)
    (GameStore.backend w) = true ->
  let r := GameStore.createGame uuid name description isTimeBased w in
  fst r = Some uuid
  /\ GameStore.games (GameStore.store (snd r))
     = GameStore.games (GameStore.store w)
       ++ [Game.mk uuid name description isTimeBased [] None None]
  /\ fst (StorageService.loadGame uuid (GameStore.backend (snd r)))
     = Fulfilled
         (ApiResponse.ok
            (Game.mk uuid name description isTimeBased []
               (Some InvalidDate) (Some InvalidDate))).
Proof.
  intros Hid Hw. unfold saveAccepted in Hw. cbn [Game.id] in Hw.
  unfold GameStore.createGame. cbn. repeat split.
  unfold StorageService.loadGame, StorageService.saveGamesToStorage, obj_read.
  cbn [StorageService.gameToJSON Game.id Game.name Game.description
       Game.isTimeBased Game.scores Game.createdAt Game.updatedAt map option_map]
    in Hw |- *.
  rewrite Hw. cbn [StorageService.getGamesFromStorage].
  now rewrite obj_get_set_same.
Qed.

(** X19. Over the local storage, an [addScore] on a game of the store
    whose dates are valid succeeds; when the game's ID is not ["__proto__"]
    and [setItem] accepts the write, memory and storage agree afterwards:
    the store finds under the ID the game with the new score appended, and
    [loadGame] of that ID returns a game with the same ID, name,
    description, ranking direction and list of scores. *)
Theorem addScore_persisted (uuid : string) (now : Date)
  (gameId playerId playerName : string) (value : number) (notes : option string)
  (w : GameStore.World StorageService.localStorage) (game : Game.t) :
  let updatedGame :=
    Game.with_scores game
      (Game.scores game
       ++ [Score.mk uuid playerId playerName value (Game.isTimeBased game) now notes]) in
  GameStore.findGame gameId (GameStore.games (GameStore.store w)) = Some game ->
  forallb (fun sc => validDate (Score.achievedAt sc)) (Game.scores game) = true ->
  validDate now = true ->
  gameId <> "__proto__" ->
  saveAccepted updatedGame (GameStore.backend w) = true ->
  let r := GameStore.addScore uuid now gameId playerId playerName value notes w in
  fst r = true
  /\ GameStore.findGame gameId (GameStore.games (GameStore.store (snd r)))
     = Some updatedGame
  /\ exists loaded,
       fst (StorageService.loadGame gameId (GameStore.backend (snd r)))
       = Fulfilled (ApiResponse.ok loaded)
       /\ Game.id loaded = Game.id updatedGame
       /\ Game.name loaded = Game.name updatedGame
       /\ Game.description loaded = Game.description updatedGame
       /\ Game.isTimeBased loaded = Game.isTimeBased updatedGame
       /\ Game.scores loaded = Game.scores updatedGame.
Proof.
  intros updatedGame Hfind Hvalid Hnow Hname Hw r.
  destruct (findIndex_of_find _ _ _ Hfind) as [i Hi].
  pose proof (findGame_In _ _ _ Hfind) as [_ Hid].
  assert (Hsaved :
    GameStore.backend (snd r)
    = Some (obj_set gameId (GameFile.mk (StorageService.gameToJSON updatedGame) "1.0")
              (StorageService.getGamesFromStorage (GameStore.backend w)))).
  { unfold r, GameStore.addScore.
    cbn [GameStore.games GameStore.setError GameStore.setLoading].
    rewrite Hfind. fold updatedGame. cbn [Storage.saveGame StorageService.api].
    unfold StorageService.saveGame, StorageService.saveGamesToStorage.
    unfold saveAccepted in Hw. rewrite Hw. cbn. rewrite ?Hi. cbn. now rewrite Hid. }
  split; [|split].
  - unfold r, GameStore.addScore.
    cbn [GameStore.games GameStore.setError GameStore.setLoading].
    rewrite Hfind. reflexivity.
  - unfold r, GameStore.addScore.
    cbn [GameStore.games GameStore.setError GameStore.setLoading].
    rewrite Hfind. fold updatedGame. cbn. rewrite Hi. cbn.
    apply findGame_set_nth; [exact Hi|exact Hid].
  - rewrite Hsaved. unfold StorageService.loadGame, obj_read.
    cbn [StorageService.getGamesFromStorage].
    rewrite obj_get_set_same by exact Hname. eexists. split; [reflexivity|].
    cbn [Game.id Game.name Game.description Game.isTimeBased Game.scores
         StorageService.deserializeGame StorageService.gameToJSON
         GameJson.id GameJson.name GameJson.description GameJson.isTimeBased
         GameJson.scores GameFile.game updatedGame Game.with_scores fst].
    repeat split; try reflexivity.
    apply deserializeScores_toJSON.
    rewrite forallb_app, Hvalid. cbn. now rewrite Hnow.
Qed.

(** X20. Over the local storage, [deleteGame] of an ID that has no stored
    document and is no property name of [Object.prototype] returns [false]
    with the error "Game not found" and leaves [games] and the storage as
    they were, also when a game with that ID is in [games]: a game that was
    never saved cannot be deleted. *)
Theorem deleteGame_unsaved (gameId : string)
  (w : GameStore.World StorageService.localStorage) :
  ~ In gameId (map fst (StorageService.getGamesFromStorage (GameStore.backend w))) ->
  isPrototypeName gameId = false ->
  let r := GameStore.deleteGame gameId w in
  fst r = false
  /\ GameStore.games (GameStore.store (snd r)) = GameStore.games (GameStore.store w)
  /\ GameStore.error (GameStore.store (snd r)) = Some "Game not found"
  /\ GameStore.backend (snd r) = GameStore.backend w.
Proof.
  intros Habsent Hname. apply obj_get_none in Habsent.
  unfold GameStore.deleteGame. cbn [Storage.deleteGame StorageService.api].
  unfold StorageService.deleteGame, obj_read.
  rewrite Habsent, Hname. cbn. auto.
Qed.

(** X21. Over a local storage with one document per ID, when [setItem]
    accepts the write, [deleteGame] of an ID that has a stored document and
    is no property name of [Object.prototype] returns [true]; afterwards the
    store finds no game under that ID and [loadGame] of it fails with "Game
    not found". *)
Theorem deleteGame_saved (gameId : string)
  (w : GameStore.World StorageService.localStorage) :
  NoDup (map fst (StorageService.getGamesFromStorage (GameStore.backend w))) ->
  In gameId (map fst (StorageService.getGamesFromStorage (GameStore.backend w))) ->
  isPrototypeName gameId = false ->
  deleteAccepted gameId (GameStore.backend w) = true ->
  let r := GameStore.deleteGame gameId w in
  fst r = true
  /\ GameStore.findGame gameId (GameStore.games (GameStore.store (snd r))) = None
  /\ GameStore.error (GameStore.store (snd r)) = None
  /\ fst (StorageService.loadGame gameId (GameStore.backend (snd r)))
     = Fulfilled (ApiResponse.fail "Game not found").
Proof.
  intros N Hin Hname Hw. unfold deleteAccepted in Hw.
  destruct (obj_get gameId (StorageService.getGamesFromStorage (GameStore.backend w)))
    as [gf|] eqn:E; [|apply obj_get_none in E; contradiction].
  unfold GameStore.deleteGame. cbn [Storage.deleteGame StorageService.api].
  unfold StorageService.deleteGame, obj_read, StorageService.saveGamesToStorage.
  rewrite E, Hw. cbn. split; [reflexivity|]. split; [|split; [reflexivity|]].
  - apply findGame_none. rewrite in_map_iff. intros (g & Eg & Hg).
    apply filter_In in Hg. destruct Hg as [_ Hg].
    apply negb_true_iff, String.eqb_neq in Hg. contradiction.
  - unfold StorageService.loadGame, obj_read.
    cbn [StorageService.getGamesFromStorage].
    now rewrite obj_get_delete_same, Hname.
Qed.
End LocalStore.

(** ** What the forms accept *)

Lemma find_none_iff {A : Type} (p : A -> bool) (l : list A) :
  find p l = None <-> forall x, In x l -> p x = false.
Proof.
  split.
  - intros E x Hx. exact (find_none p l E x Hx).
  - intro Hall. destruct (find p l) as [y|] eqn:E; [|reflexivity].
    apply find_some in E. destruct E as [Hin Hp].
    rewrite (Hall y Hin) in Hp. discriminate.
Qed.

Lemma length_nonempty (s : string) :
  2 <= String.length s -> String.eqb s EmptyString = false.
Proof. destruct s; simpl; [lia|reflexivity]. Qed.

Ltac absurd_errors :=
  match goal with
  | E : obj_set _ _ _ = [] |- _ => error_set E
  end.

(** X22. The Add Game form passes [validateForm] exactly when the trimmed
    name has 2 to 50 characters, no game of the store has the same
    lower-cased name, and the trimmed description has at most 200
    characters. *)
Theorem addGameForm_accepts_iff (games : list Game.t) (fd : AddGameForm.FormData) :
  AddGameForm.validateForm games fd = []
  <-> (2 <= String.length (trim (AddGameForm.name fd)) <= 50
       /\ (forall g, In g games ->
                     toLowerCase (Game.name g)
                     <> toLowerCase (trim (AddGameForm.name fd)))
       /\ String.length (trim (AddGameForm.description fd)) <= 200).
Proof.
  unfold AddGameForm.validateForm. split.
  - intro E.
    destruct (Nat.ltb 200 _) eqn:Ed; [absurd_errors|].
    destruct (find _ games) eqn:Ef; [absurd_errors|].
    destruct (String.eqb (trim (AddGameForm.name fd)) EmptyString) eqn:E0;
      [absurd_errors|].
    destruct (Nat.ltb (String.length (trim (AddGameForm.name fd))) 2) eqn:E2;
      [absurd_errors|].
    destruct (Nat.ltb 50 _) eqn:E50; [absurd_errors|].
    apply Nat.ltb_ge in Ed, E2, E50.
    repeat split; try assumption.
    intros g Hg. rewrite find_none_iff in Ef.
    apply String.eqb_neq. now apply Ef.
  - intros ([L2 L50] & Hdup & Ld).
    rewrite (length_nonempty _ L2).
    apply Nat.ltb_ge in L2, L50, Ld. rewrite L2, L50, Ld.
    assert (Ef : find (fun game =>
                         String.eqb (toLowerCase (Game.name game))
                           (toLowerCase (trim (AddGameForm.name fd)))) games
                 = None).
    { apply find_none_iff. intros g Hg. apply String.eqb_neq. now apply Hdup. }
    now rewrite Ef.
Qed.

Lemma addScoreForm_validate_iff (parseFloat : string -> jsnum)
  (fd : AddScoreForm.FormData) :
  AddScoreForm.validateForm parseFloat fd = []
  <-> (AddScoreForm.gameId fd <> EmptyString
       /\ (if AddScoreForm.isNewPlayer fd
           then 2 <= String.length (trim (AddScoreForm.playerName fd)) <= 30
           else AddScoreForm.playerId fd <> EmptyString)
       /\ trim (AddScoreForm.scoreValue fd) <> EmptyString
       /\ (exists v, parseFloat (AddScoreForm.scoreValue fd) = Num v
                     /\ (zero <= v)%Qc /\ (v <= num_of_Z 999999999)%Qc)
       /\ String.length (trim (AddScoreForm.notes fd)) <= 100).
Proof.
  unfold AddScoreForm.validateForm. split.
  - intro E.
    destruct (Nat.ltb 100 _) eqn:En; [absurd_errors|].
    destruct (String.eqb (trim (AddScoreForm.scoreValue fd)) EmptyString) eqn:Es;
      [absurd_errors|].
    destruct (parseFloat (AddScoreForm.scoreValue fd)) as [|v]; [absurd_errors|].
    destruct (num_ltb v zero) eqn:Eneg; [absurd_errors|].
    destruct (num_ltb (num_of_Z 999999999) v) eqn:Ebig; [absurd_errors|].
    destruct (String.eqb (AddScoreForm.gameId fd) EmptyString) eqn:Eg.
    { destruct (AddScoreForm.isNewPlayer fd);
        repeat match goal with
          | E : context [if ?c then _ else _] |- _ => destruct c
          end; absurd_errors. }
    apply String.eqb_neq in Eg, Es. apply Nat.ltb_ge in En.
    apply num_ltb_ge in Eneg, Ebig.
    split; [exact Eg|]. split; [|split; [exact Es|split; [eauto|exact En]]].
    destruct (AddScoreForm.isNewPlayer fd).
    + destruct (String.eqb (trim (AddScoreForm.playerName fd)) EmptyString) eqn:E0;
        [absurd_errors|].
      destruct (Nat.ltb (String.length (trim (AddScoreForm.playerName fd))) 2) eqn:E2;
        [absurd_errors|].
      destruct (Nat.ltb 30 _) eqn:E30; [absurd_errors|].
      apply Nat.ltb_ge in E2, E30. auto.
    + destruct (String.eqb (AddScoreForm.playerId fd) EmptyString) eqn:Ep;
        [absurd_errors|].
      now apply String.eqb_neq.
  - intros (Hg & Hp & Hs & (v & Hv & H0 & Hbig) & Hn).
    apply String.eqb_neq in Hg, Hs. apply Nat.ltb_ge in Hn.
    apply num_ltb_ge in H0, Hbig.
    rewrite Hg, Hs, Hv, H0, Hbig, Hn.
    destruct (AddScoreForm.isNewPlayer fd).
    + destruct Hp as [L2 L30]. rewrite (length_nonempty _ L2).
      apply Nat.ltb_ge in L2, L30. now rewrite L2, L30.
    + apply String.eqb_neq in Hp. now rewrite Hp.
Qed.

(** X23. The Add Score form passes [validateForm] exactly when a game is
    selected, the player is given (a selected player, or for a new player a
    trimmed name of 2 to 30 characters), the score field is not blank and
    [parseFloat] reads it as a number from 0 to 999999999, and the trimmed
    notes have at most 100 characters. *)
Theorem addScoreForm_accepts_iff (parseFloat : string -> jsnum)
  (fd : AddScoreForm.FormData) :
  AddScoreForm.validateForm parseFloat fd = []
  <-> (AddScoreForm.gameId fd <> EmptyString
       /\ (if AddScoreForm.isNewPlayer fd
           then 2 <= String.length (trim (AddScoreForm.playerName fd)) <= 30
           else AddScoreForm.playerId fd <> EmptyString)
       /\ trim (AddScoreForm.scoreValue fd) <> EmptyString
       /\ (exists v, parseFloat (AddScoreForm.scoreValue fd) = Num v
                     /\ (zero <= v)%Qc /\ (v <= num_of_Z 999999999)%Qc)
       /\ String.length (trim (AddScoreForm.notes fd)) <= 100).
Proof. apply addScoreForm_validate_iff. Qed.

(** ** From the forms to the store *)

Lemma duplicate_name_flagged (games : list Game.t) (fd : AddGameForm.FormData)
  (g : Game.t) :
  In g games ->
  toLowerCase (Game.name g) = toLowerCase (trim (AddGameForm.name fd)) ->
  AddGameForm.validateForm games fd <> [].
Proof.
  intros Hin Hname. unfold AddGameForm.validateForm.
  destruct (find_of_In
              (fun game =>
                 String.eqb (toLowerCase (Game.name game))
                   (toLowerCase (trim (AddGameForm.name fd))))
              _ g Hin) as [y Hy].
  { rewrite Hname. apply String.eqb_refl. }
  rewrite Hy. destruct (Nat.ltb 200 _); apply obj_set_nonempty; discriminate.
Qed.

Section FormsToStore.
Context {B : Type} `{Storage.Api B}.

(** X24. When the Add Game form passes validation and the backend accepts
    the save, [handleSubmit] appends to [games] a game named by the trimmed
    name, with the trimmed description and no score, resets the form and
    shows the toast with that name; submitting afterwards any form whose
    trimmed, lower-cased name is the same is rejected and changes
    nothing. *)
Theorem addGameForm_submit_then_duplicate (uuid uuid' : string)
  (st st' : AddGameForm.State) (w : GameStore.World B)
  (response : ApiResponse.t bool) (b1 : B) :
  let fd := AddGameForm.formData st in
  let newGame :=
    Game.mk uuid (trim (AddGameForm.name fd))
      (Some (trim (AddGameForm.description fd))) (AddGameForm.isTimeBased fd)
      [] None None in
  AddGameForm.validateForm (GameStore.games (GameStore.store w)) fd = [] ->
  Storage.saveGame newGame (GameStore.backend w) = (Fulfilled response, b1) ->
  ApiResponse.success response = true ->
  uuid <> EmptyString ->
  toLowerCase (trim (AddGameForm.name (AddGameForm.formData st')))
  = toLowerCase (trim (AddGameForm.name fd)) ->
  let r := AddGameForm.handleSubmit uuid st w in
  GameStore.games (GameStore.store (snd r))
  = GameStore.games (GameStore.store w) ++ [newGame]
  /\ AddGameForm.formData (fst r) = AddGameForm.emptyForm
  /\ AddGameForm.showSuccessToast (fst r) = true
  /\ AddGameForm.createdGameName (fst r) = trim (AddGameForm.name fd)
  /\ snd (AddGameForm.handleSubmit uuid' st' (snd r)) = snd r.
Proof.
  intros fd newGame Hvalid Hsave Hok Huuid Hsame r.
  assert (Hr : r = (AddGameForm.mkState AddGameForm.emptyForm [] false true
                      (trim (AddGameForm.name fd)),
                    GameStore.mkWorld
                      (GameStore.setLoading false
                         (GameStore.setGames
                            (GameStore.games (GameStore.store w) ++ [newGame])
                            (GameStore.setError None
                               (GameStore.setLoading true (GameStore.store w)))))
                      b1)).
  { unfold r, AddGameForm.handleSubmit. fold fd. rewrite Hvalid.
    unfold GameStore.createGame. fold newGame. rewrite Hsave, Hok.
    cbn [negb truthy_str Game.id newGame].
    apply String.eqb_neq in Huuid. rewrite Huuid. reflexivity. }
  rewrite Hr. cbn [fst snd]. repeat split.
  unfold AddGameForm.handleSubmit.
  destruct (AddGameForm.validateForm _ (AddGameForm.formData st')) eqn:E;
    [|reflexivity].
  exfalso. revert E. apply (duplicate_name_flagged _ _ newGame).
  - cbn. apply in_or_app. right. now left.
  - cbn. now rewrite Hsame.
Qed.

Lemma addScore_players uuid now gameId playerId playerName value notes
  (w : GameStore.World B) :
  GameStore.players
    (GameStore.store
       (snd (GameStore.addScore uuid now gameId playerId playerName value notes w)))
  = GameStore.players (GameStore.store w).
Proof.
  unfold GameStore.addScore.
  cbn [GameStore.games GameStore.setError GameStore.setLoading].
  destruct (GameStore.findGame _ _); [|reflexivity].
  destruct (Storage.saveGame _ _) as [[response|e] b1];
    [destruct (ApiResponse.success response)|]; reflexivity.
Qed.

(** X25. Through the Add Score form, [handleSubmit] keeps the games in
    place and leaves each as it was, except that the selected game may get
    one score appended, and then that score has a value from 0 to
    999999999, the game's ranking direction as [isTime], and notes that are
    absent or have 1 to 100 characters. *)
Theorem addScoreForm_adds_valid_scores_only (parseFloat : string -> jsnum)
  (games : list Game.t) (playerUuid : string) (playerNow : Date)
  (scoreUuid : string) (scoreNow : Date) (st : AddScoreForm.State)
  (w : GameStore.World B) :
  Forall2
    (fun g g' =>
       g' = g
       \/ exists sc,
            g' = Game.with_scores g (Game.scores g ++ [sc])
            /\ Game.id g = AddScoreForm.gameId (AddScoreForm.formData st)
            /\ (zero <= Score.value sc)%Qc
            /\ (Score.value sc <= num_of_Z 999999999)%Qc
            /\ Score.isTime sc = Game.isTimeBased g
            /\ match Score.notes sc with
               | Some n => 1 <= String.length n <= 100
               | None => True
               end)
    (GameStore.games (GameStore.store w))
    (GameStore.games
       (GameStore.store
          (snd (AddScoreForm.handleSubmit parseFloat games playerUuid playerNow
                  scoreUuid scoreNow st w)))).
Proof.
  unfold AddScoreForm.handleSubmit.
  destruct (AddScoreForm.validateForm parseFloat (AddScoreForm.formData st))
    eqn:Ev; [|apply Forall2_refl; auto].
  apply addScoreForm_validate_iff in Ev.
  destruct Ev as (_ & _ & _ & (v & Hv & H0 & Hbig) & Hn).
  rewrite Hv.
  set (fd := AddScoreForm.formData st) in *.
  set (notes' := if String.eqb (trim (AddScoreForm.notes fd)) EmptyString
                 then None else Some (trim (AddScoreForm.notes fd))).
  assert (Hnotes : match notes' with
                   | Some n => 1 <= String.length n <= 100
                   | None => True
                   end).
  { unfold notes'.
    destruct (trim (AddScoreForm.notes fd)) eqn:Et; cbn; [exact I|].
    cbn in Hn. lia. }
  assert (Hstep : forall pId pName s1,
            GameStore.games s1 = GameStore.games (GameStore.store w) ->
            Forall2
              (fun g g' =>
                 g' = g
                 \/ exists sc,
                      g' = Game.with_scores g (Game.scores g ++ [sc])
                      /\ Game.id g = AddScoreForm.gameId fd
                      /\ (zero <= Score.value sc)%Qc
                      /\ (Score.value sc <= num_of_Z 999999999)%Qc
                      /\ Score.isTime sc = Game.isTimeBased g
                      /\ match Score.notes sc with
                         | Some n => 1 <= String.length n <= 100
                         | None => True
                         end)
              (GameStore.games (GameStore.store w))
              (GameStore.games
                 (GameStore.store
                    (snd (let '(success, w2) :=
                            GameStore.addScore scoreUuid scoreNow
                              (AddScoreForm.gameId fd) pId pName v notes'
                              (GameStore.mkWorld s1 (GameStore.backend w)) in
                          if success
                          then (AddScoreForm.mkState AddScoreForm.emptyForm [] false true
                                  (String.concat EmptyString
                                     [ "Score of ";
                                       match GameStore.findGame (AddScoreForm.gameId fd) games with
                                       | Some g =>
                                           if Game.isTimeBased g
                                           then String.append (AddScoreForm.scoreValue fd) "s"
                                           else AddScoreForm.scoreValue fd
                                       | None => AddScoreForm.scoreValue fd
                                       end;
                                       " added to "; dquote;
                                       str_or (option_map Game.name
                                                 (GameStore.findGame (AddScoreForm.gameId fd) games))
                                         "Unknown Game";
                                       dquote; " for "; pName; "!" ]), w2)
                          else (AddScoreForm.mkState fd [] false
                                  (AddScoreForm.showSuccessToast st)
                                  (AddScoreForm.successMessage st), w2)))))).
  { intros pId pName s1 Hg.
    pose proof (addScore_games_step scoreUuid scoreNow (AddScoreForm.gameId fd)
                  pId pName v notes' (GameStore.mkWorld s1 (GameStore.backend w)))
      as Hstep.
    cbn [GameStore.store] in Hstep. rewrite Hg in Hstep.
    destruct (GameStore.addScore _ _ _ _ _ _ _ _) as [[|] w2]; cbn [snd] in *;
      (eapply Forall2_impl; [|exact Hstep]);
      (intros g g' [->|[Hid ->]]; [now left|right; eexists;
         split; [reflexivity|cbn; auto 10]]). }
  destruct (AddScoreForm.isNewPlayer fd).
  - apply Hstep. reflexivity.
  - apply Hstep. reflexivity.
Qed.

(** X26. Through the Add Score form, a rejected form and a form for an
    existing player leave the list of players as it is; an accepted form
    for a new player appends that player, with the trimmed name, before the
    score is saved, and the player stays whether or not the score could be
    added. *)
Theorem addScoreForm_new_player_kept (parseFloat : string -> jsnum)
  (games : list Game.t) (playerUuid : string) (playerNow : Date)
  (scoreUuid : string) (scoreNow : Date) (st : AddScoreForm.State)
  (w : GameStore.World B) :
  let fd := AddScoreForm.formData st in
  GameStore.players
    (GameStore.store
       (snd (AddScoreForm.handleSubmit parseFloat games playerUuid playerNow
               scoreUuid scoreNow st w)))
  = match AddScoreForm.validateForm parseFloat fd with
    | [] =>
        if AddScoreForm.isNewPlayer fd
        then GameStore.players (GameStore.store w)
             ++ [Player.mk playerUuid (trim (AddScoreForm.playerName fd)) playerNow]
        else GameStore.players (GameStore.store w)
    | _ :: _ => GameStore.players (GameStore.store w)
    end.
Proof.
  intro fd. unfold AddScoreForm.handleSubmit. fold fd.
  destruct (AddScoreForm.validateForm parseFloat fd); [|reflexivity].
  destruct (AddScoreForm.isNewPlayer fd); cbn;
    (destruct (parseFloat (AddScoreForm.scoreValue fd)) as [|v]; [reflexivity|]);
    match goal with
    | |- context [GameStore.addScore ?u ?n ?g ?p ?pn ?v ?nt ?w0] =>
        pose proof (addScore_players u n g p pn v nt w0) as Hp;
        destruct (GameStore.addScore u n g p pn v nt w0) as [[|] w2]
    end; cbn in *; exact Hp.
Qed.
End FormsToStore.

(** ** Instances of the further properties *)

Lemma getScores_date_orders_witness :
  GameStore.findGame "g1" (GameStore.games (GameStore.store world0)) = Some sampleGame
  /\ forallb (fun sc => validDate (Score.achievedAt sc)) (Game.scores sampleGame) = true
  /\ StronglySorted
       (fun a b => newer_or_same (Score.achievedAt a) (Score.achievedAt b))
       (GameStore.getScores (GameStore.store world0) "g1" (Some NEWEST_FIRST) None)
  /\ StronglySorted
       (fun a b => newer_or_same (Score.achievedAt b) (Score.achievedAt a))
       (GameStore.getScores (GameStore.store world0) "g1" (Some OLDEST_FIRST) None).
Proof.
  split; [reflexivity|]. split; [reflexivity|].
  apply (getScores_date_orders (GameStore.store world0) "g1" None sampleGame);
    reflexivity.
Defined.

Lemma leaderboard_leader_is_best_witness :
  GameStore.findGame "g1" (GameStore.games (GameStore.store world0)) = Some sampleGame
  /\ GameStore.getLeaderboard (GameStore.store world0) "g1" None
     = [mkEntry alice aliceScore; mkEntry bob bobScore]
  /\ (In alice (GameStore.players (GameStore.store world0))
      /\ In aliceScore (Game.scores sampleGame)
      /\ Score.playerId aliceScore = Player.id alice)
  /\ forall p sc,
       In p (GameStore.players (GameStore.store world0)) ->
       In sc (Game.scores sampleGame) ->
       Score.playerId sc = Player.id p ->
       ranks_before (Game.isTimeBased sampleGame) aliceScore sc.
Proof.
  split; [reflexivity|]. split; [reflexivity|].
  exact (leaderboard_leader_is_best (GameStore.store world0) "g1" None sampleGame
           (mkEntry alice aliceScore) [mkEntry bob bobScore] eq_refl eq_refl).
Defined.

Lemma card_best_matches_leader_witness :
  GameStore.findGame "g1" (GameStore.games (GameStore.store world0)) = Some sampleGame
  /\ GameList.getBestScore sampleGame = Some aliceScore
  /\ In alice (GameStore.players (GameStore.store world0))
  /\ Player.id alice = Score.playerId aliceScore
  /\ (1 <= 3)%Z
  /\ exists e rest,
       GameStore.getLeaderboard (GameStore.store world0) "g1" (Some 3%Z) = e :: rest
       /\ Score.value (bestScore e) = Score.value aliceScore.
Proof.
  assert (Hin : In alice (GameStore.players (GameStore.store world0)))
    by (left; reflexivity).
  assert (Hlimit : (1 <= 3)%Z) by lia.
  split; [reflexivity|]. split; [reflexivity|]. split; [exact Hin|].
  split; [reflexivity|]. split; [exact Hlimit|].
  exact (card_best_matches_leader (GameStore.store world0) "g1" sampleGame
           aliceScore alice 3 eq_refl eq_refl Hin eq_refl Hlimit).
Defined.

Lemma savedStorage_keys :
  map fst (@StorageService.getGamesFromStorage savedStorage) = ["g9"].
Proof. reflexivity. Qed.

Lemma saveGame_upserts_witness :
  Game.id recentGame <> "__proto__"
  /\ @saveAccepted decimalDates roomyBrowser recentGame savedStorage = true
  /\ let before := StorageService.getGamesFromStorage savedStorage in
     let after := StorageService.getGamesFromStorage twoSaved in
     let gameFile := GameFile.mk (@StorageService.gameToJSON decimalDates recentGame) "1.0" in
     obj_get (Game.id recentGame) after = Some gameFile
     /\ (forall gameId, gameId <> Game.id recentGame ->
           obj_get gameId after = obj_get gameId before)
     /\ length after
        = match obj_get (Game.id recentGame) before with
          | Some _ => length before
          | None => S (length before)
          end
     /\ (obj_get (Game.id recentGame) before = None ->
         arrayIndex (Game.id recentGame) = None ->
         obj_entries after = obj_entries before ++ [(Game.id recentGame, gameFile)]).
Proof.
  assert (Hid : Game.id recentGame <> "__proto__") by discriminate.
  split; [exact Hid|]. split; [reflexivity|].
  exact (@saveGame_upserts decimalDates roomyBrowser recentGame savedStorage Hid eq_refl).
Defined.

Lemma deleteGame_then_missing_witness :
  NoDup (map fst (StorageService.getGamesFromStorage savedStorage))
  /\ isPrototypeName "g9" = false
  /\ @deleteAccepted roomyBrowser "g9" savedStorage = true
  /\ let ls' := snd (@StorageService.deleteGame roomyBrowser "g9" savedStorage) in
     fst (@StorageService.loadGame decimalDates roomyBrowser "g9" ls')
     = Fulfilled (ApiResponse.fail "Game not found")
     /\ fst (@StorageService.deleteGame roomyBrowser "g9" ls')
        = Fulfilled (ApiResponse.fail "Game not found")
     /\ forall other, other <> "g9" ->
          fst (@StorageService.loadGame decimalDates roomyBrowser other ls')
          = fst (@StorageService.loadGame decimalDates roomyBrowser other savedStorage).
Proof.
  assert (N : NoDup (map fst (StorageService.getGamesFromStorage savedStorage))).
  { rewrite savedStorage_keys. constructor; [intros []|constructor]. }
  split; [exact N|]. split; [reflexivity|]. split; [reflexivity|].
  exact (@deleteGame_then_missing decimalDates roomyBrowser "g9" savedStorage N
           eq_refl eq_refl).
Defined.

(** The stamped game was stored first and the more recent game second;
    [listGames] puts the more recent one first. *)
Lemma listGames_most_recent_first_witness :
  map fst (StorageService.getGamesFromStorage twoSaved) = ["g9"; "g7"]
  /\ forallb (fun kv => validDate (GameSummary.updatedAt (@summaryOf decimalDates kv)))
       (StorageService.getGamesFromStorage twoSaved) = true
  /\ fst (@StorageService.listGames decimalDates twoSaved)
     = Fulfilled
         (ApiResponse.ok
            [GameSummary.mk "g7" "Marathon" (TimeValue 2000);
             GameSummary.mk "g9" "Sprint" (TimeValue 1000)])
  /\ StronglySorted
       (fun a b => newer_or_same (GameSummary.updatedAt a) (GameSummary.updatedAt b))
       [GameSummary.mk "g7" "Marathon" (TimeValue 2000);
        GameSummary.mk "g9" "Sprint" (TimeValue 1000)].
Proof.
  split; [reflexivity|]. split; [reflexivity|]. split; [reflexivity|].
  exact (@listGames_most_recent_first decimalDates twoSaved
           [GameSummary.mk "g7" "Marathon" (TimeValue 2000);
            GameSummary.mk "g9" "Sprint" (TimeValue 1000)] eq_refl eq_refl).
Defined.

Lemma loadGames_replaces_games_witness :
  NoDup (map fst (StorageService.getGamesFromStorage (GameStore.backend worldSaved)))
  /\ let w' := @GameStore.loadGames _ decimalStorage worldSaved in
     Permutation (GameStore.games (GameStore.store w'))
       (map (fun kv => @StorageService.deserializeGame decimalDates
                         (GameFile.game (snd kv)))
          (StorageService.getGamesFromStorage (GameStore.backend worldSaved)))
     /\ GameStore.error (GameStore.store w') = None
     /\ GameStore.backend w' = GameStore.backend worldSaved.
Proof.
  assert (N : NoDup (map fst (StorageService.getGamesFromStorage
                                (GameStore.backend worldSaved)))).
  { cbn [GameStore.backend worldSaved]. rewrite savedStorage_keys.
    constructor; [intros []|constructor]. }
  split; [exact N|].
  exact (@loadGames_replaces_games decimalDates roomyBrowser worldSaved N).
Defined.

(** After [loadGames] the constructed store holds the stored game and no
    longer the sample game. *)
Example loadGames_drops_sample :
  GameStore.games (GameStore.store (@GameStore.loadGames _ decimalStorage worldSaved))
  = [stampedGame]
  /\ GameStore.games (GameStore.store (@GameStore.loadGames _ decimalStorage world0))
     = [].
Proof. split; reflexivity. Qed.

Lemma createGame_persisted_witness :
  "g2" <> "__proto__"
  /\ @saveAccepted decimalDates roomyBrowser sprintGame (GameStore.backend world0) = true
  /\ let r :=
       @GameStore.createGame _ decimalStorage "g2" "Sprint" (Some "100 m") true world0 in
     fst r = Some "g2"
     /\ GameStore.games (GameStore.store (snd r))
        = GameStore.games (GameStore.store world0) ++ [sprintGame]
     /\ fst (@StorageService.loadGame decimalDates roomyBrowser "g2"
               (GameStore.backend (snd r)))
        = Fulfilled
            (ApiResponse.ok
               (Game.mk "g2" "Sprint" (Some "100 m") true []
                  (Some InvalidDate) (Some InvalidDate))).
Proof.
  assert (Hid : "g2" <> "__proto__") by discriminate.
  split; [exact Hid|]. split; [reflexivity|].
  exact (@createGame_persisted decimalDates roomyBrowser "g2" "Sprint" (Some "100 m")
           true world0 Hid eq_refl).
Defined.

Lemma addScore_persisted_witness :
  let updatedGame :=
    Game.with_scores sampleGame
      (Game.scores sampleGame
       ++ [Score.mk "s3" "p1" "Alice" (num_of_Z 90) (Game.isTimeBased sampleGame)
             (TimeValue 5) None]) in
  GameStore.findGame "g1" (GameStore.games (GameStore.store world0)) = Some sampleGame
  /\ forallb (fun sc => validDate (Score.achievedAt sc)) (Game.scores sampleGame) = true
  /\ validDate (TimeValue 5) = true
  /\ "g1" <> "__proto__"
  /\ @saveAccepted decimalDates roomyBrowser updatedGame (GameStore.backend world0) = true
  /\ let r :=
       @GameStore.addScore _ decimalStorage "s3" (TimeValue 5) "g1" "p1" "Alice"
         (num_of_Z 90) None world0 in
     fst r = true
     /\ GameStore.findGame "g1" (GameStore.games (GameStore.store (snd r)))
        = Some updatedGame
     /\ exists loaded,
          fst (@StorageService.loadGame decimalDates roomyBrowser "g1" (GameStore.backend (snd r)))
          = Fulfilled (ApiResponse.ok loaded)
          /\ Game.id loaded = Game.id updatedGame
          /\ Game.name loaded = Game.name updatedGame
          /\ Game.description loaded = Game.description updatedGame
          /\ Game.isTimeBased loaded = Game.isTimeBased updatedGame
          /\ Game.scores loaded = Game.scores updatedGame.
Proof.
  intro updatedGame.
  assert (Hid : "g1" <> "__proto__") by discriminate.
  split; [reflexivity|]. split; [reflexivity|]. split; [reflexivity|].
  split; [exact Hid|]. split; [reflexivity|].
  exact (@addScore_persisted decimalDates roomyBrowser "s3" (TimeValue 5) "g1" "p1"
           "Alice" (num_of_Z 90) None world0 sampleGame eq_refl eq_refl eq_refl Hid
           eq_refl).
Defined.

Lemma deleteGame_unsaved_witness :
  ~ In "g1" (map fst (StorageService.getGamesFromStorage (GameStore.backend world0)))
  /\ isPrototypeName "g1" = false
  /\ GameStore.findGame "g1" (GameStore.games (GameStore.store world0)) = Some sampleGame
  /\ let r := @GameStore.deleteGame _ decimalStorage "g1" world0 in
     fst r = false
     /\ GameStore.games (GameStore.store (snd r)) = GameStore.games (GameStore.store world0)
     /\ GameStore.error (GameStore.store (snd r)) = Some "Game not found"
     /\ GameStore.backend (snd r) = GameStore.backend world0.
Proof.
  assert (Habsent : ~ In "g1" (map fst (StorageService.getGamesFromStorage
                                          (GameStore.backend world0))))
    by (intros []).
  split; [exact Habsent|]. split; [reflexivity|]. split; [reflexivity|].
  exact (@deleteGame_unsaved decimalDates roomyBrowser "g1" world0 Habsent eq_refl).
Defined.

Lemma deleteGame_saved_witness :
  NoDup (map fst (StorageService.getGamesFromStorage (GameStore.backend worldSaved)))
  /\ In "g9" (map fst (StorageService.getGamesFromStorage (GameStore.backend worldSaved)))
  /\ isPrototypeName "g9" = false
  /\ @deleteAccepted roomyBrowser "g9" (GameStore.backend worldSaved) = true
  /\ let r := @GameStore.deleteGame _ decimalStorage "g9" worldSaved in
     fst r = true
     /\ GameStore.findGame "g9" (GameStore.games (GameStore.store (snd r))) = None
     /\ GameStore.error (GameStore.store (snd r)) = None
     /\ fst (@StorageService.loadGame decimalDates roomyBrowser "g9" (GameStore.backend (snd r)))
        = Fulfilled (ApiResponse.fail "Game not found").
Proof.
  assert (N : NoDup (map fst (StorageService.getGamesFromStorage
                                (GameStore.backend worldSaved)))).
  { cbn [GameStore.backend worldSaved]. rewrite savedStorage_keys.
    constructor; [intros []|constructor]. }
  assert (Hin : In "g9" (map fst (StorageService.getGamesFromStorage
                                    (GameStore.backend worldSaved))))
    by (left; reflexivity).
  split; [exact N|]. split; [exact Hin|]. split; [reflexivity|].
  split; [reflexivity|].
  exact (@deleteGame_saved decimalDates roomyBrowser "g9" worldSaved N Hin eq_refl
           eq_refl).
Defined.

Lemma addGameForm_submit_then_duplicate_witness :
  AddGameForm.validateForm (GameStore.games (GameStore.store world0))
    (AddGameForm.formData sprintForm) = []
  /\ @Storage.saveGame _ decimalStorage sprintGame (GameStore.backend world0)
     = (Fulfilled (ApiResponse.ok true),
        snd (@StorageService.saveGame decimalDates roomyBrowser sprintGame None))
  /\ ApiResponse.success (ApiResponse.ok true) = true
  /\ "g2" <> EmptyString
  /\ toLowerCase (trim (AddGameForm.name (AddGameForm.formData sprintAgainForm)))
     = toLowerCase (trim (AddGameForm.name (AddGameForm.formData sprintForm)))
  /\ let r := @AddGameForm.handleSubmit _ decimalStorage "g2" sprintForm world0 in
     GameStore.games (GameStore.store (snd r))
     = GameStore.games (GameStore.store world0) ++ [sprintGame]
     /\ AddGameForm.formData (fst r) = AddGameForm.emptyForm
     /\ AddGameForm.showSuccessToast (fst r) = true
     /\ AddGameForm.createdGameName (fst r) = "Sprint"
     /\ snd (@AddGameForm.handleSubmit _ decimalStorage "g3" sprintAgainForm (snd r))
        = snd r.
Proof.
  assert (Huuid : "g2" <> EmptyString) by discriminate.
  split; [reflexivity|]. split; [reflexivity|]. split; [reflexivity|].
  split; [exact Huuid|]. split; [reflexivity|].
  exact (@addGameForm_submit_then_duplicate _ decimalStorage "g2" "g3" sprintForm
           sprintAgainForm world0 (ApiResponse.ok true)
           (snd (@StorageService.saveGame decimalDates roomyBrowser sprintGame None))
           eq_refl eq_refl eq_refl Huuid eq_refl).
Defined.

Lemma createGame_success_witness :
  @Storage.saveGame _ decimalStorage sprintGame (GameStore.backend world0)
  = (Fulfilled (ApiResponse.ok true),
     snd (@StorageService.saveGame decimalDates roomyBrowser sprintGame None))
  /\ ApiResponse.success (ApiResponse.ok true) = true
  /\ let r :=
       @GameStore.createGame _ decimalStorage "g2" "Sprint" (Some "100 m") true world0 in
     fst r = Some "g2"
     /\ GameStore.games (GameStore.store (snd r))
        = GameStore.games (GameStore.store world0) ++ [sprintGame]
     /\ GameStore.backend (snd r)
        = snd (@StorageService.saveGame decimalDates roomyBrowser sprintGame None).
Proof.
  split; [reflexivity|]. split; [reflexivity|].
  exact (@createGame_success _ decimalStorage "g2" "Sprint" (Some "100 m") true world0
           (ApiResponse.ok true)
           (snd (@StorageService.saveGame decimalDates roomyBrowser sprintGame None))
           eq_refl eq_refl).
Defined.

Lemma createGame_failure_witness :
  match fst (@Storage.saveGame _ (unreachableBucket "offline") sprintGame
               (GameStore.backend worldOffline)) with
  | Fulfilled response => ApiResponse.success response = false
  | Rejected _ => True
  end
  /\ let r :=
       @GameStore.createGame _ (unreachableBucket "offline") "g2" "Sprint"
         (Some "100 m") true worldOffline in
     fst r = None
     /\ GameStore.games (GameStore.store (snd r))
        = GameStore.games (GameStore.store worldOffline).
Proof.
  split; [reflexivity|].
  exact (@createGame_failure _ (unreachableBucket "offline") "g2" "Sprint"
           (Some "100 m") true worldOffline eq_refl).
Defined.

Lemma addScore_success_witness :
  let newScore := Score.mk "s3" "p1" "Alice" (num_of_Z 90) true (TimeValue 5) None in
  let updatedGame :=
    Game.with_scores sampleGame (Game.scores sampleGame ++ [newScore]) in
  GameStore.findGame "g1" (GameStore.games (GameStore.store world0)) = Some sampleGame
  /\ @Storage.saveGame _ decimalStorage updatedGame (GameStore.backend world0)
     = (Fulfilled (ApiResponse.ok true),
        snd (@StorageService.saveGame decimalDates roomyBrowser updatedGame None))
  /\ ApiResponse.success (ApiResponse.ok true) = true
  /\ let r :=
       @GameStore.addScore _ decimalStorage "s3" (TimeValue 5) "g1" "p1" "Alice"
         (num_of_Z 90) None world0 in
     fst r = true
     /\ (exists i,
           findIndex (fun g => String.eqb (Game.id g) "g1")
             (GameStore.games (GameStore.store world0)) = Some i
           /\ nth_error (GameStore.games (GameStore.store world0)) i = Some sampleGame
           /\ GameStore.games (GameStore.store (snd r))
              = set_nth i updatedGame (GameStore.games (GameStore.store world0)))
     /\ Game.updatedAt updatedGame = Game.updatedAt sampleGame.
Proof.
  intros newScore updatedGame.
  split; [reflexivity|]. split; [reflexivity|]. split; [reflexivity|].
  exact (@addScore_success _ decimalStorage "s3" (TimeValue 5) "g1" "p1" "Alice"
           (num_of_Z 90) None world0 sampleGame (ApiResponse.ok true)
           (snd (@StorageService.saveGame decimalDates roomyBrowser updatedGame None))
           eq_refl eq_refl eq_refl).
Defined.

Lemma addScore_failure_witness :
  GameStore.findGame "g1" (GameStore.games (GameStore.store worldOffline))
  = Some sampleGame
  /\ match fst (@Storage.saveGame _ (unreachableBucket "offline")
                  (Game.with_scores sampleGame
                     (Game.scores sampleGame
                      ++ [Score.mk "s3" "p1" "Alice" (num_of_Z 90)
                            (Game.isTimeBased sampleGame) (TimeValue 5) None]))
                  (GameStore.backend worldOffline)) with
     | Fulfilled response => ApiResponse.success response = false
     | Rejected _ => True
     end
  /\ let r :=
       @GameStore.addScore _ (unreachableBucket "offline") "s3" (TimeValue 5) "g1"
         "p1" "Alice" (num_of_Z 90) None worldOffline in
     fst r = false
     /\ GameStore.games (GameStore.store (snd r))
        = GameStore.games (GameStore.store worldOffline).
Proof.
  split; [reflexivity|]. split; [reflexivity|].
  exact (@addScore_failure _ (unreachableBucket "offline") "s3" (TimeValue 5) "g1"
           "p1" "Alice" (num_of_Z 90) None worldOffline sampleGame eq_refl eq_refl).
Defined.
